(** * Cluster compatibility check: a shallow embedding of
      [cluster_compat_check.py] and the properties of its orchestration core.

    The development follows the Python source function by function.

    - Python values that travel over the control channel or sit in result
      dictionaries are the inductive [pyval]; a [dict] whose insertion order
      is observable is an association list ([pydict]), the listener table
      [IperfServerManager._servers] is a [gmap] keyed by port.
    - Python [float]s are modelled by rationals ([Q]). Where the runner
      and the probes make a float from an integer ([float(n)], [n / 2])
      the model rounds to the nearest double and raises [OverflowError]
      as Python does; the result of the float32 all-reduce is what the
      torch environment delivers. The host's substitute results carry
      the quotient [n / 2] itself, which is the double as long as it is
      below [2 ** 53]. Infinities, NaN and the rounding of float
      arithmetic (division by 1e9, subtraction of times) are outside
      the model.
    - Effects are explicit: every blocking or failing library call reads its
      outcome from a scripted [world], and code runs in the monad [M], whose
      results are a value, a raised exception, or a hang (a blocking call
      that never returns).
    - Library functions whose exact text output is defined outside the
      repository ([repr], [int] parsing of strings, [str.strip],
      [str.splitlines], float formatting, [json.loads]) are the fields of
      the class [PyRuntime]. *)

From Stdlib Require Import ZArith QArith Qabs Qround String List Lia.
From stdpp Require Import base option list gmap strings pretty.

Set Warnings "-register-all".
Set Default Proof Using "Type".

Local Open Scope Z_scope.

(* ===================================================================== *)
(** * Python values *)
(* ===================================================================== *)

Inductive pyval :=
| PNone
| PBool (b : bool)
| PInt (z : Z)
| PFloat (q : Q)
| PStr (s : string)
| PList (l : list pyval)
| PDict (d : list (string * pyval)).

Abbreviation pydict := (list (string * pyval)).

(** Exception classes the program raises, catches or lets through. *)
Inductive exn_class :=
| TimeoutError        (* also [socket.timeout], its alias *)
| EOFError
| OSError             (* connection reset, broken pipe, bind failure *)
| FileNotFoundError
| TimeoutExpired      (* [subprocess.TimeoutExpired] *)
| JSONDecodeError
| KeyError
| TypeError
| ValueError
| AttributeError
| RuntimeError
| AssertionError
| ImportError
| OverflowError.

Record exn := Exn { exn_cls : exn_class; exn_msg : string }.

#[global] Instance exn_class_eq_dec : EqDecision exn_class.
Proof. solve_decision. Defined.

Definition exn_class_name (c : exn_class) : string :=
  match c with
  | TimeoutError => "TimeoutError"
  | EOFError => "EOFError"
  | OSError => "OSError"
  | FileNotFoundError => "FileNotFoundError"
  | TimeoutExpired => "TimeoutExpired"
  | JSONDecodeError => "JSONDecodeError"
  | KeyError => "KeyError"
  | TypeError => "TypeError"
  | ValueError => "ValueError"
  | AttributeError => "AttributeError"
  | RuntimeError => "RuntimeError"
  | AssertionError => "AssertionError"
  | ImportError => "ImportError"
  | OverflowError => "OverflowError"
  end.

(** The part of the Python runtime whose results are fixed outside the
    repository. *)
Class PyRuntime := {
  py_repr : pyval -> string;                (* [repr(v)] *)
  py_int_of_str : string -> option Z;       (* [int(s)], [None]: ValueError *)
  py_strip : string -> string;              (* [s.strip()] *)
  py_lower : string -> string;              (* [s.lower()] *)
  py_splitlines : string -> list string;    (* [s.splitlines()] *)
  py_format_3f : Q -> string;               (* [f"{x:.3f}"] *)
  json_loads : string -> option pyval       (* [json.loads(s)], [None]: it raised *)
}.

Module Py.

(** ** Dictionaries in insertion order *)

Fixpoint dict_get (k : string) (d : pydict) : option pyval :=
  match d with
  | [] => None
  | (k', v) :: d' => if String.eqb k k' then Some v else dict_get k d'
  end.

(** [d[k] = v]: an existing key keeps its position. *)
Fixpoint dict_set (k : string) (v : pyval) (d : pydict) : pydict :=
  match d with
  | [] => [(k, v)]
  | (k', v') :: d' =>
      if String.eqb k k' then (k', v) :: d' else (k', v') :: dict_set k v d'
  end.

(** [{**d1, **d2}] *)
Definition dict_merge (d1 d2 : pydict) : pydict :=
  fold_left (fun acc kv => dict_set (fst kv) (snd kv) acc) d2 d1.

(** [d.get(k)] and [d.get(k, dflt)] on a value known to be a dict. *)
Definition get (k : string) (d : pydict) : pyval :=
  default PNone (dict_get k d).

Definition get_or (k : string) (dflt : pyval) (d : pydict) : pyval :=
  default dflt (dict_get k d).

(** ** Truth value, [bool(v)] *)

Definition Qlt_bool (x y : Q) : bool := negb (Qle_bool y x).

Definition truthy (v : pyval) : bool :=
  match v with
  | PNone => false
  | PBool b => b
  | PInt z => negb (z =? 0)
  | PFloat q => negb (Qeq_bool q 0)
  | PStr s => negb (String.eqb s "")
  | PList l => match l with [] => false | _ => true end
  | PDict d => match d with [] => false | _ => true end
  end.

(** [isinstance(v, (int, float))]; [bool] is a subclass of [int]. *)
Definition is_number (v : pyval) : bool :=
  match v with
  | PBool _ | PInt _ | PFloat _ => true
  | _ => false
  end.

(** [round(x, 3)]: to the nearest thousandth, ties to even. *)
Definition round3 (x : Q) : Q :=
  let y := (x * inject_Z 1000)%Q in
  let f := Qfloor y in
  let r := (y - inject_Z f)%Q in
  let n := if Qlt_bool r (1 # 2) then f
           else if Qlt_bool (1 # 2) r then f + 1
           else if Z.even f then f else f + 1 in
  (inject_Z n / inject_Z 1000)%Q.

(** ** Binary floating point *)

(** [2 ** k] for any integer [k] *)
Definition pow2 (k : Z) : Q :=
  if 0 <=? k then inject_Z (2 ^ k) else (1 / inject_Z (2 ^ (- k)))%Q.

(** The integer nearest to [y], ties to even. *)
Definition nearest_even (y : Q) : Z :=
  let f := Qfloor y in
  let r := (y - inject_Z f)%Q in
  if Qlt_bool r (1 # 2) then f
  else if Qlt_bool (1 # 2) r then f + 1
  else if Z.even f then f else f + 1.

(** [floor(log2(a))] for [a > 0] *)
Definition ilog2 (a : Q) : Z :=
  let e := Z.log2 (Qnum a) - Z.log2 (Z.pos (Qden a)) in
  if Qlt_bool a (pow2 e) then e - 1 else e.

(** The number nearest to [x], ties to even, among those a binary
    format with [prec] bits of precision and least exponent [emin] can
    write, in lowest terms; the largest exponent of the format is not
    applied here. *)
Definition round_binary (prec emin : Z) (x : Q) : Q :=
  if Qeq_bool x 0 then 0%Q
  else
    let a := Qabs (Qred x) in
    let q := Z.max (ilog2 a - prec + 1) emin in
    let r := (inject_Z (nearest_even (a / pow2 q)) * pow2 q)%Q in
    Qred (if Qlt_bool x 0 then - r else r).

(** A float32, the element type of the tensor of line 228. *)
Definition round_float32 (x : Q) : Q := round_binary 24 (-149) x.

(** The double nearest to an exact value: Python raises [OverflowError]
    when it lies beyond the largest double. *)
Definition double_of (message : string) (x : Q) : exn + Q :=
  let r := round_binary 53 (-1074) x in
  if Qlt_bool (Qabs r) (pow2 1024) then inr r
  else inl (Exn OverflowError message).

(** [float(v)] for a number [v]. *)
Definition float (v : pyval) : exn + Q :=
  match v with
  | PBool b => inr (if b then 1%Q else 0%Q)
  | PInt z => double_of "int too large to convert to float" (inject_Z z)
  | PFloat q => inr q
  | _ => inl (Exn TypeError "float() argument must be a string or a real number")
  end.

(** The value of [float(v)] where it has one. *)
Definition to_float (v : pyval) : Q :=
  match float v with
  | inr q => q
  | inl _ => 0%Q
  end.

Section WithRuntime.
Context `{PyRuntime}.

(** [str(v)] *)
Definition str (v : pyval) : string :=
  match v with
  | PStr s => s
  | _ => py_repr v
  end.

(** [repr(e)] of an exception built from one message. *)
Definition exn_repr (e : exn) : string :=
  exn_class_name (exn_cls e) +:+ "(" +:+ py_repr (PStr (exn_msg e)) +:+ ")".

(** [int(v)] *)
Definition int (v : pyval) : exn + Z :=
  match v with
  | PBool b => inr (if b then 1 else 0)
  | PInt z => inr z
  | PFloat q => inr (Z.quot (Qnum q) (Z.pos (Qden q)))
  | PStr s =>
      match py_int_of_str s with
      | Some z => inr z
      | None => inl (Exn ValueError "invalid literal for int() with base 10")
      end
  | PNone | PList _ | PDict _ =>
      inl (Exn TypeError "int() argument must be a string, a bytes-like object or a real number")
  end.

(** [v.get(k, dflt)] on an arbitrary value: only a dict has [get]. *)
Definition getattr_get (v : pyval) (k : string) (dflt : pyval) : exn + pyval :=
  match v with
  | PDict d => inr (get_or k dflt d)
  | _ => inl (Exn AttributeError "object has no attribute 'get'")
  end.

(** [v[k]] for a string key. *)
Definition getitem (v : pyval) (k : string) : exn + pyval :=
  match v with
  | PDict d =>
      match dict_get k d with
      | Some x => inr x
      | None => inl (Exn KeyError k)
      end
  | _ => inl (Exn TypeError "indices must be integers or slices, not str")
  end.
End WithRuntime.

End Py.

(* ===================================================================== *)
(** * The collective test runner *)
(* ===================================================================== *)

(** What the torch runtime does during one call of
    [_run_nccl_distributed]: [None] in an [option exn] means the call
    returned normally. *)
Record torch_env := {
  te_hostname : string;            (* [socket.gethostname()] *)
  te_time_start : Q;               (* [time.time()] on entry *)
  te_time_end : Q;                 (* [time.time()] before returning *)
  te_import : option exn;          (* [import torch], [import torch.distributed] *)
  te_cuda_available : bool;        (* [torch.cuda.is_available()] *)
  te_device_count : Z;             (* [torch.cuda.device_count()] *)
  te_join : option exn;            (* environ, [set_device], [init_process_group] *)
  te_all_reduce : Q -> exn + Q;    (* own contribution -> reduced [x.item()] *)
  te_barrier : option exn;         (* [dist.barrier()] *)
  te_destroy : option exn          (* [destroy_process_group()], swallowed *)
}.

Section Nccl.
Context `{PyRuntime}.

Definition tolerance : Q := 1 # 10000.

(** [world_size * (world_size - 1) / 2] over the rationals. *)
Definition expected_sum (world_size : Z) : Q :=
  (inject_Z (world_size * (world_size - 1)) / inject_Z 2)%Q.

(** Line 196, [float(world_size * (world_size - 1) / 2)]: the true
    division of two integers gives the nearest double, or raises. *)
Definition expected_sum_float (world_size : Z) : exn + Q :=
  Py.double_of "integer division result too large for a float"
               (expected_sum world_size).

Definition float_str (q : Q) : string := py_repr (PFloat q).

(** The body of the second [try] block: either the exception it raised,
    or the reduced value it stored. *)
Definition nccl_try_body (env : torch_env) (rank : Z) : exn + Q :=
  if negb (te_cuda_available env) then
    inl (Exn RuntimeError "torch.cuda.is_available() is False")
  else if te_device_count env <? 1 then
    inl (Exn RuntimeError "no CUDA GPU detected")
  else match te_join env with
    | Some e => inl e
    | None =>
        match Py.float (PInt rank) with
        | inl e => inl e
        | inr own =>
            match te_all_reduce env own with
            | inl e => inl e
            | inr reduced =>
                match te_barrier env with
                | Some e => inl e
                | None => inr reduced
                end
            end
        end
    end.

Definition _run_nccl_distributed (env : torch_env)
    (rank world_size : Z) (master_addr : string) (master_port timeout_seconds : Z)
  : exn + pydict :=
  match expected_sum_float world_size with
  | inl e => inl e
  | inr expected =>
      let result : pydict :=
        [ ("ok", PBool false);
          ("rank", PInt rank);
          ("world_size", PInt world_size);
          ("hostname", PStr (te_hostname env));
          ("sum", PNone);
          ("expected_sum", PFloat expected);
          ("elapsed_seconds", PFloat 0);
          ("error", PStr "") ] in
      let elapsed := PFloat (Py.round3 (te_time_end env - te_time_start env)) in
      match te_import env with
      | Some e =>
          let result :=
            Py.dict_set "error" (PStr ("import torch failed: " +:+ Py.exn_repr e)) result in
          inr (Py.dict_set "elapsed_seconds" elapsed result)
      | None =>
          let result :=
            match nccl_try_body env rank with
            | inr reduced =>
                let result := Py.dict_set "sum" (PFloat reduced) result in
                let ok := Py.Qlt_bool (Qabs (reduced - expected)) tolerance in
                let result := Py.dict_set "ok" (PBool ok) result in
                if negb ok then
                  Py.dict_set "error"
                    (PStr ("all_reduce sum mismatch: got=" +:+ float_str reduced
                           +:+ ", expected=" +:+ float_str expected))
                    result
                else result
            | inl e => Py.dict_set "error" (PStr (Py.exn_repr e)) result
            end in
          inr (Py.dict_set "elapsed_seconds" elapsed result)
      end
  end.

(** The fields of a collective test result. *)
Definition result_fields : list string :=
  ["ok"; "rank"; "world_size"; "hostname"; "sum"; "expected_sum";
   "elapsed_seconds"; "error"].

(** A collective group of [world_size] participants in which the
    participant of rank [r] contributes [float(r)], and the all-reduce
    delivers the sum of the contributions. *)
Definition group_contributions (world_size : Z) : list Q :=
  map (fun r => inject_Z (Z.of_nat r)) (seq 0 (Z.to_nat world_size)).

Definition all_reduce_sum (contributions : list Q) : Q :=
  fold_right Qplus 0%Q contributions.

(** The tensor of line 228 has torch's default element type, float32:
    each participant's contribution is first written as a float32, and
    the all-reduce adds the contributions two at a time, in an order
    and grouping of its own choosing, every addition giving the float32
    nearest to the sum of its operands. *)
Definition float32_add (a b : Q) : Q := Py.round_float32 (a + b).

Inductive float32_reduces : list Q -> Q -> Prop :=
| reduces_one (x : Q) :
    float32_reduces [x] (Py.round_float32 x)
| reduces_join (l1 l2 : list Q) (s1 s2 : Q) :
    float32_reduces l1 s1 -> float32_reduces l2 s2 ->
    float32_reduces (l1 ++ l2) (float32_add s1 s2)
| reduces_reorder (l l' : list Q) (s : Q) :
    l ≡ₚ l' -> float32_reduces l s -> float32_reduces l' s.

(** One such order: rank 0 first, then each next rank added to the
    running sum. *)
Definition float32_chain (contributions : list Q) : Q :=
  match contributions with
  | [] => 0%Q
  | x :: l => fold_left (fun s y => float32_add s (Py.round_float32 y)) l (Py.round_float32 x)
  end.

(** A contribution that is a natural number, as every rank is. *)
Definition natural (x : Q) : Prop := exists n : Z, 0 <= n /\ (x == inject_Z n)%Q.

(** The values a float32 can hold. *)
Definition is_float32 (x : Q) : Prop :=
  exists m e : Z,
    Z.abs m < 2 ^ 24 /\ -149 <= e <= 104 /\ (x == inject_Z m * Py.pow2 e)%Q.

End Nccl.

(* ===================================================================== *)
(** * Effects: the scripted world and the monad of the program *)
(* ===================================================================== *)

(** What the peer of a connection does when the program next reads. *)
Inductive rx_event :=
| RxLine (v : option pyval)  (* one line arrives; [None]: it is not valid JSON *)
| RxSilent                   (* nothing arrives for as long as the reader waits *)
| RxClosed                   (* the stream ends, [readline] returns the empty string *)
| RxError (e : exn).         (* [readline] raises, e.g. connection reset *)

(** One connected socket with the two [makefile] objects of its
    [JsonChannel]. *)
Record sock := Sock {
  sk_timeout : option Q;         (* [gettimeout()]; [None]: blocking *)
  sk_rx : list rx_event;         (* the peer's script; exhausted: closed *)
  sk_tx : list (option exn);     (* outcomes of the next flushes; exhausted: success *)
  sk_sent : list pyval;          (* payloads flushed so far, oldest first *)
  sk_timed_out : bool;           (* the reader saw a timeout and refuses further reads *)
  sk_closed : bool
}.

#[global] Instance sock_inhabited : Inhabited sock :=
  populate (Sock None [] [] [] false true).

Inductive accept_event :=
| AcceptConn (peer : sock) (addr : string)
| AcceptError (e : exn).

(** Outcome of one [subprocess.run]. *)
Inductive run_outcome :=
| RunExit (returncode : Z) (stdout stderr : string)
| RunNotFound (e : exn)
| RunTimeout (stdout stderr : option string)  (* [None]: the attribute is not a [str] *)
| RunOther (e : exn).

(** How a spawned listener process ends when it is reaped. *)
Inductive comm_outcome :=
| CommExit (returncode : Z) (stdout stderr : string)
| CommTimeout (stdout stderr : string).       (* output collected after [kill] *)

Record proc := Proc { pr_pid : nat; pr_port : Z; pr_end : comm_outcome }.

(** A registered worker; [wc_channel] names its connection in the world. *)
Record WorkerConnection := {
  wc_rank : Z;
  wc_hostname : string;
  wc_advertised_ip : string;
  wc_peer_ip : string;
  wc_gpu_count : Z;
  wc_channel : nat
}.

Record NodeInfo := {
  ni_rank : Z;
  ni_name : string;
  ni_ip : string;
  ni_is_host : bool;
  ni_worker : option WorkerConnection
}.

Inductive out_item :=
| OutLine (s : string)
| OutTable (headers : list string) (rows : list (list pyval)).

Record world := World {
  w_socks : gmap nat sock;               (* connections by channel id *)
  w_accept : list accept_event;          (* future [listener.accept()]; exhausted: blocks *)
  w_bind : Z -> option exn;              (* the system refusing the control listener on a port *)
  w_stdin : list string;                 (* future [input()] lines; exhausted: EOF *)
  w_run : list run_outcome;              (* future [subprocess.run]; exhausted: not found *)
  w_popen : list (exn + comm_outcome);   (* future [subprocess.Popen]; exhausted: not found *)
  w_spawned : list proc;                 (* processes spawned so far, oldest first *)
  w_killed : list nat;                   (* pids killed so far *)
  w_servers : gmap Z proc;               (* [IperfServerManager._servers] of this process *)
  w_torch : torch_env;
  w_out : list out_item;                 (* tables printed so far, oldest first *)
  w_workers : list WorkerConnection      (* the host's mutable list [workers] *)
}.

Definition set_socks (f : gmap nat sock -> gmap nat sock) (w : world) : world :=
  World (f (w_socks w)) (w_accept w) (w_bind w) (w_stdin w) (w_run w) (w_popen w)
        (w_spawned w) (w_killed w) (w_servers w) (w_torch w) (w_out w) (w_workers w).
Definition set_accept (l : list accept_event) (w : world) : world :=
  World (w_socks w) l (w_bind w) (w_stdin w) (w_run w) (w_popen w)
        (w_spawned w) (w_killed w) (w_servers w) (w_torch w) (w_out w) (w_workers w).
Definition set_stdin (l : list string) (w : world) : world :=
  World (w_socks w) (w_accept w) (w_bind w) l (w_run w) (w_popen w)
        (w_spawned w) (w_killed w) (w_servers w) (w_torch w) (w_out w) (w_workers w).
Definition set_run (l : list run_outcome) (w : world) : world :=
  World (w_socks w) (w_accept w) (w_bind w) (w_stdin w) l (w_popen w)
        (w_spawned w) (w_killed w) (w_servers w) (w_torch w) (w_out w) (w_workers w).
Definition set_popen (l : list (exn + comm_outcome)) (w : world) : world :=
  World (w_socks w) (w_accept w) (w_bind w) (w_stdin w) (w_run w) l
        (w_spawned w) (w_killed w) (w_servers w) (w_torch w) (w_out w) (w_workers w).
Definition set_spawned (l : list proc) (w : world) : world :=
  World (w_socks w) (w_accept w) (w_bind w) (w_stdin w) (w_run w) (w_popen w)
        l (w_killed w) (w_servers w) (w_torch w) (w_out w) (w_workers w).
Definition set_killed (l : list nat) (w : world) : world :=
  World (w_socks w) (w_accept w) (w_bind w) (w_stdin w) (w_run w) (w_popen w)
        (w_spawned w) l (w_servers w) (w_torch w) (w_out w) (w_workers w).
Definition set_servers (m : gmap Z proc) (w : world) : world :=
  World (w_socks w) (w_accept w) (w_bind w) (w_stdin w) (w_run w) (w_popen w)
        (w_spawned w) (w_killed w) m (w_torch w) (w_out w) (w_workers w).
Definition set_out (l : list out_item) (w : world) : world :=
  World (w_socks w) (w_accept w) (w_bind w) (w_stdin w) (w_run w) (w_popen w)
        (w_spawned w) (w_killed w) (w_servers w) (w_torch w) l (w_workers w).
Definition set_workers (l : list WorkerConnection) (w : world) : world :=
  World (w_socks w) (w_accept w) (w_bind w) (w_stdin w) (w_run w) (w_popen w)
        (w_spawned w) (w_killed w) (w_servers w) (w_torch w) (w_out w) l.

(** Results of a computation: a value, an exception on its way up, or a
    blocking call that never returns. *)
Inductive res (A : Type) :=
| Ret (a : A)
| Raise (e : exn)
| Hang.
Arguments Ret {A} a.
Arguments Raise {A} e.
Arguments Hang {A}.

Definition M (A : Type) : Type := world -> res A * world.

#[global] Instance M_ret : MRet M := fun A a w => (Ret a, w).

#[global] Instance M_bind : MBind M := fun A B k c w =>
  match c w with
  | (Ret a, w') => k a w'
  | (Raise e, w') => (Raise e, w')
  | (Hang, w') => (Hang, w')
  end.

Definition raise {A} (e : exn) : M A := fun w => (Raise e, w).
Definition hang {A} : M A := fun w => (Hang, w).
Definition gets {A} (f : world -> A) : M A := fun w => (Ret (f w), w).
Definition modify (f : world -> world) : M unit := fun w => (Ret tt, f w).

(** A pure step that may raise. *)
Definition lift {A} (r : exn + A) : M A :=
  match r with
  | inl e => raise e
  | inr a => mret a
  end.

(** [try: c  except Exception as e: h e] *)
Definition try_except {A} (c : M A) (h : exn -> M A) : M A := fun w =>
  match c w with
  | (Raise e, w') => h e w'
  | r => r
  end.

(** [try: c  finally: f]: an exception of [f] replaces the result of [c]. *)
Definition try_finally {A} (c : M A) (f : M unit) : M A := fun w =>
  match c w with
  | (Hang, w') => (Hang, w')
  | (r, w') =>
      match f w' with
      | (Ret _, w'') => (r, w'')
      | (Raise e, w'') => (Raise e, w'')
      | (Hang, w'') => (Hang, w'')
      end
  end.

(** [try: c  except Exception: pass] *)
Definition swallow (c : M unit) : M unit := try_except c (fun _ => mret tt).

(** [for x in l: body x] *)
Fixpoint for_each {A} (l : list A) (body : A -> M unit) : M unit :=
  match l with
  | [] => mret tt
  | x :: l' => body x ≫= fun _ => for_each l' body
  end.

Definition print_table (headers : list string) (rows : list (list pyval)) : M unit :=
  modify (fun w => set_out (w_out w ++ [OutTable headers rows]) w).

(** The socket behind channel [ch]. *)
Definition the_sock (ch : nat) (w : world) : sock := w_socks w !!! ch.

(** Events the peer of [ch] has still to deliver: every turn of a read
    loop that goes round again has consumed one of them. *)
Definition rx_pending (ch : nat) (w : world) : nat :=
  length (sk_rx (the_sock ch w)).

(** A socket's timeout is [None] or a non-negative number. *)
Definition valid_timeout (t : option Q) : Prop :=
  match t with
  | Some q => (0 <= q)%Q
  | None => True
  end.

(** [wp c Q w]: running [c] in [w] ends in a result and a world that
    satisfy [Q]. *)
Definition wp {A} (c : M A) (Q : res A -> world -> Prop) (w : world) : Prop :=
  Q (c w).1 (c w).2.

(** [c] never lengthens what the peer of [ch] has still to deliver. *)
Definition keeps_rx (ch : nat) {A} (c : M A) : Prop :=
  forall w, wp c (fun _ w' => (rx_pending ch w' <= rx_pending ch w)%nat) w.

(* ===================================================================== *)
(** * The control channel *)
(* ===================================================================== *)

Module JsonChannel.

Definition sock_of (ch : nat) : M sock := gets (the_sock ch).

Definition put_sock (ch : nat) (s : sock) : M unit :=
  modify (set_socks (insert ch s)).

Definition with_timeout (t : option Q) (s : sock) : sock :=
  Sock t (sk_rx s) (sk_tx s) (sk_sent s) (sk_timed_out s) (sk_closed s).
Definition with_rx (rx : list rx_event) (timed_out : bool) (s : sock) : sock :=
  Sock (sk_timeout s) rx (sk_tx s) (sk_sent s) timed_out (sk_closed s).
Definition with_tx (tx : list (option exn)) (sent : list pyval) (s : sock) : sock :=
  Sock (sk_timeout s) (sk_rx s) tx sent (sk_timed_out s) (sk_closed s).
Definition with_closed (s : sock) : sock :=
  Sock (sk_timeout s) (sk_rx s) (sk_tx s) (sk_sent s) (sk_timed_out s) true.

(** [sock.gettimeout()] *)
Definition gettimeout (ch : nat) : M (option Q) :=
  s ← sock_of ch; mret (sk_timeout s).

(** [sock.settimeout(t)]: a negative value is refused before anything is
    stored; on a closed socket the value is stored and the call then
    fails on the dead descriptor. *)
Definition settimeout (ch : nat) (t : option Q) : M unit :=
  s ← sock_of ch;
  if match t with Some q => Py.Qlt_bool q 0 | None => false end
  then raise (Exn ValueError "Timeout value out of range")
  else
    put_sock ch (with_timeout t s) ;;
    if sk_closed s then raise (Exn OSError "Bad file descriptor") else mret tt.

(** [reader.readline()]: [None] is the empty string of a finished stream,
    [Some p] a line whose JSON reading is [p]. *)
Definition readline (ch : nat) : M (option (option pyval)) :=
  s ← sock_of ch;
  if sk_closed s then raise (Exn ValueError "I/O operation on closed file.")
  else if sk_timed_out s then raise (Exn OSError "cannot read from timed out object")
  else match sk_rx s with
       | [] | RxClosed :: _ => mret None
       | RxLine p :: rx => put_sock ch (with_rx rx false s) ;; mret (Some p)
       | RxError e :: rx => put_sock ch (with_rx rx false s) ;; raise e
       | RxSilent :: rx =>
           match sk_timeout s with
           | None => hang
           | Some _ => put_sock ch (with_rx rx true s) ;; raise (Exn TimeoutError "timed out")
           end
       end.

Definition send (ch : nat) (payload : pydict) : M unit :=
  s ← sock_of ch;
  if sk_closed s then raise (Exn ValueError "I/O operation on closed file.")
  else match sk_tx s with
       | Some e :: tx => put_sock ch (with_tx tx (sk_sent s) s) ;; raise e
       | None :: tx => put_sock ch (with_tx tx (sk_sent s ++ [PDict payload]) s)
       | [] => put_sock ch (with_tx [] (sk_sent s ++ [PDict payload]) s)
       end.

Definition recv (ch : nat) (timeout : option Q) : M pyval :=
  previous_timeout ← gettimeout ch;
  line ← try_finally
           (try_except (settimeout ch timeout ;; readline ch)
              (fun e => if decide (exn_cls e = TimeoutError)
                        then raise (Exn TimeoutError "socket read timeout")
                        else raise e))
           (settimeout ch previous_timeout);
  match line with
  | None => raise (Exn EOFError "peer closed connection")
  | Some None => raise (Exn JSONDecodeError "Expecting value")
  | Some (Some v) => mret v
  end.

Definition close (ch : nat) : M unit :=
  s ← sock_of ch; put_sock ch (with_closed s).

End JsonChannel.

(** The world after the worker has read one line from [ch] and answered
    it with [payload]. *)
Definition answered (ch : nat) (rx : list rx_event) (payload : pydict) (w : world) : world :=
  let s := the_sock ch w in
  set_socks (insert ch (Sock (sk_timeout s) rx (tail (sk_tx s))
                             (sk_sent s ++ [PDict payload]) false false)) w.

(** The next flush on the socket will succeed. *)
Definition flush_succeeds (s : sock) : Prop :=
  match sk_tx s with
  | Some _ :: _ => False
  | _ => True
  end.

(* ===================================================================== *)
(** * Subprocesses and the listener manager *)
(* ===================================================================== *)

Definition str_or (a b : string) : string := if String.eqb a "" then b else a.

Definition seconds (z : Z) : option Q := Some (inject_Z z).

Section Subprocess.
Context `{PyRuntime}.

Definition _run_command (cmd : list string) (timeout : Z) : M (Z * string * string) :=
  script ← gets w_run;
  match script with
  | [] => mret (127, "", "No such file or directory")
  | o :: script' =>
      modify (set_run script') ;;
      match o with
      | RunExit rc out err => mret (rc, py_strip out, py_strip err)
      | RunNotFound e => mret (127, "", exn_msg e)
      | RunTimeout out err =>
          let out := match out with Some s => py_strip s | None => "" end in
          let err := match err with Some s => py_strip s | None => "" end in
          mret (124, out, str_or err "command timeout")
      | RunOther e => mret (1, "", Py.exn_repr e)
      end
  end.

Definition _first_non_empty_line (text : string) : string :=
  match filter (fun l => l ≠ "") (map py_strip (py_splitlines text)) with
  | [] => ""
  | l :: _ => l
  end.

(** [subprocess.Popen] of a one-shot listener on [port]. *)
Definition popen_listener (port : Z) : M (exn + proc) :=
  script ← gets w_popen;
  match script with
  | [] => mret (inl (Exn FileNotFoundError "No such file or directory: 'iperf3'"))
  | o :: script' =>
      modify (set_popen script') ;;
      match o with
      | inl e => mret (inl e)
      | inr c =>
          spawned ← gets w_spawned;
          let p := Proc (length spawned) port c in
          modify (set_spawned (spawned ++ [p])) ;;
          mret (inr p)
      end
  end.

Definition kill (p : proc) : M unit :=
  modify (fun w => set_killed (w_killed w ++ [pr_pid p]) w).

End Subprocess.

Module IperfServerManager.
Section WithRuntime.
Context `{PyRuntime}.

(** [__init__]: a manager with no listener. *)
Definition init : M unit := modify (set_servers ∅).

Definition start (port : Z) : M pydict :=
  servers ← gets w_servers;
  match servers !! port with
  | Some _ =>
      mret [ ("ok", PBool false);
             ("error", PStr ("iperf3 server already exists on port " +:+ pretty port)) ]
  | None =>
      r ← popen_listener port;
      match r with
      | inl e => mret [ ("ok", PBool false); ("error", PStr (Py.exn_repr e)) ]
      | inr p =>
          modify (fun w => set_servers (<[port := p]> (w_servers w)) w) ;;
          mret [ ("ok", PBool true) ]
      end
  end.

Definition wait (port timeout_seconds : Z) : M pydict :=
  servers ← gets w_servers;
  modify (set_servers (delete port servers)) ;;
  match servers !! port with
  | None =>
      mret [ ("ok", PBool false);
             ("error", PStr ("iperf3 server not found on port " +:+ pretty port)) ]
  | Some p =>
      match pr_end p with
      | CommTimeout out err =>
          kill p ;;
          mret [ ("ok", PBool false);
                 ("returncode", PInt 124);
                 ("stdout", PStr out);
                 ("stderr", PStr (err +:+ " timeout")) ]
      | CommExit rc out err =>
          mret [ ("ok", PBool (rc =? 0));
                 ("returncode", PInt rc);
                 ("stdout", PStr out);
                 ("stderr", PStr err) ]
      end
  end.

Definition shutdown_all : M unit :=
  servers ← gets w_servers;
  for_each (map_to_list servers) (fun kv => kill (snd kv)) ;;
  modify (set_servers ∅).

(** The calls a client can make on a manager, and a run of them. *)
Inductive call :=
| Start (port : Z)
| Wait (port timeout_seconds : Z)
| ShutdownAll.

Definition run_call (c : call) : M unit :=
  match c with
  | Start port => start port ;; mret tt
  | Wait port timeout_seconds => wait port timeout_seconds ;; mret tt
  | ShutdownAll => shutdown_all
  end.

End WithRuntime.

(** The number of tracked listener processes that listen on [port]. *)
Definition listeners_on (port : Z) (w : world) : nat :=
  length (filter (fun kv => pr_port (snd kv) = port) (map_to_list (w_servers w))).

(** Every tracked process is filed under the port it listens on. *)
Definition filed_by_port (servers : gmap Z proc) : Prop :=
  forall port p, servers !! port = Some p -> pr_port p = port.

Definition refusal (port : Z) : pydict :=
  [ ("ok", PBool false);
    ("error", PStr ("iperf3 server already exists on port " +:+ pretty port)) ].

End IperfServerManager.

(* ===================================================================== *)
(** * Throughput probes *)
(* ===================================================================== *)

(** [max(candidates)] on a non-empty list: the first of the largest. *)
Fixpoint qmax (x : Q) (l : list Q) : Q :=
  match l with
  | [] => x
  | y :: l' => qmax (if Py.Qlt_bool x y then y else x) l'
  end.

Definition max_candidates (candidates : list Q) : option Q :=
  match candidates with
  | [] => None
  | x :: l => Some (qmax x l)
  end.

(** The figure of one [value]: [float(bps)] for
    [bps = value.get("bits_per_second")] when [value] is a dict and
    [bps] a number. *)
Definition bps_of (value : pyval) : list Q :=
  match value with
  | PDict d =>
      let bps := Py.get "bits_per_second" d in
      if Py.is_number bps then [Py.to_float bps] else []
  | _ => []
  end.

(** The candidates of one entry of ["streams"]: sender, then receiver. *)
Definition stream_candidates (item : pyval) : list Q :=
  match item with
  | PDict d => bps_of (Py.get "sender" d) ++ bps_of (Py.get "receiver" d)
  | _ => []
  end.

(** [candidates.append(float(bps))] for one [value]: what is appended,
    or the exception of [float]. *)
Definition append_bps (value : pyval) : exn + list Q :=
  match value with
  | PDict d =>
      let bps := Py.get "bits_per_second" d in
      if Py.is_number bps then
        match Py.float bps with
        | inl e => inl e
        | inr x => inr [x]
        end
      else inr []
  | _ => inr []
  end.

(** Two appends, one after the other. *)
Definition append_both (first second : exn + list Q) : exn + list Q :=
  match first with
  | inl e => inl e
  | inr l1 =>
      match second with
      | inl e => inl e
      | inr l2 => inr (l1 ++ l2)
      end
  end.

(** The loop of lines 417-424 over the entries of ["streams"]. *)
Fixpoint append_streams (streams : list pyval) : exn + list Q :=
  match streams with
  | [] => inr []
  | item :: rest =>
      append_both
        match item with
        | PDict d => append_both (append_bps (Py.get "sender" d))
                                 (append_bps (Py.get "receiver" d))
        | _ => inr []
        end
        (append_streams rest)
  end.

Section Probes.
Context `{PyRuntime}.

Definition _extract_iperf_bps (output_text : string) : exn + option Q :=
  match json_loads output_text with
  | None => inr None
  | Some data =>
      match Py.getattr_get data "end" (PDict []) with
      | inl e => inl e
      | inr (PDict e_nd) =>
          match append_both (append_bps (Py.get "sum_received" e_nd))
                            (append_bps (Py.get "sum_sent" e_nd)) with
          | inl e => inl e
          | inr ((_ :: _) as candidates) => inr (max_candidates candidates)
          | inr [] =>
              match Py.get "streams" e_nd with
              | PList streams =>
                  match append_streams streams with
                  | inl e => inl e
                  | inr candidates => inr (max_candidates candidates)
                  end
              | _ => inr None
              end
          end
      | inr _ => inl (Exn AttributeError "object has no attribute 'get'")
      end
  end.

(** The figures [_extract_iperf_bps] chooses among in a report whose
    ["end"] entry is the dict [e_nd]: the two aggregates when one of
    them is numeric, else the per-stream figures. *)
Definition figures_of (e_nd : pydict) : list Q :=
  match bps_of (Py.get "sum_received" e_nd) ++ bps_of (Py.get "sum_sent" e_nd) with
  | [] =>
      match Py.get "streams" e_nd with
      | PList streams => concat (map stream_candidates streams)
      | _ => []
      end
  | aggregates => aggregates
  end.

Definition _check_iperf3_available : M pydict :=
  '(code, out, err) ← _run_command ["iperf3"; "--version"] 10;
  if negb (code =? 0)
  then mret [ ("ok", PBool false);
              ("detail", PStr (str_or err (str_or out ("exit=" +:+ pretty code)))) ]
  else mret [ ("ok", PBool true);
              ("detail", PStr (str_or (_first_non_empty_line out) "iperf3 ok")) ].

Definition _run_iperf_client (target_host : string) (port duration_seconds : Z) : M pydict :=
  '(code, out, err) ←
     _run_command ["iperf3"; "-c"; target_host; "-p"; pretty port;
                   "-t"; pretty duration_seconds; "-J"] (duration_seconds + 30);
  if negb (code =? 0)
  then mret [ ("ok", PBool false);
              ("error", PStr (str_or err (str_or out ("exit=" +:+ pretty code))));
              ("bps", PNone) ]
  else
    bps ← lift (_extract_iperf_bps out);
    match bps with
    | None => mret [ ("ok", PBool false);
                     ("error", PStr "cannot parse iperf3 json throughput");
                     ("bps", PNone) ]
    | Some b => mret [ ("ok", PBool true); ("bps", PFloat b); ("error", PStr "") ]
    end.

Definition _send_and_expect (worker : WorkerConnection) (payload : pydict) (timeout : Z)
  : M pyval :=
  JsonChannel.send (wc_channel worker) payload ;;
  JsonChannel.recv (wc_channel worker) (seconds timeout).

(** [assert node.worker is not None] *)
Definition worker_of (node : NodeInfo) : M WorkerConnection :=
  match ni_worker node with
  | Some w => mret w
  | None => raise (Exn AssertionError "")
  end.

(** [response.get(k)] and [response.get(k, dflt)] on a reply of any shape. *)
Definition reply_get (response : pyval) (k : string) (dflt : pyval) : M pyval :=
  lift (Py.getattr_get response k dflt).

Definition _node_check_iperf (node : NodeInfo) : M pydict :=
  if ni_is_host node then _check_iperf3_available
  else
    worker ← worker_of node;
    response ← _send_and_expect worker [("type", PStr "check_iperf3")] 15;
    ok ← reply_get response "ok" PNone;
    error ← reply_get response "error" (PStr "");
    detail ← reply_get response "detail" error;
    mret [ ("ok", PBool (Py.truthy ok)); ("detail", PStr (Py.str detail)) ].

Definition _node_start_iperf_server (node : NodeInfo) (port : Z) : M pydict :=
  if ni_is_host node then IperfServerManager.start port
  else
    worker ← worker_of node;
    response ← _send_and_expect worker
                 [("type", PStr "iperf_server_start"); ("port", PInt port)] 15;
    ok ← reply_get response "ok" PNone;
    error ← reply_get response "error" (PStr "");
    mret [ ("ok", PBool (Py.truthy ok)); ("error", PStr (Py.str error)) ].

Definition _node_wait_iperf_server (node : NodeInfo) (port timeout_seconds : Z) : M pydict :=
  if ni_is_host node then IperfServerManager.wait port timeout_seconds
  else
    worker ← worker_of node;
    response ← _send_and_expect worker
                 [("type", PStr "iperf_server_wait"); ("port", PInt port);
                  ("timeout_seconds", PInt timeout_seconds)] (timeout_seconds + 10);
    ok ← reply_get response "ok" PNone;
    error ← reply_get response "error" (PStr "");
    stdout ← reply_get response "stdout" (PStr "");
    stderr ← reply_get response "stderr" (PStr "");
    mret [ ("ok", PBool (Py.truthy ok));
           ("error", PStr (Py.str error));
           ("stdout", PStr (Py.str stdout));
           ("stderr", PStr (Py.str stderr)) ].

Definition _node_run_iperf_client (node : NodeInfo) (target_host : string)
    (port duration_seconds : Z) : M pydict :=
  if ni_is_host node then _run_iperf_client target_host port duration_seconds
  else
    worker ← worker_of node;
    response ← _send_and_expect worker
                 [("type", PStr "iperf_client_run"); ("target_host", PStr target_host);
                  ("port", PInt port); ("duration_seconds", PInt duration_seconds)]
                 (duration_seconds + 40);
    ok ← reply_get response "ok" PNone;
    bps ← reply_get response "bps" PNone;
    error ← reply_get response "error" (PStr "");
    mret [ ("ok", PBool (Py.truthy ok)); ("bps", bps); ("error", PStr (Py.str error)) ].

Definition failed_probe (error : string) : pydict :=
  [ ("ok", PBool false); ("bps", PNone); ("error", PStr error) ].

Definition passing_probe (bps : Q) : pydict :=
[ ("ok", PBool true); ("bps", PFloat bps); ("error", PStr "") ].

(** Lines 603-611: the verdict of one direction from the replies of its
    client and of its sink. *)
Definition direction_verdict (client_res server_res : pydict) : exn + pydict :=
  if negb (Py.truthy (Py.get "ok" client_res)) then
    inr (failed_probe ("client failed: "
                       +:+ Py.str (Py.get_or "error" (PStr "") client_res)))
  else if negb (Py.truthy (Py.get "ok" server_res)) then
    let error := Py.get_or "error" (PStr "") server_res in
    let detail := if Py.truthy error then error else Py.get_or "stderr" (PStr "") server_res in
    inr (failed_probe ("server failed: " +:+ Py.str detail))
  else
    let bps := Py.get "bps" client_res in
    if negb (Py.is_number bps) then inr (failed_probe "no throughput parsed")
    else
      match Py.float bps with
      | inl e => inl e
      | inr x => inr [ ("ok", PBool true); ("bps", PFloat x); ("error", PStr "") ]
      end.

Definition _run_iperf_direction (client_node server_node : NodeInfo)
    (port duration_seconds : Z) : M pydict :=
  start_res ← _node_start_iperf_server server_node port;
  if negb (Py.truthy (Py.get "ok" start_res)) then
    mret (failed_probe ("server start failed: "
                        +:+ Py.str (Py.get_or "error" (PStr "") start_res)))
  else
    client_res ← _node_run_iperf_client client_node (ni_ip server_node) port duration_seconds;
    server_res ← _node_wait_iperf_server server_node port (duration_seconds + 30);
    lift (direction_verdict client_res server_res).

End Probes.

(* ===================================================================== *)
(** * The throughput mesh *)
(* ===================================================================== *)

Definition DEFAULT_NCCL_TIMEOUT_SECONDS : Z := 180.
Definition DEFAULT_IPERF_DURATION_SECONDS : Z := 5.
Definition DEFAULT_IPERF_PORT_BASE : Z := 5301.

Definition giga : Q := inject_Z 1000000000.

(** [nodes[i], nodes[j]] for [i < j], in loop order. *)
Fixpoint all_pairs {A} (l : list A) : list (A * A) :=
  match l with
  | [] => []
  | a :: l' => map (pair a) l' ++ all_pairs l'
  end.

(** [sum(values) / len(values) if values else None] *)
Definition average (values : list Q) : option Q :=
  match values with
  | [] => None
  | _ => Some (fold_left Qplus values 0%Q / inject_Z (Z.of_nat (length values)))%Q
  end.

(** [[x for x in (a, b) if isinstance(x, (int, float))]] *)
Definition present (a b : option Q) : list Q :=
  match a with Some x => [x] | None => [] end ++
  match b with Some x => [x] | None => [] end.

Section Mesh.
Context `{PyRuntime}.

(** [(p["bps"] / 1e9) if p.get("ok") and p.get("bps") else None] *)
Definition gbps_of (p : pydict) : exn + option Q :=
  if Py.truthy (Py.get "ok" p) && Py.truthy (Py.get "bps" p) then
    let bps := Py.get "bps" p in
    if Py.is_number bps then
      match Py.float bps with
      | inl e => inl e
      | inr x => inr (Some (x / giga)%Q)
      end
    else inl (Exn TypeError "unsupported operand type(s) for /")
  else inr None.

Definition gbps_cell (x : option Q) : pyval :=
  match x with
  | Some q => PStr (py_format_3f q)
  | None => PStr "N/A"
  end.

Definition pair_status (a_to_b b_to_a : pydict) : string :=
  if Py.truthy (Py.get "ok" a_to_b) && Py.truthy (Py.get "ok" b_to_a)
  then "PASS" else "FAIL".

Definition pair_detail (a_to_b b_to_a : pydict) : string :=
  let detail := "" in
  let detail :=
    if negb (Py.truthy (Py.get "ok" a_to_b))
    then detail +:+ "A->B: " +:+ Py.str (Py.get_or "error" (PStr "") a_to_b) +:+ " "
    else detail in
  if negb (Py.truthy (Py.get "ok" b_to_a))
  then detail +:+ "B->A: " +:+ Py.str (Py.get_or "error" (PStr "") b_to_a)
  else detail.

Definition node_label (n : NodeInfo) : string :=
  ni_name n +:+ "(" +:+ ni_ip n +:+ ")".

(** Lines 644-667: the report row of one pair from its two probes. *)
Definition pair_row (node_a node_b : NodeInfo) (a_to_b b_to_a : pydict)
  : exn + list pyval :=
  match gbps_of a_to_b with
  | inl e => inl e
  | inr a_to_b_gbps =>
      match gbps_of b_to_a with
      | inl e => inl e
      | inr b_to_a_gbps =>
          let avg_gbps := average (present a_to_b_gbps b_to_a_gbps) in
          inr [ PStr (pretty (ni_rank node_a) +:+ "-" +:+ pretty (ni_rank node_b));
                PStr (node_label node_a);
                PStr (node_label node_b);
                gbps_cell a_to_b_gbps;
                gbps_cell b_to_a_gbps;
                gbps_cell avg_gbps;
                PStr (pair_status a_to_b b_to_a);
                PStr (py_strip (pair_detail a_to_b b_to_a)) ]
      end
  end.

Fixpoint check_nodes (nodes : list NodeInfo) (rows : list (list pyval)) (all_ok : bool)
  : M (list (list pyval) * bool) :=
  match nodes with
  | [] => mret (rows, all_ok)
  | node :: nodes' =>
      res ← _node_check_iperf node;
      let ok := Py.truthy (Py.get "ok" res) in
      check_nodes nodes'
        (rows ++ [[ PInt (ni_rank node); PStr (ni_name node); PStr (ni_ip node);
                    PStr (if ok then "PASS" else "FAIL");
                    Py.get_or "detail" (PStr "") res ]])
        (all_ok && ok)
  end.

Fixpoint mesh_pairs (pairs : list (NodeInfo * NodeInfo)) (duration_seconds : Z)
    (port_cursor : Z) (rows : list (list pyval)) : M (list (list pyval)) :=
  match pairs with
  | [] => mret rows
  | (node_a, node_b) :: pairs' =>
      a_to_b ← _run_iperf_direction node_a node_b port_cursor duration_seconds;
      b_to_a ← _run_iperf_direction node_b node_a (port_cursor + 1) duration_seconds;
      row ← lift (pair_row node_a node_b a_to_b b_to_a);
      mesh_pairs pairs' duration_seconds (port_cursor + 2) (rows ++ [row])
  end.

Definition _run_mesh_iperf_tests (nodes : list NodeInfo) (duration_seconds : Z) : M unit :=
  '(availability_rows, all_ok) ← check_nodes nodes [] true;
  print_table ["Rank"; "Node"; "IP"; "iperf3"; "Detail"] availability_rows ;;
  if negb all_ok then
    modify (fun w => set_out (w_out w ++ [OutLine "mesh skipped: iperf3 missing on a node"]) w)
  else
    IperfServerManager.init ;;
    try_finally
      (rows ← mesh_pairs (all_pairs nodes) duration_seconds DEFAULT_IPERF_PORT_BASE [];
       print_table ["Pair"; "NodeA"; "NodeB"; "A->B Gbps"; "B->A Gbps"; "Avg Gbps";
                    "Status"; "Detail"] rows)
      IperfServerManager.shutdown_all.

End Mesh.

(* ===================================================================== *)
(** * The worker agent *)
(* ===================================================================== *)

Section Worker.
Context `{PyRuntime}.

(** [int(msg[k])], [int(msg.get(k, dflt))] and [str(msg[k])] *)
Definition msg_int (msg : pyval) (k : string) : M Z :=
  v ← lift (Py.getitem msg k); lift (Py.int v).
Definition msg_int_or (msg : pyval) (k : string) (dflt : Z) : M Z :=
  v ← lift (Py.getattr_get msg k (PInt dflt)); lift (Py.int v).
Definition msg_str (msg : pyval) (k : string) : M string :=
  v ← lift (Py.getitem msg k); mret (Py.str v).

(** A call of the collective test runner in this process. *)
Definition run_nccl (rank world_size : Z) (master_addr : string)
    (master_port timeout_seconds : Z) : M pydict :=
  env ← gets w_torch;
  lift (_run_nccl_distributed env rank world_size master_addr master_port timeout_seconds).

Definition reply (ch : nat) (type : string) (fields : pydict) : M unit :=
  JsonChannel.send ch (Py.dict_merge [("type", PStr type)] fields).

(** One turn of the [while True] loop: [Some z] is [return z], [None]
    goes round again. *)
Definition worker_step (ch : nat) : M (option Z) :=
  msg ← JsonChannel.recv ch None;
  ty ← lift (Py.getattr_get msg "type" (PStr ""));
  let msg_type := Py.str ty in
  if String.eqb msg_type "start_nccl" then
    rank ← msg_int msg "rank";
    world_size ← msg_int msg "world_size";
    master_addr ← msg_str msg "master_addr";
    master_port ← msg_int msg "master_port";
    timeout_seconds ← msg_int_or msg "timeout_seconds" DEFAULT_NCCL_TIMEOUT_SECONDS;
    result ← run_nccl rank world_size master_addr master_port timeout_seconds;
    reply ch "nccl_result" result ;; mret None
  else if String.eqb msg_type "check_iperf3" then
    result ← _check_iperf3_available;
    reply ch "check_iperf3_result" result ;; mret None
  else if String.eqb msg_type "iperf_server_start" then
    port ← msg_int msg "port";
    result ← IperfServerManager.start port;
    reply ch "iperf_server_start_result" result ;; mret None
  else if String.eqb msg_type "iperf_server_wait" then
    port ← msg_int msg "port";
    timeout_seconds ← msg_int_or msg "timeout_seconds" 40;
    result ← IperfServerManager.wait port timeout_seconds;
    reply ch "iperf_server_wait_result" result ;; mret None
  else if String.eqb msg_type "iperf_client_run" then
    target_host ← msg_str msg "target_host";
    port ← msg_int msg "port";
    duration_seconds ← msg_int_or msg "duration_seconds" DEFAULT_IPERF_DURATION_SECONDS;
    result ← _run_iperf_client target_host port duration_seconds;
    reply ch "iperf_client_result" result ;; mret None
  else if String.eqb msg_type "shutdown" then
    IperfServerManager.shutdown_all ;;
    JsonChannel.send ch [("type", PStr "shutdown_ack"); ("ok", PBool true)] ;;
    mret (Some 0)
  else
    JsonChannel.send ch [ ("type", PStr "error"); ("ok", PBool false);
                          ("error", PStr ("unknown command: " +:+ msg_type)) ] ;;
    mret None.

(** The [while True] loop, unrolled at most [fuel] times; [None] when
    the fuel runs out. *)
Fixpoint command_loop (fuel : nat) (ch : nat) (w : world) : option (res Z * world) :=
  match fuel with
  | O => None
  | S fuel' =>
      match worker_step ch w with
      | (Ret None, w') => command_loop fuel' ch w'
      | (Ret (Some z), w') => Some (Ret z, w')
      | (Raise e, w') => Some (Raise e, w')
      | (Hang, w') => Some (Hang, w')
      end
  end.

(** The [while True] loop with the fuel its pending lines call for. *)
Definition command_loop_from (ch : nat) : M Z :=
  fun w => default (Hang, w) (command_loop (S (rx_pending ch w)) ch w).

Definition _worker_command_loop (ch : nat) : M Z :=
  IperfServerManager.init ;;
  try_finally (command_loop_from ch) IperfServerManager.shutdown_all.

Definition unknown_command_reply (msg_type : string) : pydict :=
  [ ("type", PStr "error"); ("ok", PBool false);
    ("error", PStr ("unknown command: " +:+ msg_type)) ].

Definition shutdown_ack : pydict :=
  [ ("type", PStr "shutdown_ack"); ("ok", PBool true) ].

(** The command types the loop dispatches on. *)
Definition known_commands : list string :=
  [ "start_nccl"; "check_iperf3"; "iperf_server_start"; "iperf_server_wait";
    "iperf_client_run"; "shutdown" ].

End Worker.

(* ===================================================================== *)
(** * The host orchestrator *)
(* ===================================================================== *)

(** A stable sort by an integer key, as [list.sort(key=...)]. *)
Fixpoint insert_by {A} (key : A -> Z) (x : A) (l : list A) : list A :=
  match l with
  | [] => [x]
  | y :: l' => if key x <=? key y then x :: y :: l' else y :: insert_by key x l'
  end.

Definition sort_by {A} (key : A -> Z) (l : list A) : list A :=
  fold_right (insert_by key) [] l.

(** [[f(x) for x in l]] where [f] may raise: the first exception wins. *)
Fixpoint map_partial {A B} (f : A -> exn + B) (l : list A) : exn + list B :=
  match l with
  | [] => inr []
  | x :: l' =>
      match f x with
      | inl e => inl e
      | inr y => match map_partial f l' with
                 | inl e => inl e
                 | inr ys => inr (y :: ys)
                 end
      end
  end.

Section Host.
Context `{PyRuntime}.

(** ** Registration, lines 705-738 *)

(** The body of the [try] of one accepted connection. *)
Definition register_one (cluster_size : Z) (ch : nat) (addr : string) : M unit :=
  register ← JsonChannel.recv ch (seconds 30);
  ty ← reply_get register "type" (PStr "");
  if negb (String.eqb (Py.str ty) "register") then
    JsonChannel.send ch [ ("type", PStr "error");
                          ("error", PStr "first message must be register") ] ;;
    JsonChannel.close ch
  else
    workers ← gets w_workers;
    let rank := Z.of_nat (length workers) + 1 in
    hostname ← reply_get register "hostname" (PStr ("worker-" +:+ pretty rank));
    advertised ← reply_get register "advertised_ip" (PStr "");
    let advertised_ip := str_or (Py.str advertised) addr in
    gpus ← reply_get register "gpu_count" (PInt (-1));
    gpu_count ← lift (Py.int gpus);
    let worker := {| wc_rank := rank;
                     wc_hostname := Py.str hostname;
                     wc_advertised_ip := advertised_ip;
                     wc_peer_ip := addr;
                     wc_gpu_count := gpu_count;
                     wc_channel := ch |} in
    modify (set_workers (workers ++ [worker])) ;;
    JsonChannel.send ch [ ("type", PStr "registered"); ("rank", PInt rank);
                          ("world_size", PInt cluster_size) ].

(** [listener.accept()] followed by [JsonChannel(conn)] for an incoming
    connection: the new channel gets an unused id. *)
Definition open_channel (peer : sock) : M nat :=
  socks ← gets w_socks;
  let ch := fresh (dom socks) in
  modify (set_socks (insert ch peer)) ;;
  mret ch.

(** [while len(workers) < cluster_size - 1]: the pending connections are
    consumed by [accept] alone, so the loop runs along them. *)
Fixpoint registration_loop (cluster_size : Z) (pending : list accept_event) : M unit :=
  workers ← gets w_workers;
  if negb (Z.of_nat (length workers) <? cluster_size - 1) then mret tt
  else
    match pending with
    | [] => hang
    | ev :: pending' =>
        modify (set_accept pending') ;;
        match ev with
        | AcceptError e => raise e
        | AcceptConn peer addr =>
            ch ← open_channel peer;
            try_except (register_one cluster_size ch addr)
                       (fun _ => JsonChannel.close ch) ;;
            registration_loop cluster_size pending'
        end
    end.

Definition register_workers (cluster_size : Z) : M unit :=
  pending ← gets w_accept;
  registration_loop cluster_size pending.

(** What one registration exchange does to the list of workers: nothing,
    or it appends one worker with the next rank on this connection. *)
Definition registers (ch : nat) (w w' : world) : Prop :=
  w_workers w' = w_workers w \/
  exists worker,
    w_workers w' = w_workers w ++ [worker] /\
    wc_rank worker = Z.of_nat (length (w_workers w)) + 1 /\
    wc_channel worker = ch.

(** Ranks 1, 2, ... in the order of registration. *)
Definition ranks_in_order (workers : list WorkerConnection) : Prop :=
  map wc_rank workers = map Z.of_nat (seq 1 (length workers)).

(** ** The operator's go-ahead, lines 742-746 *)

Definition is_start (line : string) : bool :=
  let command := py_lower (py_strip line) in
  String.eqb command "start" || String.eqb command "s" || String.eqb command "".

Fixpoint prompt_loop (lines : list string) : M unit :=
  match lines with
  | [] => modify (set_stdin []) ;; raise (Exn EOFError "EOF when reading a line")
  | line :: lines' =>
      if is_start line then modify (set_stdin lines') else prompt_loop lines'
  end.

Definition wait_for_start : M unit :=
  lines ← gets w_stdin;
  prompt_loop lines.

(** ** The collective phase, lines 748-812 *)

Definition start_nccl_command (worker : WorkerConnection) (cluster_size : Z)
    (master_addr : string) (master_port nccl_timeout_seconds : Z) : pydict :=
  [ ("type", PStr "start_nccl");
    ("rank", PInt (wc_rank worker));
    ("world_size", PInt cluster_size);
    ("master_addr", PStr master_addr);
    ("master_port", PInt master_port);
    ("timeout_seconds", PInt nccl_timeout_seconds) ].

(** The substitute for a missing or foreign reply of [worker]. *)
Definition synthetic_result (worker : WorkerConnection) (cluster_size : Z)
    (error : string) : pydict :=
  [ ("ok", PBool false);
    ("rank", PInt (wc_rank worker));
    ("world_size", PInt cluster_size);
    ("hostname", PStr (wc_hostname worker));
    ("sum", PNone);
    ("expected_sum", PFloat (expected_sum cluster_size));
    ("elapsed_seconds", PFloat 0);
    ("error", PStr error) ].

(** The body of the loop of lines 769-794 for one worker. *)
Definition collect_one (cluster_size nccl_timeout_seconds : Z) (worker : WorkerConnection)
  : M pydict :=
  try_except
    (response ← JsonChannel.recv (wc_channel worker) (seconds (nccl_timeout_seconds + 90));
     match response with
     | PDict d =>
         if negb (String.eqb (Py.str (Py.get_or "type" (PStr "") d)) "nccl_result")
         then mret (synthetic_result worker cluster_size
                      ("unexpected response: " +:+ Py.str response))
         else mret d
     | _ => raise (Exn AttributeError "object has no attribute 'get'")
     end)
    (fun e => mret (synthetic_result worker cluster_size
                      ("recv failed: " +:+ Py.exn_repr e))).

(** What [collect_one] makes of the outcome [received] of reading the
    worker's connection. *)
Definition entry_for (cluster_size : Z) (worker : WorkerConnection)
    (received : res pyval) (entry : pydict) : Prop :=
  match received with
  | Ret (PDict d) =>
      if String.eqb (Py.str (Py.get_or "type" (PStr "") d)) "nccl_result"
      then entry = d
      else entry = synthetic_result worker cluster_size
                     ("unexpected response: " +:+ Py.str (PDict d))
  | Ret _ =>
      entry = synthetic_result worker cluster_size
                ("recv failed: "
                 +:+ Py.exn_repr (Exn AttributeError "object has no attribute 'get'"))
  | Raise e =>
      entry = synthetic_result worker cluster_size ("recv failed: " +:+ Py.exn_repr e)
  | Hang => False
  end.

(** An entry of the aggregate is a reply of type [nccl_result] or the
    substitute for this worker. *)
Definition entry_of_worker (cluster_size : Z) (worker : WorkerConnection)
    (entry : pydict) : Prop :=
  (exists error, entry = synthetic_result worker cluster_size error) \/
  Py.str (Py.get_or "type" (PStr "") entry) = "nccl_result".

Fixpoint collect_results (cluster_size nccl_timeout_seconds : Z)
    (workers : list WorkerConnection) : M (list pydict) :=
  match workers with
  | [] => mret []
  | worker :: workers' =>
      response ← collect_one cluster_size nccl_timeout_seconds worker;
      rest ← collect_results cluster_size nccl_timeout_seconds workers';
      mret (response :: rest)
  end.

(** [all_results.sort(key=lambda item: int(item.get("rank", 0)))]: the
    keys are computed first, and a key that cannot be computed aborts
    the sort. *)
Definition rank_key (item : pydict) : exn + Z :=
  Py.int (Py.get_or "rank" (PInt 0) item).

Definition sort_results (all_results : list pydict) : exn + list pydict :=
  match map_partial rank_key all_results with
  | inl e => inl e
  | inr keys => inr (map snd (sort_by fst (combine keys all_results)))
  end.

Definition result_row (item : pydict) : list pyval :=
  [ Py.get "rank" item;
    Py.get "hostname" item;
    PStr (if Py.truthy (Py.get "ok" item) then "PASS" else "FAIL");
    Py.get "sum" item;
    Py.get "expected_sum" item;
    Py.get "elapsed_seconds" item;
    Py.get_or "error" (PStr "") item ].

Definition node_of_worker (worker : WorkerConnection) : NodeInfo :=
  {| ni_rank := wc_rank worker;
     ni_name := wc_hostname worker;
     ni_ip := wc_advertised_ip worker;
     ni_is_host := false;
     ni_worker := Some worker |}.

(** [all(item.get("ok") for item in all_results)] *)
Definition all_ok (all_results : list pydict) : bool :=
  forallb (fun item => Py.truthy (Py.get "ok" item)) all_results.

(** ** Teardown, lines 830-840 *)

Definition teardown : M unit :=
  workers ← gets w_workers;
  for_each workers (fun worker =>
    swallow (JsonChannel.send (wc_channel worker) [("type", PStr "shutdown")] ;;
             JsonChannel.recv (wc_channel worker) (seconds 5) ;;
             mret tt) ;;
    JsonChannel.close (wc_channel worker)).

(** ** The session, lines 705-828 inside [try ... finally] *)

Definition host_session (cluster_size : Z) (master_addr : string)
    (master_port nccl_timeout_seconds iperf_duration_seconds : Z) : M Z :=
  register_workers cluster_size ;;
  wait_for_start ;;
  workers ← gets w_workers;
  for_each workers (fun worker =>
    JsonChannel.send (wc_channel worker)
      (start_nccl_command worker cluster_size master_addr master_port
                          nccl_timeout_seconds)) ;;
  local_result ← run_nccl 0 cluster_size master_addr master_port nccl_timeout_seconds;
  worker_results ← collect_results cluster_size nccl_timeout_seconds workers;
  all_results ← lift (sort_results (local_result :: worker_results));
  print_table ["Rank"; "Node"; "Status"; "Sum"; "Expected"; "Elapsed(s)"; "Detail"]
              (map result_row all_results) ;;
  hostname ← gets (fun w => te_hostname (w_torch w));
  let nodes :=
    sort_by ni_rank
      ({| ni_rank := 0; ni_name := hostname; ni_ip := master_addr;
          ni_is_host := true; ni_worker := None |}
       :: map node_of_worker workers) in
  _run_mesh_iperf_tests nodes iperf_duration_seconds ;;
  mret (if all_ok all_results then 0 else 2).

(** Lines 691-695, the listener: [bind] refuses a port outside
    0..65535 and [listen] a backlog that is not a C [int], both with
    [OverflowError]; what the system answers to [bind] on the port,
    such as an address in use, is the world's. *)
Definition open_listener (cluster_size control_port : Z) : M (option exn) :=
  if (control_port <? 0) || (65535 <? control_port) then
    mret (Some (Exn OverflowError "bind(): port must be 0-65535."))
  else
    bound ← gets (fun w => w_bind w control_port);
    match bound with
    | Some e => mret (Some e)
    | None =>
        if 2 ^ 31 - 1 <? cluster_size then
          mret (Some (Exn OverflowError "signed integer is greater than maximum"))
        else mret None
    end.

Definition run_host_mode (cluster_size : Z) (master_addr : string)
    (master_port control_port nccl_timeout_seconds iperf_duration_seconds : Z) : M Z :=
  if cluster_size <? 2 then mret 1
  else
    failure ← open_listener cluster_size control_port;
    match failure with
    | Some _ => mret 1
    | None =>
        modify (set_workers []) ;;
        try_finally
          (host_session cluster_size master_addr master_port nccl_timeout_seconds
                        iperf_duration_seconds)
          teardown
    end.

(** The exit status of the process: [raise SystemExit(main())] passes a
    returned status on, and an exception that reaches the top level ends
    the interpreter with status 1. *)
Definition exit_status (r : res Z) : option Z :=
  match r with
  | Ret z => Some z
  | Raise _ => Some 1
  | Hang => None
  end.

End Host.

From Stdlib Require Import Sorted Ascii.

(* ===================================================================== *)
(** * Frames *)
(* ===================================================================== *)

(** [c] leaves the component [f] of the world as it found it. *)
Definition preserves {A B} (f : world -> B) (c : M A) : Prop :=
  forall w, wp c (fun _ w' => f w' = f w) w.

(** [c] moves the world along the relation [R]. *)
Definition steady (R : relation world) {A} (c : M A) : Prop :=
  forall w, wp c (fun _ w' => R w w') w.

(** A connection that is closed in [w] is closed in [w']. *)
Definition stays_closed (ch : nat) (w w' : world) : Prop :=
  sk_closed (the_sock ch w) = true -> sk_closed (the_sock ch w') = true.

(** The component [f] does not depend on the connections. *)
Definition socket_blind {B} (f : world -> B) : Prop :=
  forall g w, f (set_socks g w) = f w.

(** [c] always ends: it returns or raises, whatever the world does. *)
Definition never_hangs {A} (c : M A) : Prop :=
  forall w, wp c (fun r _ => r <> Hang) w.

(** The channels of the registered workers. *)
Definition worker_channels (w : world) : list nat := map wc_channel (w_workers w).

(** From [w] to [w'] workers are only appended, and every connection of
    [w'] is closed, or is the channel of a worker, or was a connection
    of [w] already and has not been reopened. *)
Definition tracks (w w' : world) : Prop :=
  (exists l, w_workers w' = w_workers w ++ l) /\
  forall ch s',
    w_socks w' !! ch = Some s' ->
    sk_closed s' = true \/
    ch ∈ worker_channels w' \/
    exists s, w_socks w !! ch = Some s /\ (sk_closed s = true -> sk_closed s' = true).

(* ===================================================================== *)
(** * Text tables *)
(* ===================================================================== *)

(** Text is measured in characters of the model's strings; for text
    outside ASCII this differs from Python's [len]. *)

Definition newline : string := String (Ascii.ascii_of_nat 10) EmptyString.

(** [c * n] for a one-character string [c] *)
Fixpoint repeat_char (c : Ascii.ascii) (n : nat) : string :=
  match n with
  | O => EmptyString
  | S n' => String c (repeat_char c n')
  end.

(** [s.ljust(width)] *)
Definition ljust (s : string) (width : nat) : string :=
  s +:+ repeat_char " "%char (width - String.length s).

(** [sep.join(parts)] *)
Fixpoint join (sep : string) (parts : list string) : string :=
  match parts with
  | [] => ""
  | [p] => p
  | p :: rest => p +:+ sep +:+ join sep rest
  end.

(** The inner loop of lines 119-121 over the cells of one row, from
    column [idx] on: [widths[idx] = max(widths[idx], len(str(cell)))].
    [None] is the [IndexError] of a column the header does not have. *)
Fixpoint widen_row (widths : list nat) (idx : nat) (cells : list string)
  : option (list nat) :=
  match cells with
  | [] => Some widths
  | cell :: cells' =>
      match widths !! idx with
      | None => None
      | Some width =>
          widen_row (<[idx := Nat.max width (String.length cell)]> widths) (S idx) cells'
      end
  end.

Fixpoint widen_rows (widths : list nat) (rows : list (list string)) : option (list nat) :=
  match rows with
  | [] => Some widths
  | row :: rows' =>
      match widen_row widths 0 row with
      | None => None
      | Some widths' => widen_rows widths' rows'
      end
  end.

(** [str(cell).ljust(widths[idx]) for idx, cell in enumerate(row)], from
    column [idx] on. *)
Fixpoint pad_cells (widths : list nat) (idx : nat) (cells : list string)
  : option (list string) :=
  match cells with
  | [] => Some []
  | cell :: cells' =>
      match widths !! idx with
      | None => None
      | Some width =>
          match pad_cells widths (S idx) cells' with
          | None => None
          | Some padded => Some (ljust cell width :: padded)
          end
      end
  end.

Definition _fmt_row (widths : list nat) (row : list string) : option string :=
  match pad_cells widths 0 row with
  | None => None
  | Some padded => Some ("| " +:+ join " | " padded +:+ " |")
  end.

Fixpoint fmt_rows (widths : list nat) (rows : list (list string)) : option (list string) :=
  match rows with
  | [] => Some []
  | row :: rows' =>
      match _fmt_row widths row with
      | None => None
      | Some line =>
          match fmt_rows widths rows' with
          | None => None
          | Some lines => Some (line :: lines)
          end
      end
  end.

(** The list [out] of [_format_table], for cells already turned into
    text: [None] is an [IndexError]. *)
Definition table_lines (headers : list string) (rows : list (list string))
  : option (list string) :=
  match widen_rows (map String.length headers) rows with
  | None => None
  | Some widths =>
      let line := "+-" +:+ join "-+-" (map (repeat_char "-"%char) widths) +:+ "-+" in
      match _fmt_row widths headers with
      | None => None
      | Some header_line =>
          match fmt_rows widths rows with
          | None => None
          | Some body => Some ([line; header_line; line] ++ body ++ [line])
          end
      end
  end.

Section Tables.
Context `{PyRuntime}.

Definition _format_table (headers : list string) (rows : list (list pyval))
  : option string :=
  match table_lines headers (map (map Py.str) rows) with
  | None => None
  | Some out => Some (join newline out)
  end.

End Tables.

(* ===================================================================== *)
(** * Prompts *)
(* ===================================================================== *)

(** Of the lines the program prints, the model keeps the tables and the
    result lines; a prompt shows in the model only by the line of input
    it consumes. *)

(** [input(...)]: the next line of standard input. *)
Definition input_line : M string :=
  lines ← gets w_stdin;
  match lines with
  | [] => raise (Exn EOFError "EOF when reading a line")
  | line :: lines' => modify (set_stdin lines') ;; mret line
  end.

Section Prompts.
Context `{PyRuntime}.

Definition _prompt_text (default : option string) : M string :=
  line ← input_line;
  let value := py_strip line in
  match default with
  | Some d => if String.eqb value "" then mret d else mret value
  | None => mret value
  end.

(** The [while True] loop of [_prompt_int]: every turn reads one line,
    so the loop runs along the lines [pending] that are still to come. *)
Fixpoint prompt_int_loop (default : Z) (min_value : option Z) (pending : list string)
  : M Z :=
  raw ← _prompt_text (Some (pretty default));
  let again :=
    match pending with
    | [] => hang
    | _ :: pending' => prompt_int_loop default min_value pending'
    end in
  match Py.int (PStr raw) with
  | inl _ => again
  | inr value =>
      match min_value with
      | Some m => if value <? m then again else mret value
      | None => mret value
      end
  end.

Definition _prompt_int (default : Z) (min_value : option Z) : M Z :=
  pending ← gets w_stdin;
  prompt_int_loop default min_value pending.

Definition _prompt_yes_no (default_yes : bool) : M bool :=
  line ← input_line;
  let raw := py_lower (py_strip line) in
  if String.eqb raw "" then mret default_yes
  else mret (bool_decide (raw ∈ ["y"; "yes"; "1"; "true"])).

End Prompts.

(** What a line typed at an integer prompt stands for: the text itself,
    or the default when the line is blank. *)
Definition typed_or_default `{PyRuntime} (default : Z) (line : string) : string :=
  if String.eqb (py_strip line) "" then pretty default else py_strip line.

(** The line [line], typed at an integer prompt with this default and
    this lower bound, is accepted as [value]. *)
Definition acceptable `{PyRuntime} (default : Z) (min_value : option Z)
    (line : string) (value : Z) : Prop :=
  Py.int (PStr (typed_or_default default line)) = inr value /\
  match min_value with
  | Some m => m <= value
  | None => True
  end.

(* ===================================================================== *)
(** * The local collective test and its report *)
(* ===================================================================== *)

Definition DEFAULT_CONTROL_PORT : Z := 29610.
Definition DEFAULT_MASTER_PORT : Z := 29500.

(** [os.environ.get(k, dflt)] *)
Definition environ_get (environ : gmap string string) (k dflt : string) : string :=
  default dflt (environ !! k).

Section LocalTest.
Context `{PyRuntime}.

Definition run_nccl_single : M pydict :=
  run_nccl 0 1 "127.0.0.1" (DEFAULT_MASTER_PORT + 1) 60.

Definition run_nccl_from_env (environ : gmap string string) : M pydict :=
  rank ← lift (Py.int (PStr (environ_get environ "RANK" "0")));
  world_size ← lift (Py.int (PStr (environ_get environ "WORLD_SIZE" "1")));
  let master_addr := environ_get environ "MASTER_ADDR" "127.0.0.1" in
  master_port ←
    lift (Py.int (PStr (environ_get environ "MASTER_PORT" (pretty DEFAULT_MASTER_PORT))));
  timeout_seconds ←
    lift (Py.int (PStr (environ_get environ "NCCL_TEST_TIMEOUT_SECONDS"
                                     (pretty DEFAULT_NCCL_TIMEOUT_SECONDS))));
  run_nccl rank world_size master_addr master_port timeout_seconds.

(** [v - 1] *)
Definition minus_one (v : pyval) : exn + pyval :=
  match v with
  | PBool b => inr (PInt ((if b then 1 else 0) - 1))
  | PInt z => inr (PInt (z - 1))
  | PFloat q => inr (PFloat (q - 1))
  | _ => inl (Exn TypeError "unsupported operand type(s) for -")
  end.

Definition print_line (s : string) : M unit :=
  modify (fun w => set_out (w_out w ++ [OutLine s]) w).

Definition _print_nccl_result (result : pydict) (label : string) : M unit :=
  let status := if Py.truthy (Py.get "ok" result) then "PASS" else "FAIL" in
  last_rank ← lift (minus_one (Py.get "world_size" result));
  print_line (label +:+ " status=" +:+ status
              +:+ ", rank=" +:+ Py.str (Py.get "rank" result)
              +:+ "/" +:+ Py.str last_rank
              +:+ ", host=" +:+ Py.str (Py.get "hostname" result)
              +:+ ", sum=" +:+ Py.str (Py.get "sum" result)
              +:+ ", expected=" +:+ Py.str (Py.get "expected_sum" result)
              +:+ ", elapsed=" +:+ Py.str (Py.get "elapsed_seconds" result) +:+ "s") ;;
  if Py.truthy (Py.get "error" result)
  then print_line (label +:+ " error=" +:+ Py.str (Py.get "error" result))
  else mret tt.

End LocalTest.

(* ===================================================================== *)
(** * The worker mode *)
(* ===================================================================== *)

(** Outcome of [socket.create_connection((host, control_port), timeout=30)]:
    a connected socket with its local address, or the exception. *)
Inductive connect_outcome :=
| Connected (s : sock) (local_ip : string)
| ConnectFailed (e : exn).

Section WorkerMode.
Context `{PyRuntime}.

(** The message a worker introduces itself with. *)
Definition register_payload (hostname local_ip : string) (gpu_count : Z) : pydict :=
  [ ("type", PStr "register");
    ("hostname", PStr hostname);
    ("advertised_ip", PStr local_ip);
    ("gpu_count", PInt gpu_count) ].

(** Lines 497-524, the body of the [try] once the connection stands. *)
Definition worker_session (ch : nat) (local_ip : string) : M Z :=
  env ← gets w_torch;
  let gpu_count :=
    match te_import env with
    | None => te_device_count env
    | Some _ => -1
    end in
  JsonChannel.send ch (register_payload (te_hostname env) local_ip gpu_count) ;;
  reg ← JsonChannel.recv ch (seconds 60);
  ty ← reply_get reg "type" (PStr "");
  if negb (String.eqb (Py.str ty) "registered") then mret 1
  else
    world_size ← reply_get reg "world_size" PNone;
    lift (Py.int world_size) ;;
    _worker_command_loop ch.

Definition run_worker_mode (connection : connect_outcome) : M Z :=
  match connection with
  | ConnectFailed _ => mret 1
  | Connected s local_ip =>
      ch ← open_channel (JsonChannel.with_timeout (seconds 30) s);
      try_finally (worker_session ch local_ip) (JsonChannel.close ch)
  end.

End WorkerMode.

(* ===================================================================== *)
(** * The command line *)
(* ===================================================================== *)

(** What the process finds around it when it starts. *)
Record cli_env := {
  ce_windows : bool;                 (* [platform.system()] starts with "win" *)
  ce_route_ip : exn + string;        (* source address of a UDP socket towards 8.8.8.8 *)
  ce_resolved_ip : exn + string;     (* [gethostbyname(gethostname())] *)
  ce_environ : gmap string string;   (* [os.environ] *)
  ce_connect : string -> Z -> connect_outcome   (* [create_connection((host, port))] *)
}.

(** The parsed arguments, [argparse.Namespace]. *)
Record Namespace := {
  a_mode : string;
  a_host : string;
  a_cluster_size : Z;
  a_control_port : Z;
  a_master_addr : string;
  a_master_port : Z;
  a_nccl_timeout_seconds : Z;
  a_iperf_duration_seconds : Z
}.

Section CommandLine.
Context `{PyRuntime}.

Definition _run_optional_output (cmd : list string) (timeout : Z) : M string :=
  '(code, out, err) ← _run_command cmd timeout;
  if code =? 0 then mret (str_or out "(ok)")
  else mret ("(failed code=" +:+ pretty code +:+ ": "
             +:+ str_or err (str_or out "(empty)") +:+ ")").

Definition _detect_host_ip_guess (env : cli_env) : string :=
  let fallback :=
    match ce_resolved_ip env with
    | inr ip => if negb (String.eqb ip "") then ip else "127.0.0.1"
    | inl _ => "127.0.0.1"
    end in
  match ce_route_ip env with
  | inr ip =>
      if negb (String.eqb ip "") && negb (String.eqb ip "127.0.0.1") then ip else fallback
  | inl _ => fallback
  end.

(** Of [run_check_env], the subprocesses it runs; what it prints about
    the interpreter, the platform and torch is read inside
    [try ... except] and changes nothing else. *)
Definition run_check_env (env : cli_env) : M unit :=
  _run_optional_output ["nvidia-smi"; "-L"] 20 ;;
  _run_command ["nvidia-smi"; "--query-gpu=driver_version"; "--format=csv,noheader"] 20 ;;
  (if ce_windows env then _run_optional_output ["ipconfig"] 20
   else _run_optional_output ["ip"; "-br"; "a"] 20) ;;
  mret tt.

(** [0 if result.get("ok") else 2] *)
Definition status_of (result : pydict) : Z :=
  if Py.truthy (Py.get "ok" result) then 0 else 2.

(** [x or c] for an integer [x] *)
Definition int_or (x : Z) (c : M Z) : M Z :=
  if negb (x =? 0) then mret x else c.

(** [x if x > 0 else dflt] *)
Definition positive_or (x dflt : Z) : Z := if 0 <? x then x else dflt.

(** The loop that asks for the role, along the lines still to come. *)
Fixpoint role_loop (pending : list string) : M string :=
  answer ← _prompt_text (Some "host");
  let role := py_lower (py_strip answer) in
  if String.eqb role "host" || String.eqb role "worker" then mret role
  else
    match pending with
    | [] => hang
    | _ :: pending' => role_loop pending'
    end.

Definition run_full_interactive (env : cli_env) (args : Namespace) : M Z :=
  run_check_env env ;;
  single_result ← run_nccl_single;
  _print_nccl_result single_result "[single]" ;;
  continue ← _prompt_yes_no false;
  if negb continue then mret (status_of single_result)
  else
    pending ← gets w_stdin;
    role ← role_loop pending;
    if String.eqb role "host" then
      cluster_size ← int_or (a_cluster_size args) (_prompt_int 2 (Some 2));
      control_port ← int_or (a_control_port args)
                            (_prompt_int DEFAULT_CONTROL_PORT (Some 1));
      master_port ← int_or (a_master_port args) (_prompt_int DEFAULT_MASTER_PORT (Some 1));
      let default_master_addr := str_or (a_master_addr args) (_detect_host_ip_guess env) in
      master_addr ← _prompt_text (Some default_master_addr);
      timeout_seconds ← int_or (a_nccl_timeout_seconds args)
                               (_prompt_int DEFAULT_NCCL_TIMEOUT_SECONDS (Some 10));
      iperf_duration_seconds ← int_or (a_iperf_duration_seconds args)
                                      (_prompt_int DEFAULT_IPERF_DURATION_SECONDS (Some 1));
      run_host_mode cluster_size master_addr master_port control_port timeout_seconds
                    iperf_duration_seconds
    else
      host ← (if negb (String.eqb (a_host args) "") then mret (a_host args)
              else _prompt_text None);
      control_port ← int_or (a_control_port args)
                            (_prompt_int DEFAULT_CONTROL_PORT (Some 1));
      run_worker_mode (ce_connect env host control_port).

Definition main (env : cli_env) (args : Namespace) : M Z :=
  if String.eqb (a_mode args) "check-env" then
    run_check_env env ;; mret 0
  else if String.eqb (a_mode args) "single" then
    result ← run_nccl_single;
    _print_nccl_result result "[single]" ;;
    mret (status_of result)
  else if String.eqb (a_mode args) "dist-env" then
    result ← run_nccl_from_env (ce_environ env);
    _print_nccl_result result "[dist-env]" ;;
    mret (status_of result)
  else if String.eqb (a_mode args) "host" then
    run_host_mode
      (positive_or (a_cluster_size args) 2)
      (str_or (a_master_addr args) (_detect_host_ip_guess env))
      (positive_or (a_master_port args) DEFAULT_MASTER_PORT)
      (positive_or (a_control_port args) DEFAULT_CONTROL_PORT)
      (positive_or (a_nccl_timeout_seconds args) DEFAULT_NCCL_TIMEOUT_SECONDS)
      (positive_or (a_iperf_duration_seconds args) DEFAULT_IPERF_DURATION_SECONDS)
  else if String.eqb (a_mode args) "worker" then
    host ← (if negb (String.eqb (a_host args) "") then mret (a_host args)
            else _prompt_text None);
    run_worker_mode
      (ce_connect env host (positive_or (a_control_port args) DEFAULT_CONTROL_PORT))
  else
    run_full_interactive env args.

End CommandLine.

(* ===================================================================== *)
(** * Concrete scenarios *)
(* ===================================================================== *)

(** A stand-in runtime for running the model on concrete inputs: text
    produced by [repr] and by float formatting is a tag, [strip] and
    [lower] leave their argument alone, no string is an integer literal
    and no text is valid JSON. *)
Definition plain_runtime : PyRuntime :=
  {| py_repr := fun v =>
       match v with
       | PNone => "None"
       | PBool b => if b then "True" else "False"
       | PInt z => pretty z
       | PStr s => "'" +:+ s +:+ "'"
       | PFloat _ => "<float>"
       | PList _ => "<list>"
       | PDict _ => "<dict>"
       end;
     py_int_of_str := fun _ => None;
     py_strip := fun s => s;
     py_lower := fun s => s;
     py_splitlines := fun s => [s];
     py_format_3f := fun _ => "<float>";
     json_loads := fun _ => None |}.

(** The torch runtime seen by rank 1 of a healthy group of three: the
    other two participants contribute 0 and 2. *)
Definition healthy_rank1_of_3 : torch_env :=
  {| te_hostname := "node-b";
     te_time_start := 100;
     te_time_end := 100 + (1234567 # 1000000);
     te_import := None;
     te_cuda_available := true;
     te_device_count := 1;
     te_join := None;
     te_all_reduce := fun x => inr (0 + x + 2)%Q;
     te_barrier := None;
     te_destroy := None |}.

(** A participant of a healthy group of [world_size] ranks whose
    all-reduce adds the float32 contributions rank after rank. *)
Definition healthy_group (world_size : Z) : torch_env :=
  {| te_hostname := "node-a";
     te_time_start := 100;
     te_time_end := 101;
     te_import := None;
     te_cuda_available := true;
     te_device_count := 8;
     te_join := None;
     te_all_reduce := fun _ => inr (float32_chain (group_contributions world_size));
     te_barrier := None;
     te_destroy := None |}.

(** A process with no connection, no pending input and no subprocess. *)
Definition idle_world : world :=
  {| w_socks := ∅; w_accept := []; w_bind := fun _ => None; w_stdin := [];
     w_run := []; w_popen := []; w_spawned := []; w_killed := [];
     w_servers := ∅; w_torch := healthy_rank1_of_3; w_out := [];
     w_workers := [] |}.

(** A fresh connection whose peer follows the script [rx]. *)
Definition peer (timeout : option Q) (rx : list rx_event) : sock :=
  {| sk_timeout := timeout; sk_rx := rx; sk_tx := []; sk_sent := [];
     sk_timed_out := false; sk_closed := false |}.

(** Channel 0 has a 30 second timeout and a peer that stays silent. *)
Definition silent_peer_world : world :=
  set_socks (insert 0%nat (peer (Some 30%Q) [RxSilent])) idle_world.

(** A process in which the next [Popen] succeeds and the listener it
    starts will exit with status 0. *)
Definition listener_world : world :=
  set_popen [inr (CommExit 0 "" "")] idle_world.

(** ** Two nodes and their probes *)

Definition host_node : NodeInfo :=
  {| ni_rank := 0; ni_name := "node-a"; ni_ip := "10.0.0.1";
     ni_is_host := true; ni_worker := None |}.

Definition worker1 : WorkerConnection :=
  {| wc_rank := 1; wc_hostname := "node-b"; wc_advertised_ip := "10.0.0.2";
     wc_peer_ip := "10.0.0.2"; wc_gpu_count := 1; wc_channel := 1%nat |}.

Definition worker1_node : NodeInfo := node_of_worker worker1.

(** The report of an iperf3 client: 9.3 Gbit/s received, 9.4 Gbit/s sent. *)
Definition client_report : pyval :=
  PDict [ ("end",
           PDict [ ("sum_sent", PDict [("bits_per_second", PFloat 9400000000)]);
                   ("sum_received", PDict [("bits_per_second", PFloat 9300000000)]) ]) ].

(** [f"{x:.3f}"] on an exact rational: the nearest thousandth, ties to
    even, with three decimals. *)
Definition pad3 (n : Z) : string :=
  if n <? 10 then "00" +:+ pretty n
  else if n <? 100 then "0" +:+ pretty n
  else pretty n.

Definition format_3f (x : Q) : string :=
  let thousandths := Qnum (Qred (Py.round3 x * inject_Z 1000)) in
  let magnitude := Z.abs thousandths in
  (if thousandths <? 0 then "-" else "") +:+
  pretty (magnitude / 1000) +:+ "." +:+ pad3 (magnitude mod 1000).

(** A runtime in which the text [client-report] stands for the JSON text
    of [client_report], and no other text is valid JSON. *)
Definition probe_runtime : PyRuntime :=
  {| py_repr := @py_repr plain_runtime;
     py_int_of_str := @py_int_of_str plain_runtime;
     py_strip := @py_strip plain_runtime;
     py_lower := @py_lower plain_runtime;
     py_splitlines := @py_splitlines plain_runtime;
     py_format_3f := format_3f;
     json_loads := fun s => if String.eqb s "client-report" then Some client_report else None |}.

(** The host probes towards worker 1: the worker confirms the start of
    its listener and later its end, the host's client exits with status 0
    and prints [client-report]. *)
Definition host_to_worker_world : world :=
  set_run [RunExit 0 "client-report" ""]
    (set_socks
       (insert 1%nat
          (peer None
             [ RxLine (Some (PDict [ ("type", PStr "iperf_server_start_result");
                                     ("ok", PBool true) ]));
               RxLine (Some (PDict [ ("type", PStr "iperf_server_wait_result");
                                     ("ok", PBool true); ("returncode", PInt 0);
                                     ("stdout", PStr ""); ("stderr", PStr "") ])) ]))
       idle_world).

(** Worker 1 probes towards the host: the worker reports a successful
    client run at 9.4 Gbit/s, and the host's own listener exits with
    status 0 and an empty report. *)
Definition worker_to_host_world : world :=
  set_popen [inr (CommExit 0 "" "")]
    (set_socks
       (insert 1%nat
          (peer None
             [ RxLine (Some (PDict [ ("type", PStr "iperf_client_result");
                                     ("ok", PBool true);
                                     ("bps", PFloat 9400000000);
                                     ("error", PStr "") ])) ]))
       idle_world).

(** A mesh of two nodes. Both have iperf3. The host probes towards
    worker 1 at 9.4 Gbit/s; worker 1 probes towards the host, its client
    exits successfully and reports 0 bit/s. *)
Definition zero_throughput_world : world :=
  set_run [ RunExit 0 "iperf 3.9" ""; RunExit 0 "client-report" "" ]
    (set_popen [inr (CommExit 0 "" "")]
       (set_socks
          (insert 1%nat
             (peer None
                [ RxLine (Some (PDict [ ("type", PStr "check_iperf3_result");
                                        ("ok", PBool true);
                                        ("detail", PStr "iperf 3.9") ]));
                  RxLine (Some (PDict [ ("type", PStr "iperf_server_start_result");
                                        ("ok", PBool true) ]));
                  RxLine (Some (PDict [ ("type", PStr "iperf_server_wait_result");
                                        ("ok", PBool true); ("returncode", PInt 0);
                                        ("stdout", PStr ""); ("stderr", PStr "") ]));
                  RxLine (Some (PDict [ ("type", PStr "iperf_client_result");
                                        ("ok", PBool true);
                                        ("bps", PFloat 0);
                                        ("error", PStr "") ])) ]))
          idle_world)).

(** ** A worker and its commands *)

(** The host sends [iperf_server_start] without a port, then
    [check_iperf3]. *)
Definition malformed_command_world : world :=
  set_socks
    (insert 0%nat
       (peer (Some 30%Q)
          [ RxLine (Some (PDict [("type", PStr "iperf_server_start")]));
            RxLine (Some (PDict [("type", PStr "check_iperf3")])) ]))
    idle_world.

(** The host sends a command of a type the worker does not know, then
    [shutdown]. *)
Definition unknown_command_world : world :=
  set_socks
    (insert 0%nat
       (peer (Some 30%Q)
          [ RxLine (Some (PDict [("type", PStr "ping")]));
            RxLine (Some (PDict [("type", PStr "shutdown")])) ]))
    idle_world.

(** ** Host sessions *)

Definition register_message (hostname : string) : pyval :=
  PDict [ ("type", PStr "register"); ("hostname", PStr hostname);
          ("advertised_ip", PStr ""); ("gpu_count", PInt 1) ].

(** A session of two nodes. The first connection sends a valid
    [register], but the flush of the [registered] reply fails (the peer
    has reset the connection); a second, healthy worker is waiting to
    connect. The operator types [start]. *)
Definition broken_reply_world : world :=
  set_stdin ["start"]
    (set_accept
       [ AcceptConn
           {| sk_timeout := None;
              sk_rx := [RxLine (Some (register_message "node-b"))];
              sk_tx := [Some (Exn OSError "Broken pipe")];
              sk_sent := []; sk_timed_out := false; sk_closed := false |}
           "10.0.0.2";
         AcceptConn (peer None [RxLine (Some (register_message "node-c"))]) "10.0.0.3" ]
       idle_world).

(** The torch runtime seen by rank 0 of a healthy group of two. *)
Definition healthy_rank0_of_2 : torch_env :=
  {| te_hostname := "node-a";
     te_time_start := 100;
     te_time_end := 101;
     te_import := None;
     te_cuda_available := true;
     te_device_count := 1;
     te_join := None;
     te_all_reduce := fun x => inr (x + 1)%Q;
     te_barrier := None;
     te_destroy := None |}.

Definition with_torch (env : torch_env) (w : world) : world :=
  World (w_socks w) (w_accept w) (w_bind w) (w_stdin w) (w_run w) (w_popen w)
        (w_spawned w) (w_killed w) (w_servers w) env (w_out w) (w_workers w).

(** A session of two nodes in which the worker registers and the
    operator types [start]; [replies] is what the worker does afterwards. *)
Definition two_node_session (replies : list rx_event) : world :=
  with_torch healthy_rank0_of_2
    (set_stdin ["start"]
       (set_accept
          [AcceptConn (peer None (RxLine (Some (register_message "node-b")) :: replies))
                      "10.0.0.2"]
          idle_world)).


(** The worker's collective test passes, and its connection ends before
    the mesh phase asks it anything. *)
Definition worker_lost_before_mesh_world : world :=
  set_run [RunExit 0 "iperf 3.9" ""]
    (two_node_session
       [ RxLine (Some (PDict [ ("type", PStr "nccl_result"); ("ok", PBool true);
                               ("rank", PInt 1); ("world_size", PInt 2);
                               ("hostname", PStr "node-b"); ("sum", PFloat 1);
                               ("expected_sum", PFloat 1);
                               ("elapsed_seconds", PFloat 1); ("error", PStr "") ]));
         RxClosed ]).

(** The worker's connection ends right after registration. *)
Definition worker_lost_world : world := two_node_session [RxClosed].

(** A healthy session of two nodes: the worker's collective test passes,
    both nodes have iperf3, both probes pass at 9.4 Gbit/s, and the
    worker acknowledges the shutdown. *)
Definition healthy_session_world : world :=
  set_popen [inr (CommExit 0 "" "")]
    (set_run [ RunExit 0 "iperf 3.9" ""; RunExit 0 "client-report" "" ]
       (two_node_session
          [ RxLine (Some (PDict [ ("type", PStr "nccl_result"); ("ok", PBool true);
                                  ("rank", PInt 1); ("world_size", PInt 2);
                                  ("hostname", PStr "node-b"); ("sum", PFloat 1);
                                  ("expected_sum", PFloat 1);
                                  ("elapsed_seconds", PFloat 1); ("error", PStr "") ]));
            RxLine (Some (PDict [ ("type", PStr "check_iperf3_result");
                                  ("ok", PBool true); ("detail", PStr "iperf 3.9") ]));
            RxLine (Some (PDict [ ("type", PStr "iperf_server_start_result");
                                  ("ok", PBool true) ]));
            RxLine (Some (PDict [ ("type", PStr "iperf_server_wait_result");
                                  ("ok", PBool true); ("returncode", PInt 0);
                                  ("stdout", PStr ""); ("stderr", PStr "") ]));
            RxLine (Some (PDict [ ("type", PStr "iperf_client_result");
                                  ("ok", PBool true); ("bps", PFloat 9400000000);
                                  ("error", PStr "") ]));
            RxLine (Some (PDict [ ("type", PStr "shutdown_ack"); ("ok", PBool true) ])) ])).

(* ===================================================================== *)
(** * Further scenarios *)
(* ===================================================================== *)

(** Channel 0 is a fresh connection whose peer sends a [register]
    message without an advertised address. *)
Definition registering_peer_world : world :=
  set_socks (insert 0%nat (peer None [RxLine (Some (register_message "node-b"))])) idle_world.

(** A connection whose first message is not [register]. *)
Definition stranger : sock := peer None [RxLine (Some (PDict [("type", PStr "hello")]))].

(** A process in which the next [Popen] succeeds and the listener it
    starts is still running when the wait for it runs out. *)
Definition stuck_listener_world : world :=
  set_popen [inr (CommTimeout "" "")] idle_world.

(** Worker 1 probes towards the host and reports a successful client
    run whose figure is the integer [2 ** 1024]; the host's own listener
    exits with status 0. *)
Definition huge_figure_world : world :=
  set_popen [inr (CommExit 0 "" "")]
    (set_socks
       (insert 1%nat
          (peer None
             [ RxLine (Some (PDict [ ("type", PStr "iperf_client_result");
                                     ("ok", PBool true);
                                     ("bps", PInt (2 ^ 1024));
                                     ("error", PStr "") ])) ]))
       idle_world).

(** A process in which the next [Popen] fails: iperf3 is not installed. *)
Definition missing_iperf_world : world :=
  set_popen [inl (Exn FileNotFoundError "No such file or directory: 'iperf3'")] idle_world.

(** A runtime that reads [1], [2], [3] and [29610] as integers, and in
    which text is otherwise as in [plain_runtime]. *)
Definition digits_runtime : PyRuntime :=
  {| py_repr := @py_repr plain_runtime;
     py_int_of_str := fun s =>
       if String.eqb s "1" then Some 1
       else if String.eqb s "2" then Some 2
       else if String.eqb s "3" then Some 3
       else if String.eqb s "29610" then Some 29610
       else None;
     py_strip := @py_strip plain_runtime;
     py_lower := @py_lower plain_runtime;
     py_splitlines := @py_splitlines plain_runtime;
     py_format_3f := @py_format_3f plain_runtime;
     json_loads := @json_loads plain_runtime |}.

(** The operator types [many], then [1], then [3], then [start]. *)
Definition typing_world : world :=
  set_stdin ["many"; "1"; "3"; "start"] idle_world.

(** A host that answers the registration and then asks for shutdown. *)
Definition polite_host : sock :=
  peer None [ RxLine (Some (PDict [ ("type", PStr "registered"); ("rank", PInt 1);
                                    ("world_size", PInt 2) ]));
              RxLine (Some (PDict [("type", PStr "shutdown")])) ].

(** A machine with one route to the outside, no variables set, and no
    host to connect to. *)
Definition lone_machine : cli_env :=
  {| ce_windows := false;
     ce_route_ip := inr "10.0.0.1";
     ce_resolved_ip := inr "127.0.0.1";
     ce_environ := ∅;
     ce_connect := fun _ _ => ConnectFailed (Exn OSError "Connection refused") |}.

Definition arguments (mode : string) : Namespace :=
  {| a_mode := mode; a_host := ""; a_cluster_size := 0; a_control_port := 0;
     a_master_addr := ""; a_master_port := 0; a_nccl_timeout_seconds := 0;
     a_iperf_duration_seconds := 0 |}.

(** A worker whose host sends it the [start_nccl] command of rank 1 in
    a cluster of two. *)
Definition commanded_worker_world : world :=
  set_socks
    (insert 0%nat
       (peer None [RxLine (Some (PDict (start_nccl_command worker1 2 "10.0.0.1" 29500 180)))]))
    idle_world.

(* ===================================================================== *)
(** * Properties *)
(* ===================================================================== *)

(** ** Rationals and dictionaries *)

Lemma Qlt_bool_iff (x y : Q) : Py.Qlt_bool x y = true <-> (x < y)%Q.
Proof.
  unfold Py.Qlt_bool. destruct (Qle_bool y x) eqn:E; simpl.
  - apply Qle_bool_iff in E. split; [discriminate|].
    intros Hlt. exfalso. exact (Qlt_not_le _ _ Hlt E).
  - split; [intros _|reflexivity].
    apply Qnot_le_lt. intros Hle. apply Qle_bool_iff in Hle. congruence.
Qed.

Lemma Qabs_close (x y : Q) : (x == y)%Q -> (Qabs (x - y) < tolerance)%Q.
Proof.
  intros E. assert (Z : (x - y == 0)%Q) by (rewrite E; ring).
  rewrite Z. reflexivity.
Qed.

(** ** Rules for computations in [M] *)

Section WpRules.
Context {A B : Type}.
Implicit Types (Q : res B -> world -> Prop) (w : world).

Lemma wp_run (c : M A) (P : res A -> world -> Prop) w r w' :
  c w = (r, w') -> wp c P w -> P r w'.
Proof. unfold wp. intros ->. auto. Qed.

Lemma wp_intro (c : M A) (P : res A -> world -> Prop) w :
  (forall r w', c w = (r, w') -> P r w') -> wp c P w.
Proof. unfold wp. intros HP. apply HP. destruct (c w); reflexivity. Qed.

Lemma wp_mono (c : M A) (P P' : res A -> world -> Prop) w :
  wp c P w -> (forall r w', P r w' -> P' r w') -> wp c P' w.
Proof. unfold wp. auto. Qed.

Lemma wp_ret (a : B) Q w : Q (Ret a) w -> wp (mret a) Q w.
Proof. auto. Qed.

Lemma wp_raise (e : exn) Q w : Q (Raise e) w -> wp (raise e) Q w.
Proof. auto. Qed.

Lemma wp_hang Q w : Q Hang w -> wp hang Q w.
Proof. auto. Qed.

Lemma wp_gets (f : world -> B) Q w : Q (Ret (f w)) w -> wp (gets f) Q w.
Proof. auto. Qed.

Lemma wp_bind (c : M A) (k : A -> M B) Q w :
  wp c (fun r w1 =>
          match r with
          | Ret a => wp (k a) Q w1
          | Raise e => Q (Raise e) w1
          | Hang => Q Hang w1
          end) w ->
  wp (c ≫= k) Q w.
Proof.
  unfold wp, mbind, M_bind. destruct (c w) as [[a|e|] w1]; simpl; auto.
Qed.

Lemma wp_try_except (c : M B) (h : exn -> M B) Q w :
  wp c (fun r w1 =>
          match r with
          | Raise e => wp (h e) Q w1
          | _ => Q r w1
          end) w ->
  wp (try_except c h) Q w.
Proof.
  unfold wp, try_except. destruct (c w) as [[a|e|] w1]; simpl; auto.
Qed.

Lemma wp_try_finally (c : M B) (f : M unit) Q w :
  wp c (fun r w1 =>
          match r with
          | Hang => Q Hang w1
          | _ => wp f (fun rf w2 =>
                         match rf with
                         | Ret _ => Q r w2
                         | Raise e => Q (Raise e) w2
                         | Hang => Q Hang w2
                         end) w1
          end) w ->
  wp (try_finally c f) Q w.
Proof.
  unfold wp, try_finally. destruct (c w) as [[a|e|] w1]; simpl; auto;
    destruct (f w1) as [[[]|e'|] w2]; simpl; auto.
Qed.

Lemma wp_lift (r : exn + B) Q w :
  match r with inl e => Q (Raise e) w | inr a => Q (Ret a) w end ->
  wp (lift r) Q w.
Proof. destruct r; auto. Qed.

End WpRules.

Lemma bind_ret_inv {A B} (c : M A) (k : A -> M B) w b w' :
  (c ≫= k) w = (Ret b, w') ->
  exists a w1, c w = (Ret a, w1) /\ k a w1 = (Ret b, w').
Proof.
  unfold mbind, M_bind. destruct (c w) as [[a|e|] w1]; intros E; [eauto|discriminate..].
Qed.

Lemma lift_ret_inv {A} (r : exn + A) w a w' :
  lift r w = (Ret a, w') -> r = inr a /\ w' = w.
Proof. destruct r; intros E; inversion E; auto. Qed.

Lemma wp_modify (f : world -> world) (Q : res unit -> world -> Prop) w :
  Q (Ret tt) (f w) -> wp (modify f) Q w.
Proof. auto. Qed.

(** One step of symbolic execution of a goal [wp c Q w]. *)
Ltac wp_step :=
  lazymatch goal with
  | |- wp (mret _) _ _ => apply wp_ret
  | |- wp (raise _) _ _ => apply wp_raise
  | |- wp hang _ _ => apply wp_hang
  | |- wp (gets _) _ _ => apply wp_gets
  | |- wp (modify _) _ _ => apply wp_modify
  | |- wp (lift _) _ _ => apply wp_lift
  | |- wp (_ ≫= _) _ _ => apply wp_bind
  | |- wp (try_except _ _) _ _ => apply wp_try_except
  | |- wp (try_finally _ _) _ _ => apply wp_try_finally
  | |- wp (if ?b then _ else _) _ _ => destruct b eqn:?
  | |- wp (match ?x with _ => _ end) _ _ => destruct x eqn:?
  end; cbn beta iota.

Ltac wp_steps := repeat wp_step.

(** ** The control channel *)

Lemma the_sock_put ch s w : the_sock ch (set_socks (insert ch s) w) = s.
Proof. unfold the_sock. simpl. apply lookup_total_insert_eq. Qed.

Lemma the_sock_put_ne ch ch' s w :
  ch <> ch' -> the_sock ch' (set_socks (insert ch s) w) = the_sock ch' w.
Proof. intros Hne. unfold the_sock. simpl. by apply lookup_total_insert_ne. Qed.

(** ** The collective test runner *)

Lemma all_reduce_sum_app (l : list Q) (x : Q) :
  (all_reduce_sum (l ++ [x]) == all_reduce_sum l + x)%Q.
Proof.
  unfold all_reduce_sum. induction l as [|y l IH]; simpl.
  - ring.
  - rewrite IH. ring.
Qed.

Lemma sum_of_first_ranks (n : nat) :
  (all_reduce_sum (map (fun r => inject_Z (Z.of_nat r)) (seq 0 n))
   == inject_Z (Z.of_nat n * (Z.of_nat n - 1)) / inject_Z 2)%Q.
Proof.
  induction n as [|n IH].
  - reflexivity.
  - rewrite seq_S, map_app. simpl map. rewrite all_reduce_sum_app, IH.
    rewrite Nat2Z.inj_succ.
    set (z := Z.of_nat n). unfold Qeq. simpl. lia.
Qed.

Lemma healthy_group_sum (world_size : Z) :
  0 <= world_size ->
  (all_reduce_sum (group_contributions world_size) == expected_sum world_size)%Q.
Proof.
  intros Hws. unfold group_contributions, expected_sum.
  rewrite sum_of_first_ranks, Z2Nat.id by lia. reflexivity.
Qed.

(** ** Binary floating point *)

Lemma Qlt_bool_false (x y : Q) : Py.Qlt_bool x y = false <-> (y <= x)%Q.
Proof.
  unfold Py.Qlt_bool. rewrite negb_false_iff. apply Qle_bool_iff.
Qed.

Lemma Qred_integer (x : Q) (n : Z) : (x == inject_Z n)%Q -> Qred x = inject_Z n.
Proof.
  intros E. rewrite (Qred_complete _ _ E). unfold inject_Z, Qred.
  pose proof (Z.ggcd_gcd n 1) as Hg. pose proof (Z.ggcd_correct_divisors n 1) as Hd.
  destruct (Z.ggcd n 1) as [g [aa bb]]. simpl in Hg, Hd.
  rewrite Z.gcd_1_r in Hg. subst g. destruct Hd as [-> Hb].
  assert (bb = 1) as -> by lia. f_equal. lia.
Qed.

Lemma pow2_pos (k : Z) : (0 < Py.pow2 k)%Q.
Proof.
  unfold Py.pow2. destruct (0 <=? k) eqn:E.
  - apply Z.leb_le in E. unfold Qlt. simpl. pose proof (Z.pow_pos_nonneg 2 k). lia.
  - apply Z.leb_gt in E. apply Qlt_shift_div_l.
    + unfold Qlt. simpl. pose proof (Z.pow_pos_nonneg 2 (- k)). lia.
    + rewrite Qmult_0_l. reflexivity.
Qed.

Lemma pow2_nonneg_exp (k : Z) : 0 <= k -> Py.pow2 k = inject_Z (2 ^ k).
Proof. intros Hk. unfold Py.pow2. apply Z.leb_le in Hk. rewrite Hk. reflexivity. Qed.

Lemma pow2_nonpos_exp (q : Z) : q <= 0 -> (Py.pow2 q == 1 / inject_Z (2 ^ (- q)))%Q.
Proof.
  intros Hq. unfold Py.pow2. destruct (0 <=? q) eqn:E; [|reflexivity].
  apply Z.leb_le in E. assert (q = 0) as -> by lia. reflexivity.
Qed.

Lemma inject_Z_pow2_nonzero (k : Z) : 0 <= k -> ~ (inject_Z (2 ^ k) == 0)%Q.
Proof.
  intros Hk E0. pose proof (Z.pow_pos_nonneg 2 k).
  unfold Qeq in E0. simpl in E0. lia.
Qed.

(** Scaling by a power of two with exponent at most 0 *)
Lemma pow2_scale_down (n q : Z) :
  q <= 0 -> (inject_Z n / Py.pow2 q == inject_Z (n * 2 ^ (- q)))%Q.
Proof.
  intros Hq. rewrite (pow2_nonpos_exp q Hq), inject_Z_mult.
  field. apply inject_Z_pow2_nonzero. lia.
Qed.

Lemma pow2_scale_up (k q : Z) :
  q <= 0 -> (inject_Z (k * 2 ^ (- q)) * Py.pow2 q == inject_Z k)%Q.
Proof.
  intros Hq. rewrite (pow2_nonpos_exp q Hq), inject_Z_mult.
  field. apply inject_Z_pow2_nonzero. lia.
Qed.

Lemma nearest_even_integer (y : Q) (k : Z) : (y == inject_Z k)%Q -> Py.nearest_even y = k.
Proof.
  intros E. unfold Py.nearest_even.
  assert (Hf : Qfloor y = k) by (rewrite E; apply Qfloor_Z).
  rewrite Hf.
  assert (Hr : Py.Qlt_bool (y - inject_Z k) (1 # 2) = true).
  { apply Qlt_bool_iff. rewrite E. ring_simplify. reflexivity. }
  rewrite Hr. reflexivity.
Qed.

(** The rounded value lies between the next integers below and above. *)
Lemma nearest_even_bounds (y : Q) :
  Qfloor y <= Py.nearest_even y <= Qfloor y + 1.
Proof.
  unfold Py.nearest_even.
  destruct (Py.Qlt_bool _ _); [lia|]. destruct (Py.Qlt_bool _ _); [lia|].
  destruct (Z.even _); lia.
Qed.

Lemma ilog2_integer (n : Z) : 0 < n -> Py.ilog2 (inject_Z n) = Z.log2 n.
Proof.
  intros Hn. unfold Py.ilog2. simpl Qnum. simpl Qden. 
  change (Z.log2 1) with 0. rewrite Z.sub_0_r.
  pose proof (Z.log2_nonneg n) as Hnn.
  rewrite (pow2_nonneg_exp _ Hnn).
  assert (E : Py.Qlt_bool (inject_Z n) (inject_Z (2 ^ Z.log2 n)) = false).
  { apply Qlt_bool_false. rewrite <- Zle_Qle. apply Z.log2_spec. exact Hn. }
  rewrite E. reflexivity.
Qed.

Section Rounding.
Variables (prec emin : Z).
Hypothesis (Hprec : 1 <= prec) (Hemin : emin <= 0).

Lemma round_binary_integer (x : Q) (n : Z) :
  (x == inject_Z n)%Q -> n <> 0 ->
  let q := Z.max (Z.log2 (Z.abs n) - prec + 1) emin in
  let r := (inject_Z (Py.nearest_even (inject_Z (Z.abs n) / Py.pow2 q)) * Py.pow2 q)%Q in
  Py.round_binary prec emin x = Qred (if n <? 0 then - r else r).
Proof.
  intros E Hn q r. unfold Py.round_binary.
  assert (Hz : Qeq_bool x 0 = false).
  { destruct (Qeq_bool x 0) eqn:E0; [|reflexivity].
    apply Qeq_bool_iff in E0. rewrite E in E0. unfold Qeq in E0. simpl in E0. lia. }
  rewrite Hz, (Qred_integer _ _ E).
  change (Qabs (inject_Z n)) with (inject_Z (Z.abs n)).
  rewrite ilog2_integer by lia. fold q. fold r.
  assert (Hs : Py.Qlt_bool x 0 = (n <? 0)).
  { destruct (n <? 0) eqn:Hneg.
    - apply Qlt_bool_iff. rewrite E. apply Z.ltb_lt in Hneg.
      unfold Qlt. simpl. lia.
    - apply Qlt_bool_false. rewrite E. apply Z.ltb_ge in Hneg.
      unfold Qle. simpl. lia. }
  rewrite Hs. reflexivity.
Qed.

Lemma round_binary_exact (x : Q) (n : Z) :
  (x == inject_Z n)%Q -> Z.abs n < 2 ^ prec ->
  Py.round_binary prec emin x = inject_Z n.
Proof using Type*.
  intros E Hsmall. destruct (Z.eq_dec n 0) as [->|Hn].
  - unfold Py.round_binary.
    assert (Hz : Qeq_bool x 0 = true) by (apply Qeq_bool_iff; exact E).
    rewrite Hz. reflexivity.
  - rewrite (round_binary_integer x n E Hn). apply Qred_integer.
    set (q := Z.max (Z.log2 (Z.abs n) - prec + 1) emin).
    assert (Hq : q <= 0).
    { assert (Z.log2 (Z.abs n) < prec) by (apply Z.log2_lt_pow2; lia). lia. }
    rewrite (nearest_even_integer _ (Z.abs n * 2 ^ (- q)))
      by (apply pow2_scale_down; exact Hq).
    destruct (n <? 0) eqn:Hneg; rewrite (pow2_scale_up _ _ Hq).
    + apply Z.ltb_lt in Hneg. rewrite <- inject_Z_opp. 
      replace (- Z.abs n) with n by lia. reflexivity.
    + apply Z.ltb_ge in Hneg. replace (Z.abs n) with n by lia. reflexivity.
Qed.

Lemma round_binary_bound (x : Q) (n : Z) :
  (x == inject_Z n)%Q ->
  (Qabs (Py.round_binary prec emin x) <= inject_Z (2 * Z.abs n))%Q.
Proof using Type*.
  intros E. destruct (Z.eq_dec n 0) as [->|Hn].
  { rewrite (round_binary_exact x 0 E) by (pose proof (Z.pow_pos_nonneg 2 prec); simpl; lia).
    simpl. apply Qle_refl. }
  rewrite (round_binary_integer x n E Hn). rewrite Qred_correct.
  set (q := Z.max (Z.log2 (Z.abs n) - prec + 1) emin).
  set (m := Py.nearest_even (inject_Z (Z.abs n) / Py.pow2 q)).
  assert (Hlog : 0 <= Z.log2 (Z.abs n)) by apply Z.log2_nonneg.
  assert (Hspec : 2 ^ Z.log2 (Z.abs n) <= Z.abs n) by (apply Z.log2_spec; lia).
  assert (Hbound : (0 <= inject_Z m * Py.pow2 q <= inject_Z (2 * Z.abs n))%Q).
  { destruct (Z.le_gt_cases q 0) as [Hq|Hq].
    - subst m. rewrite (nearest_even_integer _ (Z.abs n * 2 ^ (- q)))
        by (apply pow2_scale_down; exact Hq).
      rewrite (pow2_scale_up _ _ Hq). change 0%Q with (inject_Z 0).
      rewrite <- !Zle_Qle. lia.
    - assert (Hqe : q <= Z.log2 (Z.abs n)) by lia.
      rewrite pow2_nonneg_exp by lia. rewrite <- inject_Z_mult.
      change 0%Q with (inject_Z 0). rewrite <- !Zle_Qle.
      pose proof (nearest_even_bounds (inject_Z (Z.abs n) / Py.pow2 q)) as Hm.
      fold m in Hm.
      assert (Hfloor : Qfloor (inject_Z (Z.abs n) / Py.pow2 q) = Z.abs n / 2 ^ q).
      { rewrite pow2_nonneg_exp by lia.
        pose proof (Z.pow_pos_nonneg 2 q ltac:(lia) ltac:(lia)) as Hpos.
        assert (Hdiv : (inject_Z (Z.abs n) / inject_Z (2 ^ q) == Z.abs n # Z.to_pos (2 ^ q))%Q).
        { unfold Qeq, Qdiv, Qmult, Qinv, inject_Z. 
          destruct (2 ^ q) eqn:Hp; try lia. simpl. lia. }
        rewrite Hdiv. unfold Qfloor. rewrite Z2Pos.id by lia. reflexivity. }
      rewrite Hfloor in Hm.
      pose proof (Z.pow_pos_nonneg 2 q ltac:(lia) ltac:(lia)) as Hpos.
      assert (Hpq : 2 ^ q <= 2 ^ Z.log2 (Z.abs n)) by (apply Z.pow_le_mono_r; lia).
      pose proof (Z.mul_div_le (Z.abs n) (2 ^ q) Hpos) as Hdown.
      pose proof (Z.div_pos (Z.abs n) (2 ^ q) ltac:(lia) Hpos) as Hdp.
      split; [apply Z.mul_nonneg_nonneg; lia|]. nia. }
  destruct (n <? 0).
  - rewrite Qabs_opp. rewrite Qabs_pos; tauto.
  - rewrite Qabs_pos; tauto.
Qed.

End Rounding.

Lemma double_of_exact (message : string) (x : Q) (n : Z) :
  (x == inject_Z n)%Q -> Z.abs n < 2 ^ 53 ->
  Py.double_of message x = inr (inject_Z n).
Proof.
  intros E Hsmall. unfold Py.double_of.
  rewrite (round_binary_exact 53 (-1074) ltac:(lia) ltac:(lia) x n E Hsmall).
  change (Qabs (inject_Z n)) with (inject_Z (Z.abs n)).
  rewrite pow2_nonneg_exp by lia.
  assert (Hlt : Py.Qlt_bool (inject_Z (Z.abs n)) (inject_Z (2 ^ 1024)) = true).
  { apply Qlt_bool_iff. rewrite <- Zlt_Qlt.
    assert (2 ^ 53 < 2 ^ 1024) by (apply Z.pow_lt_mono_r; lia). lia. }
  rewrite Hlt. reflexivity.
Qed.

Lemma double_of_defined (message : string) (x : Q) (n : Z) :
  (x == inject_Z n)%Q -> Z.abs n < 2 ^ 1023 ->
  exists r, Py.double_of message x = inr r.
Proof.
  intros E Hsmall. unfold Py.double_of.
  pose proof (round_binary_bound 53 (-1074) ltac:(lia) ltac:(lia) x n E) as Hbound.
  assert (Hlt : Py.Qlt_bool (Qabs (Py.round_binary 53 (-1074) x)) (Py.pow2 1024) = true).
  { apply Qlt_bool_iff. eapply Qle_lt_trans; [exact Hbound|].
    rewrite pow2_nonneg_exp by lia. rewrite <- Zlt_Qlt.
    change (2 ^ 1024) with (2 ^ (Z.succ 1023)). rewrite Z.pow_succ_r by lia. lia. }
  rewrite Hlt. eauto.
Qed.

Lemma double_of_raises (message : string) (x : Q) (e : exn) :
  Py.double_of message x = inl e -> e = Exn OverflowError message.
Proof.
  unfold Py.double_of. destruct (Py.Qlt_bool _ _); congruence.
Qed.

(** [float] of an integer below [2 ** 53] in absolute value is that
    integer. *)
Lemma float_int_exact (z : Z) : Z.abs z < 2 ^ 53 -> Py.float (PInt z) = inr (inject_Z z).
Proof. intros Hz. apply double_of_exact; [reflexivity|exact Hz]. Qed.

(** [float] raises on a number only for an integer beyond the doubles. *)
Lemma float_number_raises (v : pyval) (e : exn) :
  Py.is_number v = true -> Py.float v = inl e ->
  e = Exn OverflowError "int too large to convert to float" /\
  exists z, v = PInt z /\ 2 ^ 1023 <= Z.abs z.
Proof.
  intros Hnum Hraise. destruct v as [|b|z|q|s|l|d]; try discriminate.
  simpl in Hraise. split; [eapply double_of_raises, Hraise|].
  exists z. split; [reflexivity|].
  destruct (Z.lt_ge_cases (Z.abs z) (2 ^ 1023)) as [Hlt|Hge]; [|exact Hge].
  destruct (double_of_defined "int too large to convert to float" (inject_Z z) z
              ltac:(reflexivity) Hlt) as [r Hr].
  congruence.
Qed.

Lemma to_float_defined (v : pyval) (x : Q) : Py.float v = inr x -> Py.to_float v = x.
Proof. unfold Py.to_float. intros ->. reflexivity. Qed.

(** ** The expected sum *)

Lemma ranks_product_even (world_size : Z) :
  world_size * (world_size - 1) = 2 * (world_size * (world_size - 1) / 2).
Proof.
  assert (Hhalf : exists h, world_size * (world_size - 1) = h * 2).
  { destruct (Z.Even_or_Odd world_size) as [[k ->]|[k ->]].
    - exists (k * (2 * k - 1)). lia.
    - exists ((2 * k + 1) * k). lia. }
  destruct Hhalf as [h ->]. rewrite Z.div_mul by lia. lia.
Qed.

Lemma expected_sum_integer (world_size : Z) :
  (expected_sum world_size == inject_Z (world_size * (world_size - 1) / 2))%Q.
Proof.
  unfold expected_sum. rewrite (ranks_product_even world_size) at 1.
  rewrite inject_Z_mult. field.
Qed.

Lemma expected_sum_float_exact (world_size : Z) :
  Z.abs (world_size * (world_size - 1) / 2) < 2 ^ 53 ->
  expected_sum_float world_size = inr (inject_Z (world_size * (world_size - 1) / 2)).
Proof. intros Hsmall. apply double_of_exact; [apply expected_sum_integer|exact Hsmall]. Qed.

Lemma expected_sum_float_defined (world_size : Z) :
  Z.abs world_size <= 2 ^ 511 -> exists expected, expected_sum_float world_size = inr expected.
Proof.
  intros Hsmall.
  apply (double_of_defined _ _ _ (expected_sum_integer world_size)).
  pose proof (ranks_product_even world_size) as Heven.
  assert (Hprod : Z.abs (world_size * (world_size - 1)) <= 2 ^ 511 * (2 ^ 511 + 1)).
  { rewrite Z.abs_mul. apply Z.mul_le_mono_nonneg; lia. }
  assert (Hpow : 2 ^ 511 * (2 ^ 511 + 1) < 2 * 2 ^ 1023).
  { change 1023 with (511 + 512). rewrite Z.pow_add_r by lia.
    change 512 with (Z.succ 511). rewrite Z.pow_succ_r by lia.
    pose proof (Z.pow_pos_nonneg 2 511 ltac:(lia) ltac:(lia)).
    assert (2 <= 2 ^ 511) by (change 2 with (2 ^ 1) at 1; apply Z.pow_le_mono_r; lia).
    nia. }
  lia.
Qed.

Lemma expected_sum_float_raises (world_size : Z) (e : exn) :
  expected_sum_float world_size = inl e ->
  e = Exn OverflowError "integer division result too large for a float".
Proof. apply double_of_raises. Qed.

(** ** The float32 all-reduce *)

Lemma all_reduce_sum_natural (l : list Q) :
  Forall natural l -> natural (all_reduce_sum l).
Proof.
  induction 1 as [|x l (n & Hn & Hx) _ (m & Hm & IH)].
  - exists 0. split; [lia|reflexivity].
  - exists (n + m). split; [lia|]. simpl. rewrite Hx, IH, inject_Z_plus. reflexivity.
Qed.

Lemma all_reduce_sum_append (l1 l2 : list Q) :
  (all_reduce_sum (l1 ++ l2) == all_reduce_sum l1 + all_reduce_sum l2)%Q.
Proof.
  induction l1 as [|x l1 IH]; simpl.
  - ring.
  - rewrite IH. ring.
Qed.

Lemma all_reduce_sum_reorder (l l' : list Q) :
  l ≡ₚ l' -> (all_reduce_sum l == all_reduce_sum l')%Q.
Proof.
  induction 1 as [|x l l' _ IH|x y l|l l' l'' _ IH1 _ IH2]; simpl.
  - reflexivity.
  - rewrite IH. reflexivity.
  - ring.
  - rewrite IH1. exact IH2.
Qed.

(** Below [2 ** 24] every float32 addition of natural numbers is exact,
    so every order and grouping of the all-reduce gives the sum. *)
Lemma float32_reduces_exact (l : list Q) (s : Q) :
  float32_reduces l s ->
  Forall natural l ->
  (all_reduce_sum l < inject_Z (2 ^ 24))%Q ->
  (s == all_reduce_sum l)%Q.
Proof.
  induction 1 as [x|l1 l2 s1 s2 _ IH1 _ IH2|l l' s Hperm _ IH]; intros Hnat Hsmall.
  - destruct (all_reduce_sum_natural _ Hnat) as (n & Hn & Hsum).
    assert (Hx : (x == inject_Z n)%Q) by (rewrite <- Hsum; simpl; ring).
    rewrite Hsum in Hsmall. rewrite <- Zlt_Qlt in Hsmall.
    unfold Py.round_float32.
    rewrite (round_binary_exact 24 (-149) ltac:(lia) ltac:(lia) x n Hx) by lia.
    rewrite Hsum. reflexivity.
  - apply Forall_app in Hnat as [Hnat1 Hnat2].
    destruct (all_reduce_sum_natural _ Hnat1) as (n1 & Hn1 & Hsum1).
    destruct (all_reduce_sum_natural _ Hnat2) as (n2 & Hn2 & Hsum2).
    rewrite all_reduce_sum_append, Hsum1, Hsum2 in Hsmall.
    rewrite <- inject_Z_plus, <- Zlt_Qlt in Hsmall.
    assert (Hs1 : (s1 == inject_Z n1)%Q).
    { rewrite <- Hsum1. apply IH1; [exact Hnat1|].
      rewrite Hsum1, <- Zlt_Qlt. lia. }
    assert (Hs2 : (s2 == inject_Z n2)%Q).
    { rewrite <- Hsum2. apply IH2; [exact Hnat2|].
      rewrite Hsum2, <- Zlt_Qlt. lia. }
    assert (Hadd : (s1 + s2 == inject_Z (n1 + n2))%Q)
      by (rewrite Hs1, Hs2, inject_Z_plus; reflexivity).
    unfold float32_add, Py.round_float32.
    rewrite (round_binary_exact 24 (-149) ltac:(lia) ltac:(lia) _ _ Hadd) by lia.
    rewrite all_reduce_sum_append, Hsum1, Hsum2, inject_Z_plus. reflexivity.
  - assert (Hnat' : Forall natural l).
    { rewrite Forall_forall in Hnat |- *. intros x Hx. apply Hnat.
      rewrite <- Hperm. exact Hx. }
    rewrite <- (all_reduce_sum_reorder _ _ Hperm) in Hsmall |- *.
    apply IH; assumption.
Qed.

(** Adding rank after rank is one of the orders of the all-reduce. *)
Lemma float32_chain_reduces (contributions : list Q) :
  contributions <> [] -> float32_reduces contributions (float32_chain contributions).
Proof.
  destruct contributions as [|x l]; [congruence|]. intros _.
  unfold float32_chain.
  assert (Hgen : forall done s,
            float32_reduces done s ->
            float32_reduces (done ++ l)
              (fold_left (fun s y => float32_add s (Py.round_float32 y)) l s)).
  { induction l as [|y l IH]; intros done s Hdone; simpl.
    - rewrite app_nil_r. exact Hdone.
    - replace (done ++ y :: l) with ((done ++ [y]) ++ l)
        by (rewrite <- app_assoc; reflexivity).
      apply IH. apply reduces_join; [exact Hdone|apply reduces_one]. }
  apply (Hgen [x]). apply reduces_one.
Qed.

Lemma group_contributions_natural (world_size : Z) :
  Forall natural (group_contributions world_size).
Proof.
  unfold group_contributions. apply Forall_forall. intros x Hx.
  apply list_elem_of_fmap in Hx as (r & -> & _). exists (Z.of_nat r). split; [lia|reflexivity].
Qed.

(** A float32 is at least 1 away from an odd integer between [2 ** 24]
    and [2 ** 25]. *)
Lemma float32_gap (x : Q) (k : Z) :
  is_float32 x -> 2 ^ 24 <= 2 * k + 1 ->
  (1 <= Qabs (x - inject_Z (2 * k + 1)))%Q.
Proof.
  intros (m & e & Hm & He & Hx) Hk. rewrite Hx.
  destruct (Z.le_gt_cases e 0) as [Hle|Hgt].
  - (* at most [|m|] *)
    assert (Hbelow : (inject_Z m * Py.pow2 e <= inject_Z (2 ^ 24 - 1))%Q).
    { rewrite (pow2_nonpos_exp e Hle).
      pose proof (Z.pow_pos_nonneg 2 (- e) ltac:(lia) ltac:(lia)) as Hpos.
      apply Qle_trans with (inject_Z (Z.abs m)); [|rewrite <- Zle_Qle; lia].
      unfold Qle, Qmult, Qdiv, Qinv, inject_Z.
      destruct (2 ^ (- e)) eqn:Hp; try lia. simpl. nia. }
    rewrite Qabs_Qminus. eapply Qle_trans; [|apply Qle_Qabs].
    apply Qle_trans with (inject_Z (2 * k + 1) - inject_Z (2 ^ 24 - 1))%Q.
    + unfold Qminus. rewrite <- inject_Z_opp, <- inject_Z_plus.
      change 1%Q with (inject_Z 1). rewrite <- Zle_Qle. lia.
    + apply Qplus_le_r. apply Qopp_le_compat. exact Hbelow.
  - (* an even integer *)
    rewrite pow2_nonneg_exp by lia.
    replace e with (Z.succ (e - 1)) by lia. rewrite Z.pow_succ_r by lia.
    set (p := 2 ^ (e - 1)).
    unfold Qminus. rewrite <- inject_Z_mult, <- inject_Z_opp, <- inject_Z_plus.
    change (Qabs (inject_Z ?z)) with (inject_Z (Z.abs z)).
    replace (m * (2 * p) + - (2 * k + 1)) with (2 * (m * p - k) - 1) by lia.
    change 1%Q with (inject_Z 1). rewrite <- Zle_Qle. lia.
Qed.

Section NcclFacts.
Context `{PyRuntime}.

(** The runner raises only at line 196, before its first [try]. *)
Lemma runner_raises_iff env rank world_size master_addr master_port timeout_seconds e :
  _run_nccl_distributed env rank world_size master_addr master_port timeout_seconds = inl e
  <-> expected_sum_float world_size = inl e.
Proof.
  unfold _run_nccl_distributed.
  destruct (expected_sum_float world_size) as [e'|expected];
    [split; intros [= ->]; reflexivity|].
  destruct (te_import env); split; discriminate.
Qed.

(** The runner returns for every world size of at most [2 ** 511] in
    absolute value. *)
Lemma runner_returns env rank world_size master_addr master_port timeout_seconds :
  Z.abs world_size <= 2 ^ 511 ->
  exists result,
    _run_nccl_distributed env rank world_size master_addr master_port timeout_seconds
    = inr result.
Proof.
  intros Hsize.
  destruct (expected_sum_float_defined world_size Hsize) as [expected Hexp].
  destruct (_run_nccl_distributed env rank world_size master_addr master_port
              timeout_seconds) as [e|result] eqn:Hrun; [|eauto].
  apply runner_raises_iff in Hrun. congruence.
Qed.

Lemma small_world_size (world_size : Z) : Z.abs world_size < 2 ^ 31 -> Z.abs world_size <= 2 ^ 511.
Proof.
  intros Hsmall. assert (2 ^ 31 <= 2 ^ 511) by (apply Z.pow_le_mono_r; lia). lia.
Qed.

(** The runner on the path where the second [try] block stored a
    reduced value within tolerance. *)
Lemma run_nccl_ok_path env rank world_size master_addr master_port timeout_seconds
    expected reduced :
  expected_sum_float world_size = inr expected ->
  te_import env = None ->
  nccl_try_body env rank = inr reduced ->
  (Qabs (reduced - expected) < tolerance)%Q ->
  _run_nccl_distributed env rank world_size master_addr master_port timeout_seconds =
  inr [ ("ok", PBool true);
        ("rank", PInt rank);
        ("world_size", PInt world_size);
        ("hostname", PStr (te_hostname env));
        ("sum", PFloat reduced);
        ("expected_sum", PFloat expected);
        ("elapsed_seconds", PFloat (Py.round3 (te_time_end env - te_time_start env)));
        ("error", PStr "") ].
Proof.
  intros Hexp Himp Hbody Hclose. unfold _run_nccl_distributed.
  rewrite Hexp, Himp, Hbody. apply Qlt_bool_iff in Hclose. cbn zeta.
  rewrite Hclose. reflexivity.
Qed.

Lemma nccl_try_body_completes env rank reduced :
  Z.abs rank < 2 ^ 53 ->
  te_cuda_available env = true ->
  1 <= te_device_count env ->
  te_join env = None ->
  te_all_reduce env (inject_Z rank) = inr reduced ->
  te_barrier env = None ->
  nccl_try_body env rank = inr reduced.
Proof.
  intros Hrank Hcuda Hcount Hjoin Hred Hbar. unfold nccl_try_body.
  rewrite Hcuda, Hjoin, (float_int_exact rank Hrank), Hred, Hbar. simpl.
  destruct (te_device_count env <? 1) eqn:E; [apply Z.ltb_lt in E; lia|reflexivity].
Qed.

(** The shape of every result the runner returns. *)
Lemma runner_result_cases env rank world_size master_addr master_port timeout_seconds result :
  _run_nccl_distributed env rank world_size master_addr master_port timeout_seconds
  = inr result ->
  exists expected ok sum error,
    expected_sum_float world_size = inr expected /\
    result = [ ("ok", PBool ok);
               ("rank", PInt rank);
               ("world_size", PInt world_size);
               ("hostname", PStr (te_hostname env));
               ("sum", sum);
               ("expected_sum", PFloat expected);
               ("elapsed_seconds",
                PFloat (Py.round3 (te_time_end env - te_time_start env)));
               ("error", PStr error) ] /\
    (ok = true ->
     error = "" /\
     exists reduced, sum = PFloat reduced /\ nccl_try_body env rank = inr reduced /\
                     (Qabs (reduced - expected) < tolerance)%Q) /\
    (sum = PNone <-> te_import env <> None \/ exists e, nccl_try_body env rank = inl e).
Proof.
  unfold _run_nccl_distributed.
  destruct (expected_sum_float world_size) as [e|expected]; [discriminate|].
  destruct (te_import env) as [e|] eqn:Himp.
  { intros [= <-]. eexists expected, false, PNone, _.
    split; [reflexivity|]. split; [reflexivity|]. split; [discriminate|].
    split; [intros _; left; discriminate|reflexivity]. }
  destruct (nccl_try_body env rank) as [e|reduced] eqn:Hbody.
  { intros [= <-]. eexists expected, false, PNone, _.
    split; [reflexivity|]. split; [reflexivity|]. split; [discriminate|].
    split; [intros _; right; eauto|reflexivity]. }
  cbn zeta.
  destruct (Py.Qlt_bool (Qabs (reduced - expected)) tolerance) eqn:Hclose;
    intros [= <-]; eexists expected, _, (PFloat reduced), _;
    (split; [reflexivity|]); (split; [reflexivity|]); split.
  - intros _. split; [reflexivity|]. exists reduced. apply Qlt_bool_iff in Hclose. auto.
  - split; [discriminate|]. intros [Hno|[e He]]; [congruence|discriminate].
  - discriminate.
  - split; [discriminate|]. intros [Hno|[e He]]; [congruence|discriminate].
Qed.

(** C1 (as amended). For every world size from 1 to 5793, a runner of
    rank 0 .. world_size-1 whose import, GPU check, join, all-reduce and
    barrier all succeed, in a group whose all-reduce adds the float32
    contributions 0 .. world_size-1 in any order and grouping, returns a
    result that records the reduced value, which is within 1e-4 of
    world_size*(world_size-1)/2; the result has ok = True, an empty
    error and that expected sum, which is 0 for world_size = 1. *)
Theorem healthy_collective_passes
    (env : torch_env) (rank world_size : Z) (master_addr : string)
    (master_port timeout_seconds : Z) (reduced : Q) :
  1 <= world_size <= 5793 ->
  0 <= rank < world_size ->
  te_import env = None ->
  te_cuda_available env = true ->
  1 <= te_device_count env ->
  te_join env = None ->
  te_all_reduce env (inject_Z rank) = inr reduced ->
  te_barrier env = None ->
  float32_reduces (group_contributions world_size) reduced ->
  exists result,
    _run_nccl_distributed env rank world_size master_addr master_port timeout_seconds
    = inr result /\
    Py.dict_get "sum" result = Some (PFloat reduced) /\
    (Qabs (reduced - inject_Z (world_size * (world_size - 1)) / inject_Z 2) < 1 # 10000)%Q /\
    Py.dict_get "ok" result = Some (PBool true) /\
    Py.dict_get "error" result = Some (PStr "") /\
    Py.dict_get "expected_sum" result
    = Some (PFloat (inject_Z (world_size * (world_size - 1) / 2))) /\
    (world_size = 1 -> Py.dict_get "expected_sum" result = Some (PFloat 0)).
Proof.
  intros Hws Hrank Himp Hcuda Hcount Hjoin Hred Hbar Hsum.
  assert (Hhalf : 0 <= world_size * (world_size - 1) / 2 < 2 ^ 24).
  { pose proof (ranks_product_even world_size) as Heven.
    assert (0 <= world_size * (world_size - 1) <= 5793 * 5792) by nia.
    change (2 ^ 24) with 16777216. lia. }
  assert (Hexact : (reduced == expected_sum world_size)%Q).
  { rewrite <- (healthy_group_sum world_size) by lia.
    apply float32_reduces_exact; [exact Hsum|apply group_contributions_natural|].
    rewrite healthy_group_sum, expected_sum_integer, <- Zlt_Qlt by lia. lia. }
  assert (Hexp : expected_sum_float world_size
                 = inr (inject_Z (world_size * (world_size - 1) / 2))).
  { apply expected_sum_float_exact.
    assert (2 ^ 24 < 2 ^ 53) by (apply Z.pow_lt_mono_r; lia). lia. }
  assert (Hclose : (Qabs (reduced - inject_Z (world_size * (world_size - 1) / 2))
                    < tolerance)%Q).
  { apply Qabs_close. rewrite Hexact. apply expected_sum_integer. }
  assert (Hbody : nccl_try_body env rank = inr reduced).
  { apply nccl_try_body_completes; try assumption.
    assert (5793 < 2 ^ 53) by (change 5793 with (2 ^ 12 + 1697); 
                                assert (2 ^ 13 <= 2 ^ 53) by (apply Z.pow_le_mono_r; lia);
                                change (2 ^ 13) with 8192 in *; simpl; lia).
    lia. }
  eexists. split.
  { apply (run_nccl_ok_path env rank world_size master_addr master_port timeout_seconds
             _ reduced Hexp Himp Hbody Hclose). }
  repeat split; try reflexivity.
  - apply Qabs_close. exact Hexact.
  - intros ->. reflexivity.
Qed.

(** C9 (as amended). The runner raises only the [OverflowError] of line
    196, and only when world_size*(world_size-1)/2 is beyond the doubles.
    For every world size of absolute value at most [2 ** 511], whatever
    the other arguments and the environment, it returns a result
    dictionary (it neither raises nor blocks) that has all eight fields;
    and whenever ok is true, sum is a number within 1e-4 of expected_sum
    and error is the empty string. *)
Theorem runner_returns_full_result
    (w : world) (rank world_size : Z) (master_addr : string)
    (master_port timeout_seconds : Z) :
  Z.abs world_size <= 2 ^ 511 ->
  exists result,
    _run_nccl_distributed (w_torch w) rank world_size master_addr master_port
                          timeout_seconds = inr result /\
    run_nccl rank world_size master_addr master_port timeout_seconds w = (Ret result, w) /\
    Forall (fun k => is_Some (Py.dict_get k result)) result_fields /\
    (Py.truthy (Py.get "ok" result) = true ->
     exists s expected,
       Py.dict_get "sum" result = Some (PFloat s) /\
       Py.dict_get "expected_sum" result = Some (PFloat expected) /\
       expected_sum_float world_size = inr expected /\
       (Qabs (s - expected) < 1 # 10000)%Q /\
       Py.dict_get "error" result = Some (PStr "")).
Proof.
  intros Hsize.
  destruct (expected_sum_float_defined world_size Hsize) as [expected Hexp].
  destruct (_run_nccl_distributed (w_torch w) rank world_size master_addr master_port
              timeout_seconds) as [e|result] eqn:Hrun.
  { apply runner_raises_iff in Hrun. congruence. }
  exists result. split; [reflexivity|].
  split; [unfold run_nccl, mbind, M_bind, gets, lift; rewrite Hrun; reflexivity|].
  destruct (runner_result_cases _ _ _ _ _ _ _ Hrun)
    as (expected' & ok & sum & error & Hexp' & -> & Hok & _).
  split.
  - unfold result_fields. repeat (constructor; [eexists; reflexivity|]). constructor.
  - intros Htrue. destruct ok; [|discriminate].
    destruct (Hok eq_refl) as (-> & reduced & -> & _ & Hclose).
    exists reduced, expected'. auto.
Qed.

End NcclFacts.

Lemma healthy_collective_passes_witness :
  exists result,
    @_run_nccl_distributed plain_runtime healthy_rank1_of_3 1 3 "10.0.0.1" 29500 180
    = inr result /\
    Py.dict_get "sum" result = Some (PFloat 3) /\
    (Qabs (3 - inject_Z (3 * (3 - 1)) / inject_Z 2) < 1 # 10000)%Q /\
    Py.dict_get "ok" result = Some (PBool true) /\
    Py.dict_get "error" result = Some (PStr "") /\
    Py.dict_get "expected_sum" result = Some (PFloat (inject_Z (3 * (3 - 1) / 2))) /\
    (3 = 1 -> Py.dict_get "expected_sum" result = Some (PFloat 0)).
Proof.
  apply (@healthy_collective_passes plain_runtime healthy_rank1_of_3 1 3 "10.0.0.1" 29500 180
           3%Q).
  - lia.
  - lia.
  - reflexivity.
  - reflexivity.
  - simpl. lia.
  - reflexivity.
  - reflexivity.
  - reflexivity.
  - apply (float32_chain_reduces (group_contributions 3)). discriminate.
Defined.

(** C1, the claim as stated fails: in a healthy group of 5794 ranks the
    expected sum is 16782321, which no float32 comes nearer than 1 to;
    adding the ranks one after the other in float32 gives 16782320, and
    the runner that receives this value reports ok = False with a
    mismatch error. *)
Lemma healthy_group_of_5794_fails :
  let reduced := float32_chain (group_contributions 5794) in
  let env := healthy_group 5794 in
  float32_reduces (group_contributions 5794) reduced /\
  reduced = 16782320%Q /\
  (expected_sum 5794 == 16782321)%Q /\
  (~ exists x, is_float32 x /\ (Qabs (x - expected_sum 5794) < 1 # 10000)%Q) /\
  exists result,
    @_run_nccl_distributed plain_runtime env 0 5794 "10.0.0.1" 29500 180 = inr result /\
    Py.get "ok" result = PBool false /\
    Py.get "sum" result = PFloat 16782320 /\
    Py.get "expected_sum" result = PFloat 16782321 /\
    Py.get "error" result <> PStr "".
Proof.
  intros reduced env.
  assert (Hred : reduced = 16782320%Q) by (vm_compute; reflexivity).
  split; [|split; [exact Hred|split; [reflexivity|split]]].
  - apply float32_chain_reduces. intros Hnone.
    apply (f_equal (@length Q)) in Hnone. vm_compute in Hnone. discriminate.
  - intros (x & Hx & Hclose).
    pose proof (float32_gap x 8391160 Hx ltac:(vm_compute; discriminate)) as Hgap.
    assert (E : (expected_sum 5794 == inject_Z (2 * 8391160 + 1))%Q) by reflexivity.
    rewrite E in Hclose.
    apply (Qlt_not_le _ _ Hclose). eapply Qle_trans; [|exact Hgap].
    unfold Qle. simpl. lia.
  - eexists. split; [vm_compute; reflexivity|].
    repeat split; try reflexivity. discriminate.
Qed.

Lemma runner_returns_full_result_witness :
  exists result,
    @_run_nccl_distributed plain_runtime (w_torch idle_world) 0 2 "10.0.0.1" 29500 180
    = inr result /\
    @run_nccl plain_runtime 0 2 "10.0.0.1" 29500 180 idle_world = (Ret result, idle_world) /\
    Forall (fun k => is_Some (Py.dict_get k result)) result_fields.
Proof.
  destruct (@runner_returns_full_result plain_runtime idle_world 0 2 "10.0.0.1" 29500 180)
    as (result & Hrun & Hret & Hfields & _).
  - assert (2 ^ 1 <= 2 ^ 511) by (apply Z.pow_le_mono_r; lia). simpl Z.abs. lia.
  - exists result. auto.
Defined.

(** C9, the claim as stated fails: for a world size of [2 ** 513] the
    quotient of line 196 is beyond the doubles, the runner raises
    [OverflowError] before its first [try], and a worker that is sent
    such a [start_nccl] command lets the exception through. *)
Lemma runner_raises_on_huge_world_size :
  @_run_nccl_distributed plain_runtime (w_torch idle_world) 0 (2 ^ 513) "10.0.0.1" 29500 180
  = inl (Exn OverflowError "integer division result too large for a float") /\
  (@run_nccl plain_runtime 0 (2 ^ 513) "10.0.0.1" 29500 180 idle_world).1
  = Raise (Exn OverflowError "integer division result too large for a float").
Proof. vm_compute. auto. Qed.

(** ** The control channel: [recv] *)

Lemma wp_settimeout ch t (Q : res unit -> world -> Prop) w :
  (if match t with Some q => Py.Qlt_bool q 0 | None => false end
   then Q (Raise (Exn ValueError "Timeout value out of range")) w
   else Q (if sk_closed (the_sock ch w)
           then Raise (Exn OSError "Bad file descriptor") else Ret tt)
          (set_socks (insert ch (JsonChannel.with_timeout t (the_sock ch w))) w)) ->
  wp (JsonChannel.settimeout ch t) Q w.
Proof.
  intros HQ. unfold JsonChannel.settimeout, JsonChannel.sock_of, JsonChannel.put_sock.
  wp_steps; auto.
Qed.

Lemma valid_timeout_not_negative (t : option Q) :
  valid_timeout t ->
  match t with Some q => Py.Qlt_bool q 0 | None => false end = false.
Proof.
  destruct t as [q|]; [|reflexivity]. simpl. intros Hq.
  destruct (Py.Qlt_bool q 0) eqn:E; [|reflexivity].
  apply Qlt_bool_iff in E. exfalso. exact (Qlt_not_le _ _ E Hq).
Qed.

(** [settimeout] stores valid timeouts only. *)
Lemma settimeout_keeps_valid ch t w :
  valid_timeout (sk_timeout (the_sock ch w)) ->
  wp (JsonChannel.settimeout ch t)
     (fun _ w' => valid_timeout (sk_timeout (the_sock ch w'))) w.
Proof.
  intros Hvalid. apply wp_settimeout.
  destruct t as [q|]; simpl.
  - destruct (Py.Qlt_bool q 0) eqn:E; [exact Hvalid|].
    rewrite the_sock_put. simpl. apply Qnot_lt_le. intros Hlt.
    apply Qlt_bool_iff in Hlt. congruence.
  - rewrite the_sock_put. exact I.
Qed.

(** Whatever the body of a [try] did to the socket, a [finally] clause
    that sets a valid timeout leaves the socket with that timeout. *)
Lemma try_finally_restores {A} (c : M A) ch previous w :
  valid_timeout previous ->
  wp (try_finally c (JsonChannel.settimeout ch previous))
     (fun r w' => r <> Hang -> sk_timeout (the_sock ch w') = previous) w.
Proof.
  intros Hvalid. apply valid_timeout_not_negative in Hvalid.
  apply wp_try_finally, wp_intro. intros r w1 _.
  destruct r as [a|e|]; [| |congruence];
    apply wp_settimeout; rewrite Hvalid, the_sock_put;
    destruct (sk_closed (the_sock ch w1)); reflexivity.
Qed.

(** C10. A call of [JsonChannel.recv] that ends, whether it returns a
    message or raises (timeout, peer closed, or any other error), leaves
    the socket with the timeout it had before the call. *)
Theorem recv_restores_timeout (ch : nat) (timeout : option Q) (w w' : world) (r : res pyval) :
  valid_timeout (sk_timeout (the_sock ch w)) ->
  JsonChannel.recv ch timeout w = (r, w') ->
  r <> Hang ->
  sk_timeout (the_sock ch w') = sk_timeout (the_sock ch w).
Proof.
  intros Hvalid Hrun.
  refine (wp_run _ (fun r w' => r <> Hang ->
                      sk_timeout (the_sock ch w') = sk_timeout (the_sock ch w))
                 _ _ _ Hrun _).
  clear Hrun r w'.
  unfold JsonChannel.recv, JsonChannel.gettimeout, JsonChannel.sock_of.
  do 5 wp_step.
  eapply wp_mono; [apply try_finally_restores, Hvalid|].
  intros [line|e|] w1 Hw1; cbn beta iota.
  - destruct line as [[v|]|]; wp_step; intros _; apply Hw1; discriminate.
  - intros _. apply Hw1. discriminate.
  - congruence.
Qed.

Lemma recv_restores_timeout_witness :
  sk_timeout (the_sock 0 (JsonChannel.recv 0 (seconds 5) silent_peer_world).2)
  = sk_timeout (the_sock 0 silent_peer_world).
Proof.
  apply (recv_restores_timeout 0 (seconds 5) silent_peer_world
           (JsonChannel.recv 0 (seconds 5) silent_peer_world).2
           (JsonChannel.recv 0 (seconds 5) silent_peer_world).1).
  - vm_compute. discriminate.
  - vm_compute. reflexivity.
  - vm_compute. discriminate.
Defined.

(** ** The listener manager *)

Section ManagerFacts.
Context `{PyRuntime}.

Lemma start_on_occupied_port (port : Z) (p : proc) (w : world) :
  w_servers w !! port = Some p ->
  IperfServerManager.start port w = (Ret (IperfServerManager.refusal port), w).
Proof.
  intros Hp. unfold IperfServerManager.start, mbind, M_bind, gets.
  rewrite Hp. reflexivity.
Qed.

Lemma wp_popen_listener port (Q : res (exn + proc) -> world -> Prop) w :
  (forall r w', w_servers w' = w_servers w ->
                match r with
                | Ret (inr p) => pr_port p = port
                | Ret (inl _) => True
                | _ => False
                end -> Q r w') ->
  wp (popen_listener port) Q w.
Proof.
  intros HQ. unfold popen_listener. wp_steps; apply HQ; auto.
Qed.

Lemma start_keeps_filing port w :
  IperfServerManager.filed_by_port (w_servers w) ->
  wp (IperfServerManager.start port)
     (fun r w' => (exists d, r = Ret d) /\
                  IperfServerManager.filed_by_port (w_servers w')) w.
Proof.
  intros Hwf. unfold IperfServerManager.start. wp_steps; eauto.
  apply wp_popen_listener. intros r w' Hsame Hr.
  destruct r as [[e|p]| |]; try contradiction; wp_steps; simpl; eauto.
  - rewrite Hsame. eauto.
  - split; [eauto|]. rewrite Hsame. intros q p' Hq.
    destruct (decide (port = q)) as [->|Hne].
    + rewrite lookup_insert_eq in Hq. congruence.
    + rewrite lookup_insert_ne in Hq by done. eauto.
Qed.

Lemma wait_keeps_filing port timeout_seconds w :
  IperfServerManager.filed_by_port (w_servers w) ->
  wp (IperfServerManager.wait port timeout_seconds)
     (fun r w' => (exists d, r = Ret d) /\
                  IperfServerManager.filed_by_port (w_servers w')) w.
Proof.
  intros Hwf.
  assert (Hdel : IperfServerManager.filed_by_port (delete port (w_servers w))).
  { intros q p' Hq. apply lookup_delete_Some in Hq as [_ Hq]. eauto. }
  unfold IperfServerManager.wait, kill. wp_steps; simpl; eauto.
Qed.

Lemma for_each_kill_servers (l : list (Z * proc)) w :
  wp (for_each l (fun kv => kill kv.2))
     (fun r w' => r = Ret tt /\ w_servers w' = w_servers w /\ w_socks w' = w_socks w) w.
Proof.
  revert w. induction l as [|kv l IH]; intros w; simpl.
  - wp_steps. auto.
  - wp_step. unfold kill at 1. wp_step.
    eapply wp_mono; [apply IH|]. intros r w' (-> & Hs & Hk). auto.
Qed.

(** [shutdown_all] returns, leaves no tracked listener, and does not
    touch the connections. *)
Lemma shutdown_all_empties w :
  wp IperfServerManager.shutdown_all
     (fun r w' => r = Ret tt /\ w_servers w' = ∅ /\ w_socks w' = w_socks w) w.
Proof.
  unfold IperfServerManager.shutdown_all. wp_steps.
  eapply wp_mono; [apply for_each_kill_servers|].
  intros r w' (-> & _ & Hk). wp_steps. auto.
Qed.

Lemma filed_by_port_empty : IperfServerManager.filed_by_port ∅.
Proof. intros q p Hq. rewrite lookup_empty in Hq. discriminate. Qed.

Lemma run_calls_keep_filing (calls : list IperfServerManager.call) w :
  IperfServerManager.filed_by_port (w_servers w) ->
  wp (for_each calls IperfServerManager.run_call)
     (fun r w' => r = Ret tt /\ IperfServerManager.filed_by_port (w_servers w')) w.
Proof.
  revert w. induction calls as [|c calls IH]; intros w Hwf; simpl.
  - wp_steps. auto.
  - wp_step. destruct c as [port|port t|]; simpl.
    + wp_step. eapply wp_mono; [apply start_keeps_filing, Hwf|].
      intros r w1 [[d ->] Hwf1]. wp_steps. apply IH, Hwf1.
    + wp_step. eapply wp_mono; [apply wait_keeps_filing, Hwf|].
      intros r w1 [[d ->] Hwf1]. wp_steps. apply IH, Hwf1.
    + eapply wp_mono; [apply shutdown_all_empties|].
      intros r w1 (-> & Hw1 & _). apply IH. rewrite Hw1. apply filed_by_port_empty.
Qed.

End ManagerFacts.

Lemma no_entry_with_key {V} (k : Z) (l : list (Z * V)) :
  k ∉ l.*1 -> filter (fun kv => kv.1 = k) l = [].
Proof.
  induction l as [|[k' v] l IH]; simpl; intros Hk; [reflexivity|].
  apply not_elem_of_cons in Hk as [Hne Hk].
  rewrite filter_cons. simpl. destruct (decide (k' = k)); [congruence|auto].
Qed.

Lemma at_most_one_with_key {V} (k : Z) (l : list (Z * V)) :
  NoDup l.*1 -> (length (filter (fun kv => kv.1 = k) l) <= 1)%nat.
Proof.
  induction l as [|[k' v] l IH]; simpl; intros Hnd; [lia|].
  apply NoDup_cons in Hnd as [Hk' Hnd].
  rewrite filter_cons. simpl. destruct (decide (k' = k)) as [->|Hne]; [|auto].
  rewrite (no_entry_with_key k l Hk'). simpl. lia.
Qed.

Lemma filter_filed (port : Z) (l : list (Z * proc)) :
  (forall kv, kv ∈ l -> pr_port kv.2 = kv.1) ->
  filter (fun kv => pr_port kv.2 = port) l = filter (fun kv => kv.1 = port) l.
Proof.
  induction l as [|kv l IH]; intros Hl; [reflexivity|].
  rewrite !filter_cons, IH by (intros; apply Hl; by right).
  rewrite (Hl kv) by by left. reflexivity.
Qed.

Lemma filed_listeners_at_most_one (port : Z) (w : world) :
  IperfServerManager.filed_by_port (w_servers w) ->
  (IperfServerManager.listeners_on port w <= 1)%nat.
Proof.
  intros Hwf. unfold IperfServerManager.listeners_on.
  rewrite filter_filed.
  - apply at_most_one_with_key, NoDup_fst_map_to_list.
  - intros [q p] Hin. apply elem_of_map_to_list in Hin. simpl. eauto.
Qed.

(** C7. In every state a listener manager can reach from its creation
    by calls of [start], [wait] and [shutdown_all], at most one listener
    process is tracked for each port; and [start] on a port that has a
    tracked listener returns ok = False with an error and changes
    nothing: the tracked listener stays, and no process is spawned. *)
Theorem one_listener_per_port `{PyRuntime}
    (calls : list IperfServerManager.call) (w0 : world) :
  exists w,
    (IperfServerManager.init ;; for_each calls IperfServerManager.run_call) w0 = (Ret tt, w) /\
    (forall port, (IperfServerManager.listeners_on port w <= 1)%nat) /\
    (forall port p,
       w_servers w !! port = Some p ->
       IperfServerManager.start port w = (Ret (IperfServerManager.refusal port), w)).
Proof.
  pose proof (run_calls_keep_filing calls (set_servers ∅ w0) filed_by_port_empty) as Hrun.
  unfold wp in Hrun.
  destruct (for_each calls IperfServerManager.run_call (set_servers ∅ w0)) as [r w] eqn:E.
  simpl in Hrun. destruct Hrun as [-> Hwf].
  exists w. split; [|split].
  - unfold IperfServerManager.init, mbind, M_bind, modify. exact E.
  - intros port. apply filed_listeners_at_most_one, Hwf.
  - intros port p Hp. apply (start_on_occupied_port port p w Hp).
Qed.

Lemma one_listener_per_port_witness :
  exists w,
    (@IperfServerManager.init ;;
     for_each [IperfServerManager.Start 5301; IperfServerManager.Start 5301]
              (@IperfServerManager.run_call plain_runtime)) listener_world = (Ret tt, w) /\
    w_servers w !! 5301 = Some (Proc 0 5301 (CommExit 0 "" "")) /\
    w_spawned w = [Proc 0 5301 (CommExit 0 "" "")] /\
    (IperfServerManager.listeners_on 5301 w <= 1)%nat.
Proof.
  destruct (@one_listener_per_port plain_runtime
              [IperfServerManager.Start 5301; IperfServerManager.Start 5301]
              listener_world) as (w & Hrun & Hone & _).
  exists w. split; [exact Hrun|].
  assert (Hw : w = ((@IperfServerManager.init ;;
     for_each [IperfServerManager.Start 5301; IperfServerManager.Start 5301]
              (@IperfServerManager.run_call plain_runtime)) listener_world).2).
  { rewrite Hrun. reflexivity. }
  split; [|split].
  - rewrite Hw. vm_compute. reflexivity.
  - rewrite Hw. vm_compute. reflexivity.
  - apply Hone.
Defined.

(** ** Throughput probes *)

Lemma qmax_bounds (x : Q) (l : list Q) :
  (x <= qmax x l)%Q /\ (forall y, In y l -> (y <= qmax x l)%Q) /\
  In (qmax x l) (x :: l).
Proof.
  revert x. induction l as [|z l IH]; intros x; simpl.
  - split; [apply Qle_refl|]. split; [tauto|auto].
  - destruct (Py.Qlt_bool x z) eqn:E.
    + apply Qlt_bool_iff in E. destruct (IH z) as (Hz & Hl & Hin).
      split; [eapply Qle_trans; [apply Qlt_le_weak, E|exact Hz]|].
      split; [intros y [<-|Hy]; auto|].
      destruct Hin as [Hin|Hin]; auto.
    + assert (Hzx : (z <= x)%Q).
      { apply Qnot_lt_le. intros Hlt. apply Qlt_bool_iff in Hlt. congruence. }
      destruct (IH x) as (Hx & Hl & Hin).
      split; [exact Hx|].
      split; [intros y [<-|Hy]; [eapply Qle_trans; eauto|auto]|].
      destruct Hin as [Hin|Hin]; auto.
Qed.

(** [max_candidates] returns an element of the list that bounds all of
    them, and [None] only on the empty list. *)
Lemma max_candidates_spec (l : list Q) :
  match max_candidates l with
  | Some m => In m l /\ forall y, In y l -> (y <= m)%Q
  | None => l = []
  end.
Proof.
  destruct l as [|x l]; simpl; [reflexivity|].
  destruct (qmax_bounds x l) as (Hx & Hl & Hin).
  split; [exact Hin|]. intros y [<-|Hy]; auto.
Qed.

(** What the checked appends collect are the figures. *)
Lemma append_bps_figures (value : pyval) (l : list Q) :
  append_bps value = inr l -> l = bps_of value.
Proof.
  unfold append_bps, bps_of. destruct value as [| | | | | |d]; try congruence.
  destruct (Py.is_number (Py.get "bits_per_second" d)); [|congruence].
  unfold Py.to_float. destruct (Py.float (Py.get "bits_per_second" d)); congruence.
Qed.

Lemma append_bps_raises (value : pyval) (e : exn) :
  append_bps value = inl e -> e = Exn OverflowError "int too large to convert to float".
Proof.
  unfold append_bps. destruct value as [| | | | | |d]; try discriminate.
  destruct (Py.is_number (Py.get "bits_per_second" d)) eqn:Hnum; [|discriminate].
  destruct (Py.float (Py.get "bits_per_second" d)) as [e'|x] eqn:Hfloat; [|discriminate].
  intros [= <-]. apply (float_number_raises _ _ Hnum Hfloat).
Qed.

Lemma append_both_inr (first second : exn + list Q) (l : list Q) :
  append_both first second = inr l ->
  exists l1 l2, first = inr l1 /\ second = inr l2 /\ l = l1 ++ l2.
Proof.
  unfold append_both. destruct first as [e|l1]; [discriminate|].
  destruct second as [e|l2]; [discriminate|]. intros [= <-]. eauto.
Qed.

Lemma append_both_inl (first second : exn + list Q) (e : exn) :
  append_both first second = inl e -> first = inl e \/ second = inl e.
Proof.
  unfold append_both. destruct first as [e1|l1]; [intros [= ->]; auto|].
  destruct second as [e2|l2]; [intros [= ->]; auto|discriminate].
Qed.

Lemma append_streams_figures (streams : list pyval) (l : list Q) :
  append_streams streams = inr l -> l = concat (map stream_candidates streams).
Proof.
  revert l. induction streams as [|item rest IH]; simpl; intros l E; [congruence|].
  apply append_both_inr in E as (l1 & l2 & Hitem & Hrest & ->).
  rewrite <- (IH l2 Hrest). f_equal.
  destruct item as [| | | | | |d]; try (simpl; congruence).
  apply append_both_inr in Hitem as (s1 & s2 & Hs1 & Hs2 & ->).
  simpl. rewrite <- (append_bps_figures _ _ Hs1), <- (append_bps_figures _ _ Hs2).
  reflexivity.
Qed.

Lemma append_streams_raises (streams : list pyval) (e : exn) :
  append_streams streams = inl e ->
  e = Exn OverflowError "int too large to convert to float".
Proof.
  induction streams as [|item rest IH]; simpl; [discriminate|]. intros E.
  apply append_both_inl in E as [E|E]; [|exact (IH E)].
  destruct item as [| | | | | |d]; try discriminate.
  apply append_both_inl in E as [E|E]; exact (append_bps_raises _ _ E).
Qed.

Section ProbeFacts.
Context `{PyRuntime}.

Lemma extract_is_max_of_figures (text : string) (data : pyval) (e_nd : pydict)
    (r : option Q) :
  json_loads text = Some data ->
  Py.getattr_get data "end" (PDict []) = inr (PDict e_nd) ->
  _extract_iperf_bps text = inr r ->
  r = max_candidates (figures_of e_nd).
Proof.
  intros Hload Hend. unfold _extract_iperf_bps, figures_of.
  rewrite Hload, Hend.
  destruct (append_both (append_bps (Py.get "sum_received" e_nd))
                        (append_bps (Py.get "sum_sent" e_nd)))
    as [e|aggregates] eqn:Hagg; [discriminate|].
  apply append_both_inr in Hagg as (l1 & l2 & H1 & H2 & ->).
  rewrite <- (append_bps_figures _ _ H1), <- (append_bps_figures _ _ H2).
  destruct (l1 ++ l2); [|intros [= <-]; reflexivity].
  destruct (Py.get "streams" e_nd) as [| | | | |streams|];
    try (intros [= <-]; reflexivity).
  destruct (append_streams streams) as [e|candidates] eqn:Hstreams; [discriminate|].
  rewrite <- (append_streams_figures _ _ Hstreams). intros [= <-]. reflexivity.
Qed.

Lemma extract_some_inv (text : string) (b : Q) :
  _extract_iperf_bps text = inr (Some b) ->
  exists data e_nd,
    json_loads text = Some data /\
    Py.getattr_get data "end" (PDict []) = inr (PDict e_nd) /\
    max_candidates (figures_of e_nd) = Some b.
Proof.
  intros E.
  assert (Hshape : exists data e_nd,
             json_loads text = Some data /\
             Py.getattr_get data "end" (PDict []) = inr (PDict e_nd)).
  { unfold _extract_iperf_bps in E.
    destruct (json_loads text) as [data|] eqn:Hload; [|discriminate].
    destruct (Py.getattr_get data "end" (PDict [])) as [e|v] eqn:Hend; [discriminate|].
    destruct v as [| | | | | |e_nd]; try discriminate. eauto. }
  destruct Hshape as (data & e_nd & Hload & Hend).
  exists data, e_nd. split; [assumption|]. split; [assumption|].
  symmetry. exact (extract_is_max_of_figures _ _ _ _ Hload Hend E).
Qed.

(** [_extract_iperf_bps] raises for a report whose ["end"] is not a
    dict, and for a figure beyond the doubles. *)
Lemma extract_raises (text : string) (e : exn) :
  _extract_iperf_bps text = inl e ->
  exn_cls e = AttributeError \/
  e = Exn OverflowError "int too large to convert to float".
Proof.
  unfold _extract_iperf_bps.
  destruct (json_loads text) as [data|]; [|discriminate].
  destruct (Py.getattr_get data "end" (PDict [])) as [e'|v] eqn:Hend.
  { intros [= <-]. left. unfold Py.getattr_get in Hend.
    destruct data; inversion Hend; reflexivity. }
  destruct v as [| | | | | |e_nd]; try (intros [= <-]; left; reflexivity).
  destruct (append_both _ _) as [e'|aggregates] eqn:Hagg.
  { intros [= <-]. right.
    apply append_both_inl in Hagg as [E|E]; exact (append_bps_raises _ _ E). }
  destruct aggregates; [|discriminate].
  destruct (Py.get "streams" e_nd) as [| | | | |streams|]; try discriminate.
  destruct (append_streams streams) as [e'|candidates] eqn:Hstreams; [|discriminate].
  intros [= <-]. right. exact (append_streams_raises _ _ Hstreams).
Qed.

Lemma failed_probe_not_ok (error : string) :
  Py.truthy (Py.get "ok" (failed_probe error)) = false.
Proof. reflexivity. Qed.

Lemma direction_verdict_ok_inv (client_res server_res r : pydict) :
  direction_verdict client_res server_res = inr r ->
  Py.truthy (Py.get "ok" r) = true ->
  Py.truthy (Py.get "ok" client_res) = true /\
  Py.truthy (Py.get "ok" server_res) = true /\
  Py.is_number (Py.get "bps" client_res) = true /\
  r = [ ("ok", PBool true);
        ("bps", PFloat (Py.to_float (Py.get "bps" client_res)));
        ("error", PStr "") ].
Proof.
  unfold direction_verdict.
  destruct (Py.truthy (Py.get "ok" client_res)); simpl; [|intros [= <-]; discriminate].
  destruct (Py.truthy (Py.get "ok" server_res)); simpl; [|intros [= <-]; discriminate].
  destruct (Py.is_number (Py.get "bps" client_res)); simpl; [|intros [= <-]; discriminate].
  unfold Py.to_float.
  destruct (Py.float (Py.get "bps" client_res)); [discriminate|].
  intros [= <-]. auto.
Qed.


Lemma run_iperf_direction_ok_inv client_node server_node port duration_seconds w r w' :
  _run_iperf_direction client_node server_node port duration_seconds w = (Ret r, w') ->
  Py.truthy (Py.get "ok" r) = true ->
  exists start_res w1 client_res w2 server_res,
    _node_start_iperf_server server_node port w = (Ret start_res, w1) /\
    Py.truthy (Py.get "ok" start_res) = true /\
    _node_run_iperf_client client_node (ni_ip server_node) port duration_seconds w1
      = (Ret client_res, w2) /\
    _node_wait_iperf_server server_node port (duration_seconds + 30) w2
      = (Ret server_res, w') /\
    direction_verdict client_res server_res = inr r.
Proof.
  intros Hrun Hok. unfold _run_iperf_direction in Hrun.
  apply bind_ret_inv in Hrun as (start_res & w1 & Hstart & Hrun).
  destruct (Py.truthy (Py.get "ok" start_res)) eqn:Hstart_ok; simpl in Hrun.
  - apply bind_ret_inv in Hrun as (client_res & w2 & Hclient & Hrun).
    apply bind_ret_inv in Hrun as (server_res & w3 & Hserver & Hrun).
    apply lift_ret_inv in Hrun as [Hverdict ->]. eauto 10.
  - inversion Hrun; subst. rewrite failed_probe_not_ok in Hok. discriminate.
Qed.

Lemma run_iperf_client_ok_inv target_host port duration_seconds w r w' :
  _run_iperf_client target_host port duration_seconds w = (Ret r, w') ->
  Py.truthy (Py.get "ok" r) = true ->
  exists cmd out err b,
    _run_command cmd (duration_seconds + 30) w = (Ret (0, out, err), w') /\
    _extract_iperf_bps out = inr (Some b) /\
    r = [ ("ok", PBool true); ("bps", PFloat b); ("error", PStr "") ].
Proof.
  intros Hrun Hok. unfold _run_iperf_client in Hrun.
  apply bind_ret_inv in Hrun as ([[code out] err] & w1 & Hcmd & Hrun).
  destruct (code =? 0) eqn:Hcode; simpl in Hrun.
  - apply Z.eqb_eq in Hcode. subst code.
    apply bind_ret_inv in Hrun as (bps & w2 & Hbps & Hrun).
    apply lift_ret_inv in Hbps as [Hbps ->].
    destruct bps as [b|]; inversion Hrun; subst; [eauto 10|discriminate].
  - inversion Hrun; subst. discriminate.
Qed.

Lemma pair_status_pass_iff (a_to_b b_to_a : pydict) :
  pair_status a_to_b b_to_a = "PASS" <->
  Py.truthy (Py.get "ok" a_to_b) = true /\ Py.truthy (Py.get "ok" b_to_a) = true.
Proof.
  unfold pair_status.
  destruct (Py.truthy (Py.get "ok" a_to_b)), (Py.truthy (Py.get "ok" b_to_a));
    simpl; split; intros E; try discriminate; try tauto; destruct E; discriminate.
Qed.

(** C4 (as amended). A directed probe passes only if the sink's
    listener started, the client ran successfully and its result carries
    a numeric bits-per-second value, and the sink's listener finished
    successfully; the value comes from the client's result, never from
    the sink's report. When the client runs on the host, its command
    exited with status 0 and the value is the largest of the figures of
    the client's own report: the received and sent aggregates when one
    of them is numeric, else the per-stream sender and receiver figures.
    A pair is PASS only if both of its directions pass. *)
Theorem passing_probe_requirements
    (client_node server_node : NodeInfo) (port duration_seconds : Z)
    (w w' : world) (r : pydict) :
  _run_iperf_direction client_node server_node port duration_seconds w = (Ret r, w') ->
  Py.truthy (Py.get "ok" r) = true ->
  (exists start_res w1 client_res w2 server_res,
     _node_start_iperf_server server_node port w = (Ret start_res, w1) /\
     Py.truthy (Py.get "ok" start_res) = true /\
     _node_run_iperf_client client_node (ni_ip server_node) port duration_seconds w1
       = (Ret client_res, w2) /\
     Py.truthy (Py.get "ok" client_res) = true /\
     Py.is_number (Py.get "bps" client_res) = true /\
     _node_wait_iperf_server server_node port (duration_seconds + 30) w2
       = (Ret server_res, w') /\
     Py.truthy (Py.get "ok" server_res) = true /\
     r = [ ("ok", PBool true);
           ("bps", PFloat (Py.to_float (Py.get "bps" client_res)));
           ("error", PStr "") ] /\
     (ni_is_host client_node = true ->
      exists cmd out err data e_nd b,
        _run_command cmd (duration_seconds + 30) w1 = (Ret (0, out, err), w2) /\
        json_loads out = Some data /\
        Py.getattr_get data "end" (PDict []) = inr (PDict e_nd) /\
        Py.get "bps" client_res = PFloat b /\
        In b (figures_of e_nd) /\
        forall y, In y (figures_of e_nd) -> (y <= b)%Q)) /\
  (forall a_to_b b_to_a,
     pair_status a_to_b b_to_a = "PASS" ->
     Py.truthy (Py.get "ok" a_to_b) = true /\ Py.truthy (Py.get "ok" b_to_a) = true).
Proof.
  intros Hrun Hok. split; [|intros a b; apply pair_status_pass_iff].
  destruct (run_iperf_direction_ok_inv _ _ _ _ _ _ _ Hrun Hok)
    as (start_res & w1 & client_res & w2 & server_res
        & Hstart & Hstart_ok & Hclient & Hserver & Hverdict).
  destruct (direction_verdict_ok_inv _ _ _ Hverdict Hok) as (Hc & Hs & Hnum & Hr).
  exists start_res, w1, client_res, w2, server_res.
  repeat (split; [assumption|]).
  intros Hhost. unfold _node_run_iperf_client in Hclient. rewrite Hhost in Hclient.
  destruct (run_iperf_client_ok_inv _ _ _ _ _ _ Hclient Hc)
    as (cmd & out & err & b & Hcmd & Hextract & ->).
  destruct (extract_some_inv _ _ Hextract) as (data & e_nd & Hload & Hend & Hmax).
  pose proof (max_candidates_spec (figures_of e_nd)) as Hspec.
  rewrite Hmax in Hspec. destruct Hspec as [Hin Hle].
  exists cmd, out, err, data, e_nd, b. auto 10.
Qed.

End ProbeFacts.

Lemma passing_probe_requirements_witness :
  exists client_res e_nd b,
    Py.truthy (Py.get "ok" client_res) = true /\
    Py.get "bps" client_res = PFloat b /\
    In b (figures_of e_nd) /\
    forall y, In y (figures_of e_nd) -> (y <= b)%Q.
Proof.
  destruct (@passing_probe_requirements probe_runtime host_node worker1_node 5301 5
              host_to_worker_world
              (@_run_iperf_direction probe_runtime host_node worker1_node 5301 5
                 host_to_worker_world).2
              [("ok", PBool true); ("bps", PFloat 9400000000); ("error", PStr "")])
    as [(start_res & w1 & client_res & w2 & server_res
         & _ & _ & _ & Hok & _ & _ & _ & _ & Hhost) _].
  - vm_compute. reflexivity.
  - reflexivity.
  - destruct (Hhost eq_refl)
      as (cmd & out & err & data & e_nd & b & _ & _ & _ & Hbps & Hin & Hmax).
    exists client_res, e_nd, b. auto.
Defined.

(** C4, the claim as stated fails: worker 1 probes towards the host, the
    host's listener (the sink) exits with an empty report, from which no
    figure can be recovered, and the direction passes all the same with
    the figure the client reported. *)
Lemma probe_passes_without_sink_figure :
  let run := @_run_iperf_direction plain_runtime worker1_node host_node 5301 5
               worker_to_host_world in
  run.1 = Ret [("ok", PBool true); ("bps", PFloat 9400000000); ("error", PStr "")] /\
  w_spawned run.2 = [Proc 0 5301 (CommExit 0 "" "")] /\
  @_extract_iperf_bps plain_runtime "" = inr None.
Proof. vm_compute. auto. Qed.

(** ** The mesh report *)

Section MeshFacts.
Context `{PyRuntime}.

(** A finished probe is a passing probe with a figure or a failed probe
    with a message. *)
Lemma run_iperf_direction_shape client_node server_node port duration_seconds w r w' :
  _run_iperf_direction client_node server_node port duration_seconds w = (Ret r, w') ->
  (exists bps, r = passing_probe bps) \/ (exists error, r = failed_probe error).
Proof.
  intros Hrun. unfold _run_iperf_direction in Hrun.
  apply bind_ret_inv in Hrun as (start_res & w1 & _ & Hrun).
  destruct (Py.truthy (Py.get "ok" start_res)); simpl in Hrun.
  - apply bind_ret_inv in Hrun as (client_res & w2 & _ & Hrun).
    apply bind_ret_inv in Hrun as (server_res & w3 & _ & Hrun).
    apply lift_ret_inv in Hrun as [Hverdict _]. unfold direction_verdict in Hverdict.
    destruct (Py.truthy (Py.get "ok" client_res)); simpl in Hverdict;
      [|inversion Hverdict; eauto].
    destruct (Py.truthy (Py.get "ok" server_res)); simpl in Hverdict;
      [|inversion Hverdict; eauto].
    destruct (Py.is_number (Py.get "bps" client_res)); simpl in Hverdict;
      [|inversion Hverdict; eauto].
    destruct (Py.float (Py.get "bps" client_res)); inversion Hverdict.
    left. eexists. reflexivity.
  - inversion Hrun; subst. eauto.
Qed.

Lemma gbps_of_passing (bps : Q) :
  ~ (bps == 0)%Q -> gbps_of (passing_probe bps) = inr (Some (bps / giga)%Q).
Proof.
  intros Hnz. unfold gbps_of, passing_probe. simpl.
  destruct (Qeq_bool bps 0) eqn:E; [|reflexivity].
  apply Qeq_bool_iff in E. contradiction.
Qed.

Lemma gbps_of_zero (bps : Q) :
  (bps == 0)%Q -> gbps_of (passing_probe bps) = inr None.
Proof.
  intros Hz. unfold gbps_of, passing_probe. simpl.
  apply Qeq_bool_iff in Hz. rewrite Hz. reflexivity.
Qed.

Lemma gbps_of_failed (error : string) : gbps_of (failed_probe error) = inr None.
Proof. reflexivity. Qed.

(** When both directions pass with a throughput other than zero, the row
    shows both figures, their arithmetic mean and PASS. *)
Lemma pair_row_both_pass (node_a node_b : NodeInfo) (bps_ab bps_ba : Q) :
  ~ (bps_ab == 0)%Q -> ~ (bps_ba == 0)%Q ->
  exists avg,
    pair_row node_a node_b (passing_probe bps_ab) (passing_probe bps_ba)
    = inr [ PStr (pretty (ni_rank node_a) +:+ "-" +:+ pretty (ni_rank node_b));
            PStr (node_label node_a);
            PStr (node_label node_b);
            PStr (py_format_3f (bps_ab / giga));
            PStr (py_format_3f (bps_ba / giga));
            PStr (py_format_3f avg);
            PStr "PASS";
            PStr (py_strip "") ] /\
    (avg == (bps_ab / giga + bps_ba / giga) / 2)%Q.
Proof.
  intros Hab Hba. eexists. unfold pair_row.
  rewrite (gbps_of_passing _ Hab), (gbps_of_passing _ Hba).
  split; [reflexivity|]. simpl. field. discriminate.
Qed.

(** When a direction fails, the row is FAIL, the detail names the failed
    direction with its error, and a passing direction with a throughput
    other than zero keeps its figure. *)
Lemma pair_row_a_fails (node_a node_b : NodeInfo) (error : string) (bps_ba : Q) :
  ~ (bps_ba == 0)%Q ->
  exists avg,
    pair_row node_a node_b (failed_probe error) (passing_probe bps_ba)
    = inr [ PStr (pretty (ni_rank node_a) +:+ "-" +:+ pretty (ni_rank node_b));
            PStr (node_label node_a);
            PStr (node_label node_b);
            PStr "N/A";
            PStr (py_format_3f (bps_ba / giga));
            PStr (py_format_3f avg);
            PStr "FAIL";
            PStr (py_strip ("A->B: " +:+ error +:+ " ")) ].
Proof.
  intros Hba. eexists. unfold pair_row.
  rewrite gbps_of_failed, (gbps_of_passing _ Hba). reflexivity.
Qed.

Lemma pair_row_b_fails (node_a node_b : NodeInfo) (bps_ab : Q) (error : string) :
  ~ (bps_ab == 0)%Q ->
  exists avg,
    pair_row node_a node_b (passing_probe bps_ab) (failed_probe error)
    = inr [ PStr (pretty (ni_rank node_a) +:+ "-" +:+ pretty (ni_rank node_b));
            PStr (node_label node_a);
            PStr (node_label node_b);
            PStr (py_format_3f (bps_ab / giga));
            PStr "N/A";
            PStr (py_format_3f avg);
            PStr "FAIL";
            PStr (py_strip ("B->A: " +:+ error)) ].
Proof.
  intros Hab. eexists. unfold pair_row.
  rewrite gbps_of_failed, (gbps_of_passing _ Hab). reflexivity.
Qed.

Lemma pair_row_both_fail (node_a node_b : NodeInfo) (error_ab error_ba : string) :
  pair_row node_a node_b (failed_probe error_ab) (failed_probe error_ba)
  = inr [ PStr (pretty (ni_rank node_a) +:+ "-" +:+ pretty (ni_rank node_b));
          PStr (node_label node_a);
          PStr (node_label node_b);
          PStr "N/A";
          PStr "N/A";
          PStr "N/A";
          PStr "FAIL";
          PStr (py_strip (("A->B: " +:+ error_ab +:+ " ") +:+ "B->A: " +:+ error_ba)) ].
Proof. reflexivity. Qed.

(** A passing direction whose throughput is zero is shown as N/A and is
    left out of the average, which is then the other direction's figure. *)
Lemma pair_row_zero_dropped (node_a node_b : NodeInfo) (bps_ab : Q) :
  ~ (bps_ab == 0)%Q ->
  exists avg,
    pair_row node_a node_b (passing_probe bps_ab) (passing_probe 0)
    = inr [ PStr (pretty (ni_rank node_a) +:+ "-" +:+ pretty (ni_rank node_b));
            PStr (node_label node_a);
            PStr (node_label node_b);
            PStr (py_format_3f (bps_ab / giga));
            PStr "N/A";
            PStr (py_format_3f avg);
            PStr "PASS";
            PStr (py_strip "") ] /\
    (avg == bps_ab / giga)%Q.
Proof.
  intros Hab. eexists. unfold pair_row.
  rewrite (gbps_of_passing _ Hab), (gbps_of_zero 0) by reflexivity.
  split; [reflexivity|]. simpl. field. discriminate.
Qed.

End MeshFacts.

(** C8, the code at the failing input: in a mesh of two nodes where the
    probe from the host to worker 1 passes at 9.4 Gbit/s and the probe
    from worker 1 to the host passes with a reported throughput of 0, the
    row shows N/A for the second direction, an average of 9.400 (the mean
    of the two figures is 4.700) and PASS. *)
Theorem zero_throughput_row :
  let run := @_run_mesh_iperf_tests probe_runtime [host_node; worker1_node] 5
               zero_throughput_world in
  run.1 = Ret tt /\
  last (w_out run.2)
  = Some (OutTable
            ["Pair"; "NodeA"; "NodeB"; "A->B Gbps"; "B->A Gbps"; "Avg Gbps";
             "Status"; "Detail"]
            [[ PStr "0-1"; PStr "node-a(10.0.0.1)"; PStr "node-b(10.0.0.2)";
               PStr "9.400"; PStr "N/A"; PStr "9.400"; PStr "PASS"; PStr "" ]]) /\
  format_3f ((9400000000 / giga + 0 / giga) / 2) = "4.700".
Proof. vm_compute. auto. Qed.

(** ** The control channel: [send] and a line that is ready *)

Lemma bind_run_ret {A B} (c : M A) (k : A -> M B) w a w1 :
  c w = (Ret a, w1) -> (c ≫= k) w = k a w1.
Proof. unfold mbind, M_bind. intros ->. reflexivity. Qed.

Lemma put_sock_twice ch s1 s2 w :
  set_socks (insert ch s2) (set_socks (insert ch s1) w) = set_socks (insert ch s2) w.
Proof. unfold set_socks. simpl. rewrite insert_insert_eq. reflexivity. Qed.

(** [recv] when the socket is open and the next thing the peer does is
    to deliver a line of valid JSON. *)
Lemma recv_line (ch : nat) (timeout : option Q) (w : world) (v : pyval) (rx : list rx_event) :
  sk_closed (the_sock ch w) = false ->
  sk_timed_out (the_sock ch w) = false ->
  valid_timeout (sk_timeout (the_sock ch w)) ->
  valid_timeout timeout ->
  sk_rx (the_sock ch w) = RxLine (Some v) :: rx ->
  JsonChannel.recv ch timeout w
  = (Ret v, set_socks (insert ch (JsonChannel.with_rx rx false (the_sock ch w))) w).
Proof.
  intros Hopen Hfresh Hprev Htimeout Hrx.
  apply valid_timeout_not_negative in Hprev, Htimeout.
  unfold JsonChannel.recv, JsonChannel.gettimeout, JsonChannel.settimeout,
    JsonChannel.readline, JsonChannel.sock_of, JsonChannel.put_sock,
    try_finally, try_except, mbind, M_bind, mret, M_ret, gets, modify, raise.
  rewrite Htimeout, Hopen. simpl. rewrite !the_sock_put. simpl.
  rewrite Hopen, Hfresh, Hrx. simpl. rewrite !the_sock_put. simpl.
  rewrite Hprev, Hopen. simpl. rewrite !put_sock_twice.
  unfold JsonChannel.with_rx, JsonChannel.with_timeout. simpl. reflexivity.
Qed.

(** [recv] with a timeout when the peer stays silent: the timeout error,
    with the event consumed and the reader marked. *)
Lemma recv_silent (ch : nat) (q : Q) (w : world) (rx : list rx_event) :
  sk_closed (the_sock ch w) = false ->
  sk_timed_out (the_sock ch w) = false ->
  valid_timeout (sk_timeout (the_sock ch w)) ->
  (0 <= q)%Q ->
  sk_rx (the_sock ch w) = RxSilent :: rx ->
  JsonChannel.recv ch (Some q) w
  = (Raise (Exn TimeoutError "socket read timeout"),
     set_socks (insert ch (JsonChannel.with_rx rx true (the_sock ch w))) w).
Proof.
  intros Hopen Hfresh Hprev Htimeout Hrx.
  apply valid_timeout_not_negative in Hprev.
  apply (valid_timeout_not_negative (Some q)) in Htimeout.
  unfold JsonChannel.recv, JsonChannel.gettimeout, JsonChannel.settimeout,
    JsonChannel.readline, JsonChannel.sock_of, JsonChannel.put_sock,
    try_finally, try_except, mbind, M_bind, mret, M_ret, gets, modify, raise.
  rewrite Htimeout, Hopen. simpl. rewrite !the_sock_put. simpl.
  rewrite Hopen, Hfresh, Hrx. simpl. rewrite !the_sock_put. simpl.
  rewrite Hprev, Hopen. simpl. rewrite !put_sock_twice.
  unfold JsonChannel.with_rx, JsonChannel.with_timeout. simpl. reflexivity.
Qed.

(** [recv] when the peer has closed the stream: the peer-closed error. *)
Lemma recv_closed (ch : nat) (timeout : option Q) (w : world) :
  sk_closed (the_sock ch w) = false ->
  sk_timed_out (the_sock ch w) = false ->
  valid_timeout (sk_timeout (the_sock ch w)) ->
  valid_timeout timeout ->
  match sk_rx (the_sock ch w) with [] | RxClosed :: _ => True | _ => False end ->
  exists w', JsonChannel.recv ch timeout w
             = (Raise (Exn EOFError "peer closed connection"), w') /\
             the_sock ch w' = the_sock ch w.
Proof.
  intros Hopen Hfresh Hprev Htimeout Hrx.
  apply valid_timeout_not_negative in Hprev, Htimeout.
  unfold JsonChannel.recv, JsonChannel.gettimeout, JsonChannel.settimeout,
    JsonChannel.readline, JsonChannel.sock_of, JsonChannel.put_sock,
    try_finally, try_except, mbind, M_bind, mret, M_ret, gets, modify, raise.
  rewrite Htimeout, Hopen. simpl. rewrite !the_sock_put. simpl.
  rewrite Hopen, Hfresh.
  destruct (sk_rx (the_sock ch w)) as [|[| | |] rx] eqn:E; try contradiction;
    simpl; rewrite ?the_sock_put; simpl; rewrite Hprev, Hopen; simpl;
    (eexists; split; [reflexivity|]);
    rewrite !put_sock_twice, the_sock_put;
    unfold JsonChannel.with_timeout; simpl;
    destruct (the_sock ch w); reflexivity.
Qed.

(** [send] on an open socket whose next flush succeeds. *)
Lemma send_delivers (ch : nat) (payload : pydict) (w : world) :
  sk_closed (the_sock ch w) = false ->
  flush_succeeds (the_sock ch w) ->
  JsonChannel.send ch payload w
  = (Ret tt,
     set_socks (insert ch (JsonChannel.with_tx (tail (sk_tx (the_sock ch w)))
                             (sk_sent (the_sock ch w) ++ [PDict payload])
                             (the_sock ch w))) w).
Proof.
  intros Hopen Hflush.
  unfold JsonChannel.send, JsonChannel.sock_of, JsonChannel.put_sock,
    mbind, M_bind, gets, modify.
  rewrite Hopen. unfold flush_succeeds in Hflush.
  destruct (sk_tx (the_sock ch w)) as [|[e|] tx]; [reflexivity|contradiction|reflexivity].
Qed.

(** After a [send] that returns, the payload is the last one sent. *)
Lemma wp_send_last (ch : nat) (payload : pydict) (w : world) :
  wp (JsonChannel.send ch payload)
     (fun r w' => r = Ret tt -> last (sk_sent (the_sock ch w')) = Some (PDict payload)) w.
Proof.
  unfold JsonChannel.send, JsonChannel.sock_of, JsonChannel.put_sock.
  wp_steps; try discriminate; intros _; rewrite the_sock_put; simpl; apply last_snoc.
Qed.

(** ** The worker agent *)

Section WorkerFacts.
Context `{PyRuntime}.

Lemma not_known_command (msg_type : string) :
  msg_type ∉ known_commands ->
  String.eqb msg_type "start_nccl" = false /\
  String.eqb msg_type "check_iperf3" = false /\
  String.eqb msg_type "iperf_server_start" = false /\
  String.eqb msg_type "iperf_server_wait" = false /\
  String.eqb msg_type "iperf_client_run" = false /\
  String.eqb msg_type "shutdown" = false.
Proof.
  intros Hnot. repeat split; apply String.eqb_neq; intros ->; apply Hnot;
    unfold known_commands; set_solver.
Qed.

(** A command of unrecognised type gets the error reply, and the turn
    ends by going round again. *)
Lemma worker_step_unknown (ch : nat) (w : world) (d : pydict) (rx : list rx_event) :
  sk_closed (the_sock ch w) = false ->
  sk_timed_out (the_sock ch w) = false ->
  valid_timeout (sk_timeout (the_sock ch w)) ->
  flush_succeeds (the_sock ch w) ->
  sk_rx (the_sock ch w) = RxLine (Some (PDict d)) :: rx ->
  Py.str (Py.get_or "type" (PStr "") d) ∉ known_commands ->
  worker_step ch w
  = (Ret None,
     answered ch rx (unknown_command_reply (Py.str (Py.get_or "type" (PStr "") d))) w).
Proof.
  intros Hopen Hfresh Hvalid Hflush Hrx Hunknown.
  destruct (not_known_command _ Hunknown) as (E1 & E2 & E3 & E4 & E5 & E6).
  unfold worker_step.
  rewrite (bind_run_ret _ _ _ _ _ (recv_line ch None w (PDict d) rx Hopen Hfresh Hvalid I Hrx)).
  simpl Py.getattr_get. unfold lift.
  rewrite (bind_run_ret (mret _) _ _ _ _ eq_refl).
  rewrite E1, E2, E3, E4, E5, E6.
  erewrite bind_run_ret; [reflexivity|].
  rewrite send_delivers; rewrite ?the_sock_put; simpl; auto.
  unfold answered, unknown_command_reply, JsonChannel.with_tx, JsonChannel.with_rx.
  rewrite put_sock_twice. simpl. rewrite Hopen. reflexivity.
Qed.

(** A turn ends the loop with a status only on [shutdown]: the status is
    0 and the acknowledgement is the last payload sent. *)
Lemma worker_step_returns_on_shutdown (ch : nat) (w : world) :
  wp (worker_step ch)
     (fun r w' => forall z, r = Ret (Some z) ->
                   z = 0 /\ last (sk_sent (the_sock ch w')) = Some (PDict shutdown_ack)) w.
Proof.
  assert (Hgo_on : forall (c : M unit) w1,
            wp (c ;; mret (None : option Z))
               (fun r w' => forall z, r = Ret (Some z) ->
                  z = 0 /\ last (sk_sent (the_sock ch w')) = Some (PDict shutdown_ack)) w1).
  { intros c w1. wp_step. apply wp_intro. intros [[]|e|] w2 _; [wp_step| |]; discriminate. }
  unfold worker_step.
  wp_step. apply wp_intro. intros [msg|e|] w1 _; [|discriminate..].
  wp_step. wp_step. destruct (Py.getattr_get msg "type" (PStr "")) as [e|ty];
    [discriminate|]. cbn beta iota.
  repeat match goal with
         | |- wp (if ?b then _ else _) _ _ => destruct b
         end.
  all: try (repeat (wp_step; apply wp_intro; intros [?|?|] ? _; try discriminate);
            apply Hgo_on).
  (* what is left is [shutdown] *)
  - wp_step. apply wp_intro. intros [[]|e|] w2 _; [|discriminate..].
    wp_step. eapply wp_mono; [apply wp_send_last|].
    intros [[]|e|] w3 Hlast; [|discriminate..].
    wp_step. intros z Hz. inversion Hz; subst. split; [reflexivity|]. apply Hlast. reflexivity.
Qed.

Lemma command_loop_returns_on_shutdown (fuel : nat) (ch : nat) (w w' : world) (z : Z) :
  command_loop fuel ch w = Some (Ret z, w') ->
  z = 0 /\ last (sk_sent (the_sock ch w')) = Some (PDict shutdown_ack).
Proof.
  revert w. induction fuel as [|fuel IH]; intros w Hrun; [discriminate|].
  simpl in Hrun.
  pose proof (worker_step_returns_on_shutdown ch w) as Hstep. unfold wp in Hstep.
  destruct (worker_step ch w) as [[[z'|]|e|] w1]; simpl in Hstep.
  - inversion Hrun; subst. apply Hstep. reflexivity.
  - eapply IH, Hrun.
  - discriminate.
  - discriminate.
Qed.

End WorkerFacts.

(** ** The worker's loop has the fuel it needs *)

Section KeepsRx.
Context (ch : nat).

Lemma keeps_rx_ret {A} (a : A) : keeps_rx ch (mret a).
Proof. intros w. apply wp_ret. reflexivity. Qed.

Lemma keeps_rx_raise {A} (e : exn) : keeps_rx ch (raise e : M A).
Proof. intros w. apply wp_raise. reflexivity. Qed.

Lemma keeps_rx_hang {A} : keeps_rx ch (hang : M A).
Proof. intros w. apply wp_hang. reflexivity. Qed.

Lemma keeps_rx_gets {A} (f : world -> A) : keeps_rx ch (gets f).
Proof. intros w. apply wp_gets. reflexivity. Qed.

Lemma keeps_rx_lift {A} (r : exn + A) : keeps_rx ch (lift r).
Proof. intros w. apply wp_lift. destruct r; reflexivity. Qed.

Lemma keeps_rx_modify (f : world -> world) :
  (forall w, w_socks (f w) = w_socks w) -> keeps_rx ch (modify f).
Proof.
  intros Hf w. apply wp_modify. unfold rx_pending, the_sock. rewrite Hf. reflexivity.
Qed.

Lemma keeps_rx_bind {A B} (c : M A) (k : A -> M B) :
  keeps_rx ch c -> (forall a, keeps_rx ch (k a)) -> keeps_rx ch (c ≫= k).
Proof.
  intros Hc Hk w. apply wp_bind. eapply wp_mono; [apply Hc|].
  intros [a|e|] w1 Hw1; cbn beta iota; try exact Hw1.
  eapply wp_mono; [apply Hk|]. intros r w2 Hw2. cbn beta in *. lia.
Qed.

Lemma keeps_rx_try_except {A} (c : M A) (h : exn -> M A) :
  keeps_rx ch c -> (forall e, keeps_rx ch (h e)) -> keeps_rx ch (try_except c h).
Proof.
  intros Hc Hh w. apply wp_try_except. eapply wp_mono; [apply Hc|].
  intros [a|e|] w1 Hw1; cbn beta iota; try exact Hw1.
  eapply wp_mono; [apply Hh|]. intros r w2 Hw2. cbn beta in *. lia.
Qed.

Lemma keeps_rx_try_finally {A} (c : M A) (f : M unit) :
  keeps_rx ch c -> keeps_rx ch f -> keeps_rx ch (try_finally c f).
Proof.
  intros Hc Hf w. apply wp_try_finally. eapply wp_mono; [apply Hc|].
  intros [a|e|] w1 Hw1; cbn beta iota; try exact Hw1;
    (eapply wp_mono; [apply Hf|]; intros [[]|e'|] w2 Hw2; cbn beta in *; lia).
Qed.

Lemma keeps_rx_for_each {A} (l : list A) (body : A -> M unit) :
  (forall x, keeps_rx ch (body x)) -> keeps_rx ch (for_each l body).
Proof.
  intros Hbody. induction l as [|x l IH]; simpl.
  - apply keeps_rx_ret.
  - apply keeps_rx_bind; auto.
Qed.

End KeepsRx.

(** Proves [keeps_rx ch c] for a computation built from the combinators
    of [M], from steps that leave the sockets alone, and from
    computations for which the fact is among the hypotheses or in the
    hint database [keeps_rx]. *)
Create HintDb keeps_rx.

Ltac keeps_rx_step :=
  first
    [ assumption
    | solve [auto 1 with keeps_rx]
    | apply keeps_rx_ret
    | apply keeps_rx_raise
    | apply keeps_rx_hang
    | apply keeps_rx_gets
    | apply keeps_rx_lift
    | apply keeps_rx_modify; intros ?; reflexivity
    | apply keeps_rx_bind; [|intros ?]
    | apply keeps_rx_try_except; [|intros ?]
    | apply keeps_rx_try_finally
    | apply keeps_rx_for_each; intros ?
    | progress cbv zeta
    | match goal with
      | |- keeps_rx _ (if ?b then _ else _) => destruct b
      | |- keeps_rx _ (match ?x with _ => _ end) => destruct x
      end ].

Ltac keeps_rx := repeat keeps_rx_step.

Lemma keeps_rx_send (ch ch' : nat) (payload : pydict) :
  keeps_rx ch (JsonChannel.send ch' payload).
Proof.
  intros w. unfold JsonChannel.send, JsonChannel.sock_of, JsonChannel.put_sock.
  wp_steps; try reflexivity; unfold rx_pending;
    (destruct (decide (ch' = ch)) as [->|Hne];
     [rewrite the_sock_put|rewrite the_sock_put_ne by done]; reflexivity).
Qed.
#[export] Hint Resolve keeps_rx_send : keeps_rx.

Section KeepsRxPrograms.
Context `{PyRuntime} (ch : nat).

Lemma keeps_rx_run_command cmd timeout : keeps_rx ch (_run_command cmd timeout).
Proof. unfold _run_command. keeps_rx. Qed.
Hint Resolve keeps_rx_run_command : keeps_rx.

Lemma keeps_rx_popen port : keeps_rx ch (popen_listener port).
Proof. unfold popen_listener. keeps_rx. Qed.
Hint Resolve keeps_rx_popen : keeps_rx.

Lemma keeps_rx_kill p : keeps_rx ch (kill p).
Proof. unfold kill. keeps_rx. Qed.
Hint Resolve keeps_rx_kill : keeps_rx.

Lemma keeps_rx_start port : keeps_rx ch (IperfServerManager.start port).
Proof. unfold IperfServerManager.start. keeps_rx. Qed.
Hint Resolve keeps_rx_start : keeps_rx.

Lemma keeps_rx_wait port timeout : keeps_rx ch (IperfServerManager.wait port timeout).
Proof. unfold IperfServerManager.wait. keeps_rx. Qed.
Hint Resolve keeps_rx_wait : keeps_rx.

Lemma keeps_rx_shutdown_all : keeps_rx ch IperfServerManager.shutdown_all.
Proof. unfold IperfServerManager.shutdown_all. keeps_rx. Qed.
Hint Resolve keeps_rx_shutdown_all : keeps_rx.

Lemma keeps_rx_check_iperf3 : keeps_rx ch _check_iperf3_available.
Proof. unfold _check_iperf3_available. keeps_rx. Qed.
Hint Resolve keeps_rx_check_iperf3 : keeps_rx.

Lemma keeps_rx_iperf_client host port duration :
  keeps_rx ch (_run_iperf_client host port duration).
Proof. unfold _run_iperf_client. keeps_rx. Qed.
Hint Resolve keeps_rx_iperf_client : keeps_rx.

Lemma keeps_rx_run_nccl rank world_size addr port timeout :
  keeps_rx ch (run_nccl rank world_size addr port timeout).
Proof. unfold run_nccl. keeps_rx. Qed.
Hint Resolve keeps_rx_run_nccl : keeps_rx.

Lemma keeps_rx_reply ch' type fields : keeps_rx ch (reply ch' type fields).
Proof. unfold reply. keeps_rx. Qed.
Hint Resolve keeps_rx_reply : keeps_rx.

Lemma keeps_rx_msg_int msg k : keeps_rx ch (msg_int msg k).
Proof. unfold msg_int. keeps_rx. Qed.
Lemma keeps_rx_msg_int_or msg k dflt : keeps_rx ch (msg_int_or msg k dflt).
Proof. unfold msg_int_or. keeps_rx. Qed.
Lemma keeps_rx_msg_str msg k : keeps_rx ch (msg_str msg k).
Proof. unfold msg_str. keeps_rx. Qed.
Hint Resolve keeps_rx_msg_int keeps_rx_msg_int_or keeps_rx_msg_str : keeps_rx.

(** A [recv] that returns has consumed an event of the peer; one that
    raises has consumed at most one. *)
Lemma recv_consumes (timeout : option Q) (w : world) :
  wp (JsonChannel.recv ch timeout)
     (fun r w' =>
        match r with
        | Ret _ => (rx_pending ch w' < rx_pending ch w)%nat
        | _ => (rx_pending ch w' <= rx_pending ch w)%nat
        end) w.
Proof.
  unfold JsonChannel.recv, JsonChannel.gettimeout, JsonChannel.settimeout,
    JsonChannel.readline, JsonChannel.sock_of, JsonChannel.put_sock.
  unfold rx_pending.
  wp_steps; rewrite ?the_sock_put in *; simpl in *;
    repeat match goal with
           | E : the_sock _ _ = _ |- _ => rewrite ?E in *; clear E
           | E : sk_rx _ = _ |- _ => rewrite ?E in *
           end; simpl in *; try lia; try discriminate.
Qed.

End KeepsRxPrograms.

Section WorkerLoopFacts.
Context `{PyRuntime}.

Lemma worker_step_consumes (ch : nat) (w : world) :
  wp (worker_step ch)
     (fun r w' =>
        match r with
        | Ret _ => (rx_pending ch w' < rx_pending ch w)%nat
        | _ => (rx_pending ch w' <= rx_pending ch w)%nat
        end) w.
Proof.
  unfold worker_step. apply wp_bind.
  eapply wp_mono; [apply recv_consumes|].
  intros [msg|e|] w1 Hw1; cbn beta iota; try exact Hw1.
  match goal with |- wp ?c _ _ => assert (Hrest : keeps_rx ch c) end.
  { pose proof (keeps_rx_run_command ch). pose proof (keeps_rx_start ch).
    pose proof (keeps_rx_wait ch). pose proof (keeps_rx_shutdown_all ch).
    pose proof (keeps_rx_check_iperf3 ch). pose proof (keeps_rx_iperf_client ch).
    pose proof (keeps_rx_run_nccl ch). pose proof (keeps_rx_reply ch).
    pose proof (keeps_rx_msg_int ch). pose proof (keeps_rx_msg_int_or ch).
    pose proof (keeps_rx_msg_str ch).
    repeat first [ keeps_rx_step | solve [auto] ]. }
  eapply wp_mono; [apply Hrest|].
  intros r w2 Hw2. cbn beta in Hw2. destruct r; lia.
Qed.

(** With more fuel than the peer has events pending, the loop never runs
    out of fuel. *)
Lemma command_loop_enough_fuel (fuel : nat) (ch : nat) (w : world) :
  (rx_pending ch w < fuel)%nat -> is_Some (command_loop fuel ch w).
Proof.
  revert w. induction fuel as [|fuel IH]; intros w Hfuel; [lia|].
  simpl. pose proof (worker_step_consumes ch w) as Hstep. unfold wp in Hstep.
  destruct (worker_step ch w) as [[[z|]|e|] w1]; simpl in Hstep; eauto.
  apply IH. lia.
Qed.

Lemma command_loop_more_fuel (fuel fuel' : nat) (ch : nat) (w : world) r :
  command_loop fuel ch w = Some r -> (fuel <= fuel')%nat ->
  command_loop fuel' ch w = Some r.
Proof.
  revert fuel' w. induction fuel as [|fuel IH]; intros fuel' w Hrun Hle; [discriminate|].
  destruct fuel' as [|fuel']; [lia|]. simpl in *.
  destruct (worker_step ch w) as [[[z|]|e|] w1]; auto. apply IH; [exact Hrun|lia].
Qed.

(** The loop is one turn, followed by the loop again when the turn goes
    round. *)
Lemma command_loop_from_unfold (ch : nat) (w : world) :
  command_loop_from ch w =
  match worker_step ch w with
  | (Ret None, w') => command_loop_from ch w'
  | (Ret (Some z), w') => (Ret z, w')
  | (Raise e, w') => (Raise e, w')
  | (Hang, w') => (Hang, w')
  end.
Proof.
  unfold command_loop_from.
  change (command_loop (S (rx_pending ch w)) ch w)
    with (match worker_step ch w with
          | (Ret None, w') => command_loop (rx_pending ch w) ch w'
          | (Ret (Some z), w') => Some (Ret z, w')
          | (Raise e, w') => Some (Raise e, w')
          | (Hang, w') => Some (Hang, w')
          end).
  pose proof (worker_step_consumes ch w) as Hstep. unfold wp in Hstep.
  destruct (worker_step ch w) as [[[z|]|e|] w1]; simpl in Hstep; try reflexivity.
  destruct (command_loop_enough_fuel (S (rx_pending ch w1)) ch w1) as [r Hr]; [lia|].
  rewrite Hr. erewrite command_loop_more_fuel; [reflexivity|exact Hr|lia].
Qed.

(** C5 (as amended). In the worker's command loop: a command whose type
    is not recognised is answered with the explicit error reply and the
    loop goes on with the next command; the loop returns only on
    [shutdown], with status 0 and after the acknowledgement; and an
    exception raised in a turn, while receiving or while handling the
    command, ends the loop at that turn and is propagated by
    [_worker_command_loop] after the tracked listeners have been
    stopped. *)
Theorem worker_loop_contract (ch : nat) (w : world) :
  (forall d rx,
     sk_closed (the_sock ch w) = false ->
     sk_timed_out (the_sock ch w) = false ->
     valid_timeout (sk_timeout (the_sock ch w)) ->
     flush_succeeds (the_sock ch w) ->
     sk_rx (the_sock ch w) = RxLine (Some (PDict d)) :: rx ->
     Py.str (Py.get_or "type" (PStr "") d) ∉ known_commands ->
     let w' := answered ch rx
                 (unknown_command_reply (Py.str (Py.get_or "type" (PStr "") d))) w in
     worker_step ch w = (Ret None, w') /\
     command_loop_from ch w = command_loop_from ch w') /\
  (forall z w',
     command_loop_from ch w = (Ret z, w') ->
     z = 0 /\ last (sk_sent (the_sock ch w')) = Some (PDict shutdown_ack)) /\
  (forall e w1,
     worker_step ch w = (Raise e, w1) -> command_loop_from ch w = (Raise e, w1)) /\
  (forall e w1,
     worker_step ch (set_servers ∅ w) = (Raise e, w1) ->
     exists w', _worker_command_loop ch w = (Raise e, w') /\
                w_socks w' = w_socks w1 /\ w_servers w' = ∅).
Proof.
  split; [|split; [|split]].
  - intros d rx Hopen Hfresh Hvalid Hflush Hrx Hunknown w'.
    pose proof (worker_step_unknown ch w d rx Hopen Hfresh Hvalid Hflush Hrx Hunknown)
      as Hstep.
    split; [exact Hstep|]. rewrite command_loop_from_unfold, Hstep. reflexivity.
  - intros z w' Hrun. unfold command_loop_from in Hrun.
    destruct (command_loop (S (rx_pending ch w)) ch w) as [[r w1]|] eqn:E;
      simpl in Hrun; [|discriminate].
    inversion Hrun; subst. eapply command_loop_returns_on_shutdown, E.
  - intros e w1 Hstep. rewrite command_loop_from_unfold, Hstep. reflexivity.
  - intros e w1 Hstep. unfold _worker_command_loop, IperfServerManager.init.
    rewrite (bind_run_ret (modify (set_servers ∅)) _ w tt (set_servers ∅ w) eq_refl).
    unfold try_finally. rewrite command_loop_from_unfold, Hstep.
    pose proof (shutdown_all_empties w1) as Hdown. unfold wp in Hdown.
    destruct (IperfServerManager.shutdown_all w1) as [r w2] eqn:E. simpl in Hdown.
    destruct Hdown as (-> & Hempty & Hsocks). exists w2. auto.
Qed.

End WorkerLoopFacts.

Lemma worker_loop_contract_witness :
  let w' := answered 0 [RxLine (Some (PDict [("type", PStr "shutdown")]))]
              (unknown_command_reply "ping") unknown_command_world in
  @worker_step plain_runtime 0 unknown_command_world = (Ret None, w') /\
  @command_loop_from plain_runtime 0 unknown_command_world
  = @command_loop_from plain_runtime 0 w'.
Proof.
  destruct (@worker_loop_contract plain_runtime 0 unknown_command_world) as [Hunknown _].
  apply (Hunknown [("type", PStr "ping")]
                  [RxLine (Some (PDict [("type", PStr "shutdown")]))]).
  - reflexivity.
  - reflexivity.
  - vm_compute. discriminate.
  - vm_compute. exact I.
  - reflexivity.
  - simpl. unfold known_commands. intros Hin.
    repeat (apply elem_of_cons in Hin as [Hin|Hin]; [discriminate|]).
    by apply elem_of_nil in Hin.
Defined.

(** C5, the claim as stated fails: the host sends [iperf_server_start]
    without a port and then [check_iperf3]; handling the first command
    raises [KeyError], the loop ends with that exception, no reply is
    sent, and the second command is never read. *)
Lemma malformed_command_ends_loop :
  let run := @_worker_command_loop plain_runtime 0 malformed_command_world in
  run.1 = Raise (Exn KeyError "port") /\
  sk_sent (the_sock 0 run.2) = [] /\
  sk_rx (the_sock 0 run.2) = [RxLine (Some (PDict [("type", PStr "check_iperf3")]))].
Proof. vm_compute. auto. Qed.

(** ** The host: registration *)

Lemma recv_same_workers ch timeout w :
  wp (JsonChannel.recv ch timeout) (fun _ w' => w_workers w' = w_workers w) w.
Proof.
  unfold JsonChannel.recv, JsonChannel.gettimeout, JsonChannel.settimeout,
    JsonChannel.readline, JsonChannel.sock_of, JsonChannel.put_sock.
  wp_steps; reflexivity.
Qed.

Lemma send_same_workers ch payload w :
  wp (JsonChannel.send ch payload) (fun _ w' => w_workers w' = w_workers w) w.
Proof.
  unfold JsonChannel.send, JsonChannel.sock_of, JsonChannel.put_sock.
  wp_steps; reflexivity.
Qed.

Lemma close_returns ch w :
  wp (JsonChannel.close ch)
     (fun r w' => r = Ret tt /\ w_workers w' = w_workers w) w.
Proof.
  unfold JsonChannel.close, JsonChannel.sock_of, JsonChannel.put_sock.
  wp_steps; auto.
Qed.

Section RegistrationFacts.
Context `{PyRuntime}.

Lemma register_one_registers cluster_size ch addr w :
  wp (register_one cluster_size ch addr) (fun _ w' => registers ch w w') w.
Proof.
  unfold register_one, reply_get. wp_step.
  eapply wp_mono; [apply recv_same_workers|].
  intros [register|e|] w1 Hw1; cbn beta iota; try (left; exact Hw1).
  wp_step. wp_step. destruct (Py.getattr_get register "type" (PStr "")) as [e|ty];
    cbn beta iota; [left; exact Hw1|].
  wp_step.
  - (* not a registration *)
    wp_step. eapply wp_mono; [apply send_same_workers|].
    intros [[]|e|] w2 Hw2; cbn beta iota; try (left; congruence).
    eapply wp_mono; [apply close_returns|]. intros r w3 [_ Hw3]. left. congruence.
  - wp_step. wp_step. rewrite Hw1.
    repeat (wp_step; wp_step;
            match goal with
            | |- match ?r with inl _ => _ | inr _ => _ end =>
                destruct r; cbn beta iota; [left; exact Hw1|]
            end).
    wp_step. wp_step. simpl.
    eapply wp_mono; [apply send_same_workers|].
    intros r w2 Hw2. right. eexists. split; [rewrite Hw2; reflexivity|]. auto.
Qed.

Lemma ranks_in_order_snoc (workers : list WorkerConnection) (worker : WorkerConnection) :
  ranks_in_order workers ->
  wc_rank worker = Z.of_nat (length workers) + 1 ->
  ranks_in_order (workers ++ [worker]).
Proof.
  unfold ranks_in_order. intros Hin Hrank.
  rewrite map_app, length_app, Hin. simpl length.
  rewrite seq_app, map_app. simpl. rewrite Hrank. do 3 f_equal. lia.
Qed.

Lemma registers_keeps_order ch w w' :
  ranks_in_order (w_workers w) -> registers ch w w' ->
  ranks_in_order (w_workers w') /\
  (length (w_workers w) <= length (w_workers w') <= S (length (w_workers w)))%nat.
Proof.
  intros Hin [Hsame|(worker & Happ & Hrank & _)].
  - rewrite Hsame. auto.
  - rewrite Happ, length_app. simpl. split; [by apply ranks_in_order_snoc|lia].
Qed.

(** The registration loop keeps the ranks in order, never registers more
    than [cluster_size - 1] workers, and returns only when that many are
    registered. *)
Lemma registration_loop_spec (cluster_size : Z) (pending : list accept_event) (w : world) :
  ranks_in_order (w_workers w) ->
  wp (registration_loop cluster_size pending)
     (fun r w' =>
        ranks_in_order (w_workers w') /\
        Z.of_nat (length (w_workers w'))
          <= Z.max (Z.of_nat (length (w_workers w))) (cluster_size - 1) /\
        (r = Ret tt -> cluster_size - 1 <= Z.of_nat (length (w_workers w')))) w.
Proof.
  revert w. induction pending as [|ev pending IH]; intros w Hin; simpl.
  - wp_step. wp_step.
    destruct (Z.of_nat (length (w_workers w)) <? cluster_size - 1) eqn:E; simpl.
    + wp_step. split; [exact Hin|]. split; [lia|discriminate].
    + wp_step. apply Z.ltb_ge in E. split; [exact Hin|]. split; [lia|auto].
  - wp_step. wp_step.
    destruct (Z.of_nat (length (w_workers w)) <? cluster_size - 1) eqn:E; simpl.
    + apply Z.ltb_lt in E. wp_step. wp_step.
      destruct ev as [peer addr|e].
      * unfold open_channel. do 6 wp_step.
        match goal with |- wp _ _ ?wa =>
          remember wa as w0 eqn:Hw;
          assert (Hw0 : w_workers w0 = w_workers w) by (subst w0; reflexivity);
          clear Hw
        end.
        wp_step. wp_step. eapply wp_mono; [apply register_one_registers|].
        intros r w1 Hreg.
        assert (Hafter : forall w2, w_workers w2 = w_workers w1 ->
                  wp (registration_loop cluster_size pending)
                    (fun r w' =>
                       ranks_in_order (w_workers w') /\
                       Z.of_nat (length (w_workers w'))
                         <= Z.max (Z.of_nat (length (w_workers w))) (cluster_size - 1) /\
                       (r = Ret tt -> cluster_size - 1 <= Z.of_nat (length (w_workers w')))) w2).
        { intros w2 Hw2. rewrite <- Hw0 in Hin.
          destruct (registers_keeps_order _ _ _ Hin Hreg) as [Hin1 Hlen].
          rewrite <- Hw2 in Hin1. eapply wp_mono; [apply IH, Hin1|].
          intros r' w' (Hin' & Hmax & Hret). rewrite Hw2 in Hmax. rewrite Hw0 in Hlen.
          split; [exact Hin'|]. split; [lia|exact Hret]. }
        destruct r as [[]|e|]; cbn beta iota.
        -- apply Hafter. reflexivity.
        -- eapply wp_mono; [apply close_returns|]. intros r' w2 [-> Hw2].
           apply Hafter. exact Hw2.
        -- rewrite <- Hw0 in Hin.
           destruct (registers_keeps_order _ _ _ Hin Hreg) as [Hin1 Hlen].
           rewrite Hw0 in Hlen. split; [exact Hin1|]. split; [lia|discriminate].
      * wp_step. split; [exact Hin|]. split; [simpl; lia|discriminate].
    + wp_step. apply Z.ltb_ge in E. split; [exact Hin|]. split; [lia|auto].
Qed.

(** A session of at least two nodes that gets past registration has
    exactly [cluster_size - 1] workers, with the ranks 1 to
    [cluster_size - 1] in the order of registration. *)
Lemma register_workers_spec (cluster_size : Z) (w : world) :
  2 <= cluster_size ->
  w_workers w = [] ->
  wp (register_workers cluster_size)
     (fun r w' =>
        ranks_in_order (w_workers w') /\
        (r = Ret tt -> Z.of_nat (length (w_workers w')) = cluster_size - 1)) w.
Proof.
  intros Hsize Hnone. unfold register_workers. wp_step. wp_step.
  eapply wp_mono; [apply registration_loop_spec; rewrite Hnone; reflexivity|].
  intros r w' (Hin & Hmax & Hret). rewrite Hnone in Hmax. simpl in Hmax.
  split; [exact Hin|]. intros Hr. specialize (Hret Hr). lia.
Qed.

End RegistrationFacts.

Section RejectionFacts.
Context `{PyRuntime}.

(** A connection whose first message is not [register] is answered with
    the error, closed, and takes no rank. *)
Lemma register_one_rejects (cluster_size : Z) (ch : nat) (addr : string) (w : world)
    (d : pydict) (rx : list rx_event) :
  sk_closed (the_sock ch w) = false ->
  sk_timed_out (the_sock ch w) = false ->
  valid_timeout (sk_timeout (the_sock ch w)) ->
  flush_succeeds (the_sock ch w) ->
  sk_rx (the_sock ch w) = RxLine (Some (PDict d)) :: rx ->
  Py.str (Py.get_or "type" (PStr "") d) <> "register" ->
  exists w',
    register_one cluster_size ch addr w = (Ret tt, w') /\
    w_workers w' = w_workers w /\
    sk_closed (the_sock ch w') = true /\
    sk_sent (the_sock ch w')
    = sk_sent (the_sock ch w)
      ++ [PDict [("type", PStr "error"); ("error", PStr "first message must be register")]].
Proof.
  intros Hopen Hfresh Hvalid Hflush Hrx Hother. apply String.eqb_neq in Hother.
  assert (Hthirty : valid_timeout (seconds 30)) by (vm_compute; discriminate).
  unfold register_one, reply_get.
  rewrite (bind_run_ret _ _ _ _ _
             (recv_line ch (seconds 30) w (PDict d) rx Hopen Hfresh Hvalid Hthirty Hrx)).
  simpl Py.getattr_get. unfold lift.
  rewrite (bind_run_ret (mret _) _ _ _ _ eq_refl). rewrite Hother.
  change (negb false) with true. cbn iota.
  erewrite bind_run_ret by (apply send_delivers; rewrite the_sock_put; simpl; auto).
  eexists. split; [reflexivity|].
  unfold JsonChannel.put_sock, modify. rewrite !the_sock_put. simpl. auto.
Qed.

End RejectionFacts.

(** C3, the code at the failing input: in a session of two nodes, the
    first connection sends a valid [register] and the flush of the
    [registered] reply fails. The connection is closed without a reply,
    and yet it holds rank 1 in the list of workers: registration ends with
    it, the second worker is never accepted, and the session then fails
    when it sends [start_nccl] on the closed channel. *)
Theorem failed_reply_consumes_rank :
  let registration := @register_workers plain_runtime 2 broken_reply_world in
  let session := @run_host_mode plain_runtime 2 "10.0.0.1" 29500 29610 180 5
                   broken_reply_world in
  registration.1 = Ret tt /\
  map wc_rank (w_workers registration.2) = [1] /\
  map wc_channel (w_workers registration.2) = [0%nat] /\
  sk_closed (the_sock 0 registration.2) = true /\
  sk_sent (the_sock 0 registration.2) = [] /\
  length (w_accept registration.2) = 1%nat /\
  session.1 = Raise (Exn ValueError "I/O operation on closed file.").
Proof. vm_compute. repeat split. Qed.

(** ** The host: the collective phase *)

(** A [recv] with a timeout never blocks for ever. *)
Lemma recv_with_timeout_ends (ch : nat) (q : Q) (w : world) :
  (JsonChannel.recv ch (Some q) w).1 <> Hang.
Proof.
  change (wp (JsonChannel.recv ch (Some q)) (fun r _ => r <> Hang) w).
  unfold JsonChannel.recv, JsonChannel.gettimeout, JsonChannel.settimeout,
    JsonChannel.readline, JsonChannel.sock_of, JsonChannel.put_sock.
  wp_steps; try discriminate;
    rewrite ?the_sock_put in *; simpl in *; congruence.
Qed.




Lemma insert_by_perm {A} (key : A -> Z) (x : A) (l : list A) :
  insert_by key x l ≡ₚ x :: l.
Proof.
  induction l as [|y l IH]; simpl; [reflexivity|].
  destruct (key x <=? key y); [reflexivity|].
  rewrite IH. apply Permutation_swap.
Qed.

Lemma sort_by_perm {A} (key : A -> Z) (l : list A) : sort_by key l ≡ₚ l.
Proof.
  induction l as [|x l IH]; simpl; [reflexivity|].
  rewrite insert_by_perm. f_equiv. exact IH.
Qed.

Lemma map_partial_inr {A B} (f : A -> exn + B) (l : list A) (ys : list B) :
  map_partial f l = inr ys ->
  Forall (fun p => f p.2 = inr p.1) (combine ys l) /\ map snd (combine ys l) = l.
Proof.
  revert ys. induction l as [|x l IH]; intros ys; simpl.
  - intros [= <-]. split; [constructor|reflexivity].
  - destruct (f x) as [e|y] eqn:Hfx; [discriminate|].
    destruct (map_partial f l) as [e|ys'] eqn:Hmp; [discriminate|].
    intros [= <-]. destruct (IH ys' eq_refl) as [Hall Hsnd]. simpl. split.
    + constructor; [exact Hfx|exact Hall].
    + f_equal. exact Hsnd.
Qed.

Section CollectFacts.
Context `{PyRuntime}.

(** Sorting lists the same results. *)
Lemma sort_results_perm (all_results sorted : list pydict) :
  sort_results all_results = inr sorted -> sorted ≡ₚ all_results.
Proof.
  unfold sort_results.
  destruct (map_partial rank_key all_results) as [e|keys] eqn:Hkeys; [discriminate|].
  intros [= <-]. apply map_partial_inr in Hkeys as [_ Hsnd].
  rewrite <- Hsnd at 2. apply Permutation_map, sort_by_perm.
Qed.

Lemma all_ok_iff (all_results : list pydict) :
  all_ok all_results = true <->
  Forall (fun item => Py.truthy (Py.get "ok" item) = true) all_results.
Proof. unfold all_ok. rewrite forallb_forall. symmetry. apply List.Forall_forall. Qed.


Lemma collect_one_spec (cluster_size nccl_timeout_seconds : Z)
    (worker : WorkerConnection) (w : world) :
  let received :=
    JsonChannel.recv (wc_channel worker) (seconds (nccl_timeout_seconds + 90)) w in
  exists entry,
    collect_one cluster_size nccl_timeout_seconds worker w = (Ret entry, received.2) /\
    entry_for cluster_size worker received.1 entry.
Proof.
  intros received. unfold collect_one, try_except, mbind, M_bind.
  pose proof (recv_with_timeout_ends (wc_channel worker)
                (inject_Z (nccl_timeout_seconds + 90)) w) as Hends.
  fold received. fold (seconds (nccl_timeout_seconds + 90)) in Hends. fold received in Hends.
  destruct received as [[v|e|] w1]; simpl in *; [| |congruence].
  - destruct v; simpl; eauto.
    destruct (String.eqb _ "nccl_result"); simpl; eauto.
  - eauto.
Qed.

Lemma entry_for_of_worker cluster_size worker received entry :
  entry_for cluster_size worker received entry ->
  entry_of_worker cluster_size worker entry.
Proof.
  unfold entry_for, entry_of_worker. destruct received as [v|e|]; [| |contradiction].
  - destruct v; try (intros ->; eauto).
    destruct (String.eqb _ "nccl_result") eqn:E; intros ->; [|eauto].
    right. by apply String.eqb_eq.
  - intros ->. eauto.
Qed.

Lemma collect_results_spec (cluster_size nccl_timeout_seconds : Z)
    (workers : list WorkerConnection) (w : world) :
  exists worker_results w',
    collect_results cluster_size nccl_timeout_seconds workers w = (Ret worker_results, w') /\
    Forall2 (entry_of_worker cluster_size) workers worker_results.
Proof.
  revert w. induction workers as [|worker workers IH]; intros w; simpl.
  - eexists _, _. split; [reflexivity|constructor].
  - destruct (collect_one_spec cluster_size nccl_timeout_seconds worker w)
      as (entry & Hone & Hentry).
    rewrite (bind_run_ret _ _ _ _ _ Hone).
    destruct (IH (JsonChannel.recv (wc_channel worker)
                    (seconds (nccl_timeout_seconds + 90)) w).2)
      as (rest & w' & Hrest & Hall).
    rewrite (bind_run_ret _ _ _ _ _ Hrest).
    eexists _, _. split; [reflexivity|].
    constructor; [eapply entry_for_of_worker, Hentry|exact Hall].
Qed.

End CollectFacts.

Section AggregationFacts.
Context `{PyRuntime}.



End AggregationFacts.



(** ** The host: exit status *)

Lemma try_finally_ret_inv {A} (c : M A) (f : M unit) w a w' :
  try_finally c f w = (Ret a, w') ->
  exists w1, c w = (Ret a, w1) /\ f w1 = (Ret tt, w').
Proof.
  unfold try_finally. destruct (c w) as [[a0|e|] w1]; [| |discriminate];
    destruct (f w1) as [[[]|e'|] w2] eqn:Hf; intros E; inversion E; subst; eauto.
Qed.

Section ExitStatusFacts.
Context `{PyRuntime}.

Lemma prompt_loop_same_workers (lines : list string) (w : world) :
  wp (prompt_loop lines) (fun _ w' => w_workers w' = w_workers w) w.
Proof.
  induction lines as [|line lines IH]; simpl.
  - wp_steps. reflexivity.
  - destruct (is_start line); [wp_step; reflexivity|exact IH].
Qed.

Lemma run_nccl_ret_inv rank world_size master_addr master_port timeout_seconds
    (w w' : world) (result : pydict) :
  run_nccl rank world_size master_addr master_port timeout_seconds w = (Ret result, w') ->
  _run_nccl_distributed (w_torch w) rank world_size master_addr master_port timeout_seconds
  = inr result /\ w' = w.
Proof.
  unfold run_nccl. intros Hrun.
  apply bind_ret_inv in Hrun as (env & w1 & Henv & Hrun). inversion Henv; subst.
  apply lift_ret_inv in Hrun. exact Hrun.
Qed.

(** A session that returns went through every phase: it registered
    [cluster_size - 1] workers, got the go-ahead, sent each worker its
    command, ran its own test, collected one result from each worker,
    sorted them with its own, printed them, ran the mesh, and returned 0
    or 2 by the ok fields of these results. *)
Lemma host_session_trace (cluster_size : Z) (master_addr : string)
    (master_port nccl_timeout_seconds iperf_duration_seconds : Z) (w w' : world) (z : Z) :
  2 <= cluster_size ->
  w_workers w = [] ->
  host_session cluster_size master_addr master_port nccl_timeout_seconds
               iperf_duration_seconds w = (Ret z, w') ->
  exists w1 w2 w3 local_result worker_results w4 all_results,
    let workers := w_workers w2 in
    register_workers cluster_size w = (Ret tt, w1) /\
    wait_for_start w1 = (Ret tt, w2) /\
    Z.of_nat (length workers) = cluster_size - 1 /\
    ranks_in_order workers /\
    for_each workers (fun worker =>
      JsonChannel.send (wc_channel worker)
        (start_nccl_command worker cluster_size master_addr master_port
                            nccl_timeout_seconds)) w2 = (Ret tt, w3) /\
    _run_nccl_distributed (w_torch w3) 0 cluster_size master_addr master_port
                          nccl_timeout_seconds = inr local_result /\
    collect_results cluster_size nccl_timeout_seconds workers w3
    = (Ret worker_results, w4) /\
    Forall2 (entry_of_worker cluster_size) workers worker_results /\
    sort_results (local_result :: worker_results) = inr all_results /\
    _run_mesh_iperf_tests
      (sort_by ni_rank
         ({| ni_rank := 0; ni_name := te_hostname (w_torch w4); ni_ip := master_addr;
             ni_is_host := true; ni_worker := None |}
          :: map node_of_worker workers))
      iperf_duration_seconds
      (set_out (w_out w4
                ++ [OutTable ["Rank"; "Node"; "Status"; "Sum"; "Expected"; "Elapsed(s)";
                              "Detail"]
                             (map result_row all_results)]) w4)
    = (Ret tt, w') /\
    z = (if all_ok all_results then 0 else 2).
Proof.
  intros Hsize Hnone Hrun. unfold host_session in Hrun.
  apply bind_ret_inv in Hrun as ([] & w1 & Hreg & Hrun).
  pose proof (wp_run _ _ _ _ _ Hreg (register_workers_spec cluster_size w Hsize Hnone))
    as [Horder Hcount]. specialize (Hcount eq_refl).
  apply bind_ret_inv in Hrun as ([] & w2 & Hprompt & Hrun).
  assert (Hsame : w_workers w2 = w_workers w1).
  { unfold wait_for_start in Hprompt.
    apply bind_ret_inv in Hprompt as (lines & w1' & Hlines & Hprompt).
    inversion Hlines; subst w1' lines.
    exact (wp_run _ _ _ _ _ Hprompt (prompt_loop_same_workers _ w1)). }
  apply bind_ret_inv in Hrun as (workers & w2' & Hworkers & Hrun).
  inversion Hworkers; subst w2' workers.
  apply bind_ret_inv in Hrun as ([] & w3 & Hsend & Hrun).
  apply bind_ret_inv in Hrun as (local_result & w4 & Hlocal & Hrun).
  apply run_nccl_ret_inv in Hlocal as [Hlocal ->].
  apply bind_ret_inv in Hrun as (worker_results & w5 & Hcollect & Hrun).
  apply bind_ret_inv in Hrun as (all_results & w6 & Hsort & Hrun).
  apply lift_ret_inv in Hsort as [Hsort ->].
  apply bind_ret_inv in Hrun as ([] & w7 & Hprint & Hrun).
  inversion Hprint; subst w7.
  apply bind_ret_inv in Hrun as (hostname & w8 & Hname & Hrun).
  inversion Hname; subst w8 hostname.
  apply bind_ret_inv in Hrun as ([] & w9 & Hmesh & Hrun).
  inversion Hrun; subst.
  destruct (collect_results_spec cluster_size nccl_timeout_seconds (w_workers w2) w3)
    as (results' & w5' & Hcollect' & Hall).
  rewrite Hcollect in Hcollect'. inversion Hcollect'; subst results' w5'.
  exists w1, w2, w3, local_result, worker_results, w5, all_results.
  cbv zeta. rewrite Hsame.
  split; [exact Hreg|]. split; [exact Hprompt|]. split; [exact Hcount|].
  split; [exact Horder|]. rewrite <- Hsame.
  split; [exact Hsend|]. split; [exact Hlocal|]. split; [exact Hcollect|].
  split; [exact Hall|]. split; [exact Hsort|]. split; [exact Hmesh|reflexivity].
Qed.

Lemma run_host_mode_small (cluster_size : Z) (master_addr : string)
    (master_port control_port nccl_timeout_seconds iperf_duration_seconds : Z) (w : world) :
  cluster_size < 2 ->
  run_host_mode cluster_size master_addr master_port control_port
                nccl_timeout_seconds iperf_duration_seconds w = (Ret 1, w).
Proof.
  intros Hlt. unfold run_host_mode. apply Z.ltb_lt in Hlt. rewrite Hlt. reflexivity.
Qed.

(** The listener is refused for a port outside 0..65535, when the
    system refuses it, and for a backlog that is no C [int]. *)
Lemma open_listener_cases (cluster_size control_port : Z) (w : world) :
  (exists failure, open_listener cluster_size control_port w = (Ret (Some failure), w) /\
                   (control_port < 0 \/ 65535 < control_port \/
                    w_bind w control_port <> None \/ 2 ^ 31 <= cluster_size)) \/
  (open_listener cluster_size control_port w = (Ret None, w) /\
   0 <= control_port <= 65535 /\ w_bind w control_port = None /\ cluster_size < 2 ^ 31).
Proof.
  unfold open_listener.
  destruct (control_port <? 0) eqn:Hneg; simpl.
  { apply Z.ltb_lt in Hneg. left. eauto. }
  destruct (65535 <? control_port) eqn:Hbig; simpl.
  { apply Z.ltb_lt in Hbig. left. eauto 6. }
  apply Z.ltb_ge in Hneg, Hbig.
  unfold mbind, M_bind, gets. destruct (w_bind w control_port) as [e|] eqn:Hbind.
  { left. eexists. split; [reflexivity|]. right. right. left. discriminate. }
  destruct (2 ^ 31 - 1 <? cluster_size) eqn:Hbacklog.
  { apply Z.ltb_lt in Hbacklog. left. eexists. split; [reflexivity|].
    change (2 ^ 31) with 2147483648 in *. lia. }
  apply Z.ltb_ge in Hbacklog. right. split; [reflexivity|].
  change (2 ^ 31) with 2147483648 in *. split; [lia|]. split; [reflexivity|lia].
Qed.

Lemma run_host_mode_no_listener (cluster_size : Z) (master_addr : string)
    (master_port control_port nccl_timeout_seconds iperf_duration_seconds : Z) (w : world) :
  control_port < 0 \/ 65535 < control_port \/ w_bind w control_port <> None \/ 2 ^ 31 <= cluster_size ->
  run_host_mode cluster_size master_addr master_port control_port
                nccl_timeout_seconds iperf_duration_seconds w = (Ret 1, w).
Proof.
  intros Hrefused. unfold run_host_mode.
  destruct (cluster_size <? 2); [reflexivity|].
  destruct (open_listener_cases cluster_size control_port w)
    as [(failure & Hopen & _)|(_ & Hport & Hbind & Hsize)].
  - exact (bind_run_ret _ _ _ _ _ Hopen).
  - exfalso. destruct Hrefused as [?|[?|[?|?]]]; try lia. contradiction.
Qed.

Lemma run_host_mode_session (cluster_size : Z) (master_addr : string)
    (master_port control_port nccl_timeout_seconds iperf_duration_seconds : Z) (w : world) :
  2 <= cluster_size < 2 ^ 31 -> 0 <= control_port <= 65535 -> w_bind w control_port = None ->
  run_host_mode cluster_size master_addr master_port control_port
                nccl_timeout_seconds iperf_duration_seconds w
  = try_finally
      (host_session cluster_size master_addr master_port nccl_timeout_seconds
                    iperf_duration_seconds)
      teardown (set_workers [] w).
Proof.
  intros Hsize Hport Hbind. unfold run_host_mode.
  destruct (cluster_size <? 2) eqn:E; [apply Z.ltb_lt in E; lia|].
  destruct (open_listener_cases cluster_size control_port w)
    as [(failure & _ & Hrefused)|(Hopen & _)].
  - exfalso. destruct Hrefused as [?|[?|[?|?]]]; try lia. contradiction.
  - rewrite (bind_run_ret _ _ _ _ _ Hopen).
    exact (bind_run_ret (modify (set_workers [])) _ w tt (set_workers [] w) eq_refl).
Qed.

(** C6 (as amended). The session returns 1 at once, without touching
    anything, when cluster_size is below 2 or the control listener cannot
    be set up: the port is outside 0..65535, the system refuses the
    listener, or cluster_size is no C int. A session that got past these
    checks and returns has registered cluster_size - 1 workers, sent
    each its command, run the host's own test, read one result per
    worker, printed the cluster_size results sorted by rank, run the
    mesh and closed the workers; it returns 0 if the host's result and
    every worker's result has a true ok, and 2 otherwise. An exception
    that leaves the session ends the process with status 1 whatever the
    collective results were; so the exit status is 0 only if every
    participant's result is ok. *)
Theorem host_exit_status (cluster_size : Z) (master_addr : string)
    (master_port control_port nccl_timeout_seconds iperf_duration_seconds : Z) (w : world) :
  let run := run_host_mode cluster_size master_addr master_port control_port
               nccl_timeout_seconds iperf_duration_seconds w in
  (cluster_size < 2 -> run = (Ret 1, w)) /\
  (control_port < 0 \/ 65535 < control_port \/ w_bind w control_port <> None \/ 2 ^ 31 <= cluster_size ->
   run = (Ret 1, w)) /\
  (forall z w',
     run = (Ret z, w') ->
     2 <= cluster_size < 2 ^ 31 -> 0 <= control_port <= 65535 -> w_bind w control_port = None ->
     exists w1 w2 w3 local_result worker_results w4 all_results w5,
       let workers := w_workers w2 in
       register_workers cluster_size (set_workers [] w) = (Ret tt, w1) /\
       wait_for_start w1 = (Ret tt, w2) /\
       Z.of_nat (length workers) = cluster_size - 1 /\
       for_each workers (fun worker =>
         JsonChannel.send (wc_channel worker)
           (start_nccl_command worker cluster_size master_addr master_port
                               nccl_timeout_seconds)) w2 = (Ret tt, w3) /\
       run_nccl 0 cluster_size master_addr master_port nccl_timeout_seconds w3
       = (Ret local_result, w3) /\
       collect_results cluster_size nccl_timeout_seconds workers w3
       = (Ret worker_results, w4) /\
       Forall2 (entry_of_worker cluster_size) workers worker_results /\
       sort_results (local_result :: worker_results) = inr all_results /\
       all_results ≡ₚ local_result :: worker_results /\
       Z.of_nat (length all_results) = cluster_size /\
       _run_mesh_iperf_tests
         (sort_by ni_rank
            ({| ni_rank := 0; ni_name := te_hostname (w_torch w4); ni_ip := master_addr;
                ni_is_host := true; ni_worker := None |}
             :: map node_of_worker workers))
         iperf_duration_seconds
         (set_out (w_out w4
                   ++ [OutTable ["Rank"; "Node"; "Status"; "Sum"; "Expected"; "Elapsed(s)";
                                 "Detail"]
                                (map result_row all_results)]) w4)
       = (Ret tt, w5) /\
       teardown w5 = (Ret tt, w') /\
       (z = 0 <->
        Py.truthy (Py.get "ok" local_result) = true /\
        Forall (fun item => Py.truthy (Py.get "ok" item) = true) worker_results) /\
       (z = 0 \/ z = 2)) /\
  (forall e, run.1 = Raise e -> exit_status run.1 = Some 1) /\
  (exit_status run.1 = Some 0 ->
   2 <= cluster_size < 2 ^ 31 /\ 0 <= control_port <= 65535 /\ w_bind w control_port = None /\
   run.1 = Ret 0).
Proof.
  intros run.
  pose proof (run_host_mode_small cluster_size master_addr master_port control_port
                nccl_timeout_seconds iperf_duration_seconds w) as Hsmall.
  pose proof (run_host_mode_no_listener cluster_size master_addr master_port control_port
                nccl_timeout_seconds iperf_duration_seconds w) as Hrefused.
  fold run in Hsmall, Hrefused.
  split; [exact Hsmall|]. split; [exact Hrefused|]. split; [|split].
  - intros z w' Hret Hsize Hport Hbind. subst run.
    rewrite (run_host_mode_session _ _ _ _ _ _ _ Hsize Hport Hbind) in Hret.
    apply try_finally_ret_inv in Hret as (w5 & Hsession & Hteardown).
    destruct (host_session_trace cluster_size master_addr master_port
                nccl_timeout_seconds iperf_duration_seconds (set_workers [] w) w5 z
                ltac:(lia) eq_refl Hsession)
      as (w1 & w2 & w3 & local_result & worker_results & w4 & all_results
          & Hreg & Hprompt & Hcount & _ & Hsend & Hlocal & Hcollect & Hall & Hsort
          & Hmesh & ->).
    exists w1, w2, w3, local_result, worker_results, w4, all_results, w5. cbv zeta.
    pose proof (sort_results_perm _ _ Hsort) as Hperm.
    split; [exact Hreg|]. split; [exact Hprompt|]. split; [exact Hcount|].
    split; [exact Hsend|].
    split; [unfold run_nccl, mbind, M_bind, gets, lift; rewrite Hlocal; reflexivity|].
    split; [exact Hcollect|]. split; [exact Hall|]. split; [exact Hsort|].
    split; [exact Hperm|].
    split; [rewrite Hperm; apply Forall2_length in Hall; simpl length; lia|].
    split; [exact Hmesh|]. split; [exact Hteardown|].
    assert (Hok : all_ok all_results = true <->
                  Py.truthy (Py.get "ok" local_result) = true /\
                  Forall (fun item => Py.truthy (Py.get "ok" item) = true) worker_results).
    { rewrite all_ok_iff, Hperm, Forall_cons_iff. reflexivity. }
    rewrite <- Hok.
    destruct (all_ok all_results); split; try tauto; try (split; congruence); auto.
  - intros e ->. reflexivity.
  - intros Hzero.
    destruct (Z.ltb_spec cluster_size 2) as [Hlt|Hge].
    { rewrite (Hsmall Hlt) in Hzero. discriminate. }
    destruct (open_listener_cases cluster_size control_port w)
      as [(failure & _ & Hno)|(_ & Hport & Hbind & Hsize)].
    { rewrite (Hrefused Hno) in Hzero. discriminate. }
    split; [lia|]. split; [exact Hport|]. split; [exact Hbind|].
    destruct run.1 as [z| |]; simpl in Hzero; congruence.
Qed.

End ExitStatusFacts.

(** C6, the claim as stated fails: in a session of two nodes both
    collective results are ok (the table shows PASS twice), the worker's
    connection ends before the mesh phase, the check of the worker raises
    [EOFError] out of the session, and the process ends with status 1. *)
Lemma all_ok_but_nonzero_exit :
  let run := @run_host_mode plain_runtime 2 "10.0.0.1" 29500 29610 180 5
               worker_lost_before_mesh_world in
  run.1 = Raise (Exn EOFError "peer closed connection") /\
  exit_status run.1 = Some 1 /\
  map (fun item =>
         match item with
         | OutTable _ rows => map (fun row => nth 2 row PNone) rows
         | OutLine _ => []
         end) (w_out run.2)
  = [[PStr "PASS"; PStr "PASS"]].
Proof. vm_compute. auto. Qed.

Lemma host_exit_status_witness :
  exists (local_result : pydict) (worker_results : list pydict),
    (@run_host_mode probe_runtime 2 "10.0.0.1" 29500 29610 180 5 healthy_session_world).1
    = Ret 0 /\
    length worker_results = 1%nat /\
    Py.truthy (Py.get "ok" local_result) = true /\
    Forall (fun item => Py.truthy (Py.get "ok" item) = true) worker_results.
Proof.
  set (run := @run_host_mode probe_runtime 2 "10.0.0.1" 29500 29610 180 5
                healthy_session_world).
  assert (Hzero : run.1 = Ret 0) by (vm_compute; reflexivity).
  destruct (@host_exit_status probe_runtime 2 "10.0.0.1" 29500 29610 180 5
              healthy_session_world) as (_ & _ & Hret & _ & _).
  destruct (Hret 0 run.2)
    as (w1 & w2 & w3 & local_result & worker_results & w4 & all_results & w5
        & _ & _ & Hcount & _ & _ & _ & Hall & _ & _ & _ & _ & _ & Hiff & _).
  - fold run. destruct run as [r w']. simpl in Hzero. subst r. reflexivity.
  - split; [lia|reflexivity].
  - lia.
  - reflexivity.
  - exists local_result, worker_results. split; [exact Hzero|].
    apply Forall2_length in Hall. split; [lia|]. apply Hiff. reflexivity.
Defined.

(* ===================================================================== *)
(** * Further properties of the program *)
(* ===================================================================== *)


Lemma bind_run_raise {A B} (c : M A) (k : A -> M B) w e w1 :
  c w = (Raise e, w1) -> (c ≫= k) w = (Raise e, w1).
Proof. intros Hc. unfold mbind, M_bind. rewrite Hc. reflexivity. Qed.

Lemma bind_run_hang {A B} (c : M A) (k : A -> M B) w w1 :
  c w = (Hang, w1) -> (c ≫= k) w = (Hang, w1).
Proof. intros Hc. unfold mbind, M_bind. rewrite Hc. reflexivity. Qed.

(** ** Frames: what a computation leaves alone *)

Section Preserves.
Context {B : Type} (f : world -> B).

Lemma preserves_ret {A} (a : A) : preserves f (mret a).
Proof. intros w. reflexivity. Qed.

Lemma preserves_raise {A} (e : exn) : preserves f (raise e : M A).
Proof. intros w. reflexivity. Qed.

Lemma preserves_hang {A} : preserves f (hang : M A).
Proof. intros w. reflexivity. Qed.

Lemma preserves_gets {A} (g : world -> A) : preserves f (gets g).
Proof. intros w. reflexivity. Qed.

Lemma preserves_lift {A} (r : exn + A) : preserves f (lift r).
Proof. intros w. destruct r; reflexivity. Qed.

Lemma preserves_modify (g : world -> world) :
  (forall w, f (g w) = f w) -> preserves f (modify g).
Proof. intros Hg w. apply Hg. Qed.

Lemma preserves_bind {A C} (c : M A) (k : A -> M C) :
  preserves f c -> (forall a, preserves f (k a)) -> preserves f (c ≫= k).
Proof.
  intros Hc Hk w. apply wp_bind. eapply wp_mono; [apply Hc|].
  intros [a| |] w1 Hw1; try exact Hw1.
  eapply wp_mono; [apply Hk|]. intros r2 w2 Hw2. simpl in *. congruence.
Qed.

Lemma preserves_try_except {A} (c : M A) (h : exn -> M A) :
  preserves f c -> (forall e, preserves f (h e)) -> preserves f (try_except c h).
Proof.
  intros Hc Hh w. apply wp_try_except. eapply wp_mono; [apply Hc|].
  intros [a|e|] w1 Hw1; try exact Hw1.
  eapply wp_mono; [apply Hh|]. intros r2 w2 Hw2. simpl in *. congruence.
Qed.

Lemma preserves_try_finally {A} (c : M A) (g : M unit) :
  preserves f c -> preserves f g -> preserves f (try_finally c g).
Proof.
  intros Hc Hg w. apply wp_try_finally. eapply wp_mono; [apply Hc|].
  intros [a|e|] w1 Hw1; try exact Hw1;
    (eapply wp_mono; [apply Hg|]; intros [[]|e'|] w2 Hw2; congruence).
Qed.

Lemma preserves_for_each {A} (l : list A) (body : A -> M unit) :
  (forall x, preserves f (body x)) -> preserves f (for_each l body).
Proof.
  intros Hbody. induction l as [|x l IH]; simpl.
  - apply preserves_ret.
  - apply preserves_bind; auto.
Qed.

End Preserves.

Create HintDb preserves.

Ltac preserves_step :=
  first
    [ assumption
    | solve [auto 2 with preserves]
    | apply preserves_ret
    | apply preserves_raise
    | apply preserves_hang
    | apply preserves_gets
    | apply preserves_lift
    | apply preserves_modify; intros ?; solve [reflexivity | auto with preserves]
    | apply preserves_bind; [|intros ?]
    | apply preserves_try_except; [|intros ?]
    | apply preserves_try_finally
    | apply preserves_for_each; intros ?
    | progress cbv zeta
    | match goal with
      | |- preserves _ (if ?b then _ else _) => destruct b
      | |- preserves _ (match ?x with _ => _ end) => destruct x
      end ].

Ltac preserves := repeat preserves_step.

Lemma socket_blind_accept : socket_blind w_accept.
Proof. intros g w. reflexivity. Qed.
Lemma socket_blind_stdin : socket_blind w_stdin.
Proof. intros g w. reflexivity. Qed.
Lemma socket_blind_run : socket_blind w_run.
Proof. intros g w. reflexivity. Qed.
Lemma socket_blind_popen : socket_blind w_popen.
Proof. intros g w. reflexivity. Qed.
Lemma socket_blind_spawned : socket_blind w_spawned.
Proof. intros g w. reflexivity. Qed.
Lemma socket_blind_killed : socket_blind w_killed.
Proof. intros g w. reflexivity. Qed.
Lemma socket_blind_servers : socket_blind w_servers.
Proof. intros g w. reflexivity. Qed.
Lemma socket_blind_out : socket_blind w_out.
Proof. intros g w. reflexivity. Qed.
Lemma socket_blind_workers : socket_blind w_workers.
Proof. intros g w. reflexivity. Qed.

#[export] Hint Resolve socket_blind_accept socket_blind_stdin socket_blind_run
  socket_blind_popen socket_blind_spawned socket_blind_killed socket_blind_servers
  socket_blind_out socket_blind_workers : preserves.

Section PreservesChannel.
Context {B : Type} (f : world -> B) (Hblind : socket_blind f).

Lemma preserves_send ch payload : preserves f (JsonChannel.send ch payload).
Proof using Hblind.
  unfold JsonChannel.send, JsonChannel.sock_of, JsonChannel.put_sock. preserves.
Qed.

Lemma preserves_recv ch timeout : preserves f (JsonChannel.recv ch timeout).
Proof using Hblind.
  unfold JsonChannel.recv, JsonChannel.gettimeout, JsonChannel.settimeout,
    JsonChannel.readline, JsonChannel.sock_of, JsonChannel.put_sock.
  preserves.
Qed.

Lemma preserves_close ch : preserves f (JsonChannel.close ch).
Proof using Hblind.
  unfold JsonChannel.close, JsonChannel.sock_of, JsonChannel.put_sock. preserves.
Qed.

End PreservesChannel.

#[export] Hint Resolve preserves_send preserves_recv preserves_close : preserves.


(** ** Calls that always end *)

Section NeverHangs.

Lemma never_hangs_ret {A} (a : A) : never_hangs (mret a).
Proof. intros w. discriminate. Qed.

Lemma never_hangs_raise {A} (e : exn) : never_hangs (raise e : M A).
Proof. intros w. discriminate. Qed.

Lemma never_hangs_gets {A} (g : world -> A) : never_hangs (gets g).
Proof. intros w. discriminate. Qed.

Lemma never_hangs_lift {A} (r : exn + A) : never_hangs (lift r).
Proof. intros w. destruct r; discriminate. Qed.

Lemma never_hangs_modify (g : world -> world) : never_hangs (modify g).
Proof. intros w. discriminate. Qed.

Lemma never_hangs_bind {A C} (c : M A) (k : A -> M C) :
  never_hangs c -> (forall a, never_hangs (k a)) -> never_hangs (c ≫= k).
Proof.
  intros Hc Hk w. apply wp_bind. eapply wp_mono; [apply Hc|].
  intros [a|e|] w1 Hw1; [apply Hk|discriminate|congruence].
Qed.

Lemma never_hangs_try_except {A} (c : M A) (h : exn -> M A) :
  never_hangs c -> (forall e, never_hangs (h e)) -> never_hangs (try_except c h).
Proof.
  intros Hc Hh w. apply wp_try_except. eapply wp_mono; [apply Hc|].
  intros [a|e|] w1 Hw1; [discriminate|apply Hh|congruence].
Qed.

Lemma never_hangs_try_finally {A} (c : M A) (g : M unit) :
  never_hangs c -> never_hangs g -> never_hangs (try_finally c g).
Proof.
  intros Hc Hg w. apply wp_try_finally. eapply wp_mono; [apply Hc|].
  intros [a|e|] w1 Hw1; try exact Hw1;
    (eapply wp_mono; [apply Hg|]; intros [[]|e'|] w2 Hw2; congruence).
Qed.

Lemma never_hangs_for_each {A} (l : list A) (body : A -> M unit) :
  (forall x, never_hangs (body x)) -> never_hangs (for_each l body).
Proof.
  intros Hbody. induction l as [|x l IH]; simpl.
  - apply never_hangs_ret.
  - apply never_hangs_bind; auto.
Qed.

End NeverHangs.

Create HintDb never_hangs.

Ltac never_hangs_step :=
  first
    [ assumption
    | solve [auto 2 with never_hangs]
    | apply never_hangs_ret
    | apply never_hangs_raise
    | apply never_hangs_gets
    | apply never_hangs_lift
    | apply never_hangs_modify
    | apply never_hangs_bind; [|intros ?]
    | apply never_hangs_try_except; [|intros ?]
    | apply never_hangs_try_finally
    | apply never_hangs_for_each; intros ?
    | progress cbv zeta
    | match goal with
      | |- never_hangs (if ?b then _ else _) => destruct b
      | |- never_hangs (match ?x with _ => _ end) => destruct x
      end ].

Ltac never_hangs := repeat never_hangs_step.

Lemma never_hangs_send ch payload : never_hangs (JsonChannel.send ch payload).
Proof.
  unfold JsonChannel.send, JsonChannel.sock_of, JsonChannel.put_sock. never_hangs.
Qed.

Lemma never_hangs_recv ch q : never_hangs (JsonChannel.recv ch (Some q)).
Proof. intros w. apply recv_with_timeout_ends. Qed.

Lemma never_hangs_close ch : never_hangs (JsonChannel.close ch).
Proof.
  unfold JsonChannel.close, JsonChannel.sock_of, JsonChannel.put_sock. never_hangs.
Qed.

#[export] Hint Resolve never_hangs_send never_hangs_recv never_hangs_close : never_hangs.


(** ** Relations a computation moves along *)

Section Steady.
Context (R : relation world) `{!Reflexive R, !Transitive R}.

Lemma steady_ret {A} (a : A) : steady R (mret a).
Proof using Reflexive0. intros w. unfold wp. simpl. reflexivity. Qed.

Lemma steady_raise {A} (e : exn) : steady R (raise e : M A).
Proof using Reflexive0. intros w. unfold wp. simpl. reflexivity. Qed.

Lemma steady_hang {A} : steady R (hang : M A).
Proof using Reflexive0. intros w. unfold wp. simpl. reflexivity. Qed.

Lemma steady_gets {A} (g : world -> A) : steady R (gets g).
Proof using Reflexive0. intros w. unfold wp. simpl. reflexivity. Qed.

Lemma steady_lift {A} (r : exn + A) : steady R (lift r).
Proof using Reflexive0. intros w. unfold wp. destruct r; simpl; reflexivity. Qed.

Lemma steady_modify (g : world -> world) :
  (forall w, R w (g w)) -> steady R (modify g).
Proof. intros Hg w. apply Hg. Qed.

Lemma steady_bind {A C} (c : M A) (k : A -> M C) :
  steady R c -> (forall a, steady R (k a)) -> steady R (c ≫= k).
Proof using Transitive0.
  intros Hc Hk w. apply wp_bind. eapply wp_mono; [apply Hc|].
  intros [a| |] w1 Hw1; try exact Hw1.
  eapply wp_mono; [apply Hk|]. intros r2 w2 Hw2. simpl in *. etransitivity; eassumption.
Qed.

Lemma steady_try_except {A} (c : M A) (h : exn -> M A) :
  steady R c -> (forall e, steady R (h e)) -> steady R (try_except c h).
Proof using Transitive0.
  intros Hc Hh w. apply wp_try_except. eapply wp_mono; [apply Hc|].
  intros [a|e|] w1 Hw1; try exact Hw1.
  eapply wp_mono; [apply Hh|]. intros r2 w2 Hw2. simpl in *. etransitivity; eassumption.
Qed.

Lemma steady_try_finally {A} (c : M A) (g : M unit) :
  steady R c -> steady R g -> steady R (try_finally c g).
Proof using Transitive0.
  intros Hc Hg w. apply wp_try_finally. eapply wp_mono; [apply Hc|].
  intros [a|e|] w1 Hw1; try exact Hw1;
    (eapply wp_mono; [apply Hg|]; intros [[]|e'|] w2 Hw2; simpl in *;
     etransitivity; eassumption).
Qed.

Lemma steady_for_each {A} (l : list A) (body : A -> M unit) :
  (forall x, steady R (body x)) -> steady R (for_each l body).
Proof using Reflexive0 Transitive0.
  intros Hbody. induction l as [|x l IH]; simpl.
  - apply steady_ret.
  - apply steady_bind; auto.
Qed.

End Steady.

Create HintDb steady.

Ltac steady_step :=
  first
    [ assumption
    | solve [auto 2 with steady]
    | apply steady_ret; typeclasses eauto
    | apply steady_raise; typeclasses eauto
    | apply steady_hang; typeclasses eauto
    | apply steady_gets; typeclasses eauto
    | apply steady_lift; typeclasses eauto
    | apply steady_modify; intros ?; solve [reflexivity | auto with steady]
    | apply steady_bind; [typeclasses eauto .. | | intros ?]
    | apply steady_try_except; [typeclasses eauto .. | | intros ?]
    | apply steady_try_finally; [typeclasses eauto .. | | ]
    | apply steady_for_each; [typeclasses eauto .. | intros ?]
    | progress cbv zeta
    | match goal with
      | |- steady _ (if ?b then _ else _) => destruct b
      | |- steady _ (match ?x with _ => _ end) => destruct x
      end ].

Ltac steady := repeat steady_step.

#[export] Instance stays_closed_refl ch : Reflexive (stays_closed ch).
Proof. intros w Hw. exact Hw. Qed.

#[export] Instance stays_closed_trans ch : Transitive (stays_closed ch).
Proof. intros w1 w2 w3 H12 H23 Hw. auto. Qed.

(** Replacing a socket by one that is closed whenever the old one was. *)
Lemma stays_closed_put ch ch' s w :
  (sk_closed (the_sock ch' w) = true -> sk_closed s = true) ->
  stays_closed ch w (set_socks (insert ch' s) w).
Proof.
  intros Hs Hw. destruct (decide (ch' = ch)) as [->|Hne].
  - rewrite the_sock_put. auto.
  - rewrite the_sock_put_ne by exact Hne. exact Hw.
Qed.

Lemma stays_closed_blind ch (g : world -> world) w :
  w_socks (g w) = w_socks w -> stays_closed ch w (g w).
Proof. intros Hg Hw. unfold the_sock in *. rewrite Hg. exact Hw. Qed.

Lemma steady_closed_send ch ch' payload :
  steady (stays_closed ch) (JsonChannel.send ch' payload).
Proof.
  intros w. unfold JsonChannel.send, JsonChannel.sock_of, JsonChannel.put_sock.
  wp_steps; try (intros Hw; exact Hw); try (apply stays_closed_put; simpl; auto).
Qed.

Lemma steady_closed_close ch ch' : steady (stays_closed ch) (JsonChannel.close ch').
Proof.
  intros w. unfold JsonChannel.close, JsonChannel.sock_of, JsonChannel.put_sock.
  wp_steps. apply stays_closed_put. reflexivity.
Qed.

Lemma steady_closed_settimeout ch ch' t :
  steady (stays_closed ch) (JsonChannel.settimeout ch' t).
Proof.
  intros w. apply wp_settimeout.
  destruct (match t with Some q => Py.Qlt_bool q 0 | None => false end).
  - intros Hw. exact Hw.
  - apply stays_closed_put. simpl. auto.
Qed.

Lemma steady_closed_readline ch ch' : steady (stays_closed ch) (JsonChannel.readline ch').
Proof.
  intros w. unfold JsonChannel.readline, JsonChannel.sock_of, JsonChannel.put_sock.
  wp_steps; try (intros Hw; exact Hw); try (apply stays_closed_put; simpl; auto).
Qed.

Lemma steady_closed_recv ch ch' timeout :
  steady (stays_closed ch) (JsonChannel.recv ch' timeout).
Proof.
  pose proof (steady_closed_settimeout ch ch'). pose proof (steady_closed_readline ch ch').
  unfold JsonChannel.recv, JsonChannel.gettimeout, JsonChannel.sock_of. steady.
Qed.

#[export] Hint Resolve steady_closed_send steady_closed_close steady_closed_recv : steady.

(** ** The collective test runner *)

Section RunnerInvariants.
Context `{PyRuntime}.

Lemma exn_repr_not_empty (e : exn) : Py.exn_repr e <> "".
Proof. unfold Py.exn_repr. destruct (exn_cls e); discriminate. Qed.

(** X1: every result that [_run_nccl_distributed] returns echoes the
    rank, the world size and the host name it was called with, carries
    the double nearest to the expected sum of that world size (the
    expected sum itself when it is below [2 ** 53]) and the rounded
    elapsed time; its ["ok"] flag is set exactly when its ["error"] text
    is empty, and its ["sum"] is [None] exactly when the import or the
    body of the test raised. *)
Theorem runner_result_invariants
    (env : torch_env) (rank world_size : Z) (master_addr : string)
    (master_port timeout_seconds : Z) (result : pydict) :
  _run_nccl_distributed env rank world_size master_addr master_port timeout_seconds
  = inr result ->
  Py.get "rank" result = PInt rank /\
  Py.get "world_size" result = PInt world_size /\
  Py.get "hostname" result = PStr (te_hostname env) /\
  (exists expected,
     expected_sum_float world_size = inr expected /\
     Py.get "expected_sum" result = PFloat expected /\
     (Z.abs (world_size * (world_size - 1) / 2) < 2 ^ 53 ->
      expected = inject_Z (world_size * (world_size - 1) / 2))) /\
  Py.get "elapsed_seconds" result
  = PFloat (Py.round3 (te_time_end env - te_time_start env)) /\
  (exists ok error,
     Py.get "ok" result = PBool ok /\ Py.get "error" result = PStr error /\
     (ok = true <-> error = "")) /\
  (Py.get "sum" result = PNone <->
   te_import env <> None \/ exists e, nccl_try_body env rank = inl e).
Proof.
  unfold _run_nccl_distributed.
  destruct (expected_sum_float world_size) as [e|expected] eqn:Hexp; [discriminate|].
  assert (Hexact : exists expected',
             inr expected = inr (A:=exn) expected' /\
             PFloat expected = PFloat expected' /\
             (Z.abs (world_size * (world_size - 1) / 2) < 2 ^ 53 ->
              expected' = inject_Z (world_size * (world_size - 1) / 2))).
  { exists expected. split; [reflexivity|]. split; [reflexivity|]. intros Hsmall.
    rewrite (expected_sum_float_exact world_size Hsmall) in Hexp. congruence. }
  destruct (te_import env) as [e|] eqn:Himport.
  - intros [= <-]. cbn. repeat split; try reflexivity; try exact Hexact.
    + eexists false, _. repeat split; try reflexivity; discriminate.
    + intros _. left. discriminate.
  - destruct (nccl_try_body env rank) as [e|reduced] eqn:Hbody.
    + intros [= <-]. cbn. repeat split; try reflexivity; try exact Hexact.
      * eexists false, _. repeat split; try reflexivity; try discriminate.
        intros He. destruct (exn_repr_not_empty e He).
      * intros _. right. eauto.
    + destruct (Py.Qlt_bool (Qabs (reduced - expected)) tolerance) eqn:Hok;
        intros [= <-]; cbn; repeat split; try reflexivity; try discriminate;
        try exact Hexact.
      * eexists true, _. repeat split; reflexivity.
      * intros [Hi|[e He]]; [congruence|discriminate].
      * eexists false, _. repeat split; try reflexivity; discriminate.
      * intros [Hi|[e He]]; [congruence|discriminate].
Qed.

End RunnerInvariants.

Lemma runner_result_invariants_witness :
  exists result,
    @_run_nccl_distributed plain_runtime healthy_rank1_of_3 1 3 "10.0.0.1" 29500 180
    = inr result /\
    Py.get "rank" result = PInt 1 /\
    Py.get "world_size" result = PInt 3 /\
    Py.get "expected_sum" result = PFloat 3.
Proof.
  eexists. split; [reflexivity|].
  destruct (@runner_result_invariants plain_runtime healthy_rank1_of_3 1 3 "10.0.0.1"
              29500 180 _ eq_refl) as (Hrank & Hsize & _ & _).
  split; [exact Hrank|]. split; [exact Hsize|reflexivity].
Defined.

(** ** Registration *)

Lemma the_sock_set_workers ch l w : the_sock ch (set_workers l w) = the_sock ch w.
Proof. reflexivity. Qed.

Section RegistrationMore.
Context `{PyRuntime}.

(** X2: registration at the host, started with an empty list of
    workers, never holds more than [cluster_size - 1] workers; their
    ranks are 1, 2, ... in the order of registration; and when it
    returns there are exactly [cluster_size - 1] of them. *)
Theorem registration_assigns_ranks (cluster_size : Z) (w : world) :
  2 <= cluster_size ->
  w_workers w = [] ->
  let run := register_workers cluster_size w in
  map wc_rank (w_workers run.2) = map Z.of_nat (seq 1 (length (w_workers run.2))) /\
  Z.of_nat (length (w_workers run.2)) <= cluster_size - 1 /\
  (run.1 = Ret tt -> Z.of_nat (length (w_workers run.2)) = cluster_size - 1).
Proof.
  intros Hsize Hempty run.
  assert (Hloop : wp (registration_loop cluster_size (w_accept w))
                     (fun r w' =>
                        ranks_in_order (w_workers w') /\
                        Z.of_nat (length (w_workers w'))
                        <= Z.max (Z.of_nat (length (w_workers w))) (cluster_size - 1) /\
                        (r = Ret tt -> cluster_size - 1 <= Z.of_nat (length (w_workers w')))) w).
  { apply registration_loop_spec. rewrite Hempty. reflexivity. }
  unfold wp in Hloop. rewrite Hempty in Hloop. simpl in Hloop.
  destruct Hloop as (Horder & Hmax & Hdone).
  subst run. unfold register_workers, mbind, M_bind, gets. simpl.
  repeat split; [exact Horder|lia|]. intros Hret. specialize (Hdone Hret). lia.
Qed.

End RegistrationMore.

Lemma registration_assigns_ranks_witness :
  let run := @register_workers plain_runtime 3
               (set_accept
                  [ AcceptConn (peer None [RxLine (Some (register_message "node-b"))]) "10.0.0.2";
                    AcceptConn (peer None [RxLine (Some (PDict [("type", PStr "hello")]))])
                               "10.0.0.9";
                    AcceptConn (peer None [RxLine (Some (register_message "node-c"))]) "10.0.0.3" ]
                  idle_world) in
  run.1 = Ret tt /\
  map wc_rank (w_workers run.2) = [1; 2] /\
  map wc_peer_ip (w_workers run.2) = ["10.0.0.2"; "10.0.0.3"] /\
  map wc_rank (w_workers run.2) = map Z.of_nat (seq 1 (length (w_workers run.2))) /\
  Z.of_nat (length (w_workers run.2)) <= 3 - 1 /\
  (run.1 = Ret tt -> Z.of_nat (length (w_workers run.2)) = 3 - 1).
Proof.
  intros run. split; [vm_compute; reflexivity|].
  split; [vm_compute; reflexivity|]. split; [vm_compute; reflexivity|].
  apply (@registration_assigns_ranks plain_runtime 3); [lia|reflexivity].
Defined.

Section RegistrationExchange.
Context `{PyRuntime}.

(** X3: a connection whose first message is a [register] with a usable
    GPU count is appended to the workers with the next rank, the host
    name it sent (or [worker-<rank>]), the address it advertised (or,
    when that is empty, the address it connected from), and is answered
    with [registered], its rank and the cluster size. *)
Theorem registration_round_trip (cluster_size : Z) (ch : nat) (addr : string) (w : world)
    (d : pydict) (rx : list rx_event) (gpu_count : Z) :
  sk_closed (the_sock ch w) = false ->
  sk_timed_out (the_sock ch w) = false ->
  valid_timeout (sk_timeout (the_sock ch w)) ->
  flush_succeeds (the_sock ch w) ->
  sk_rx (the_sock ch w) = RxLine (Some (PDict d)) :: rx ->
  Py.str (Py.get_or "type" (PStr "") d) = "register" ->
  Py.int (Py.get_or "gpu_count" (PInt (-1)) d) = inr gpu_count ->
  let rank := Z.of_nat (length (w_workers w)) + 1 in
  exists w',
    register_one cluster_size ch addr w = (Ret tt, w') /\
    w_workers w'
    = w_workers w ++
      [ {| wc_rank := rank;
           wc_hostname :=
             Py.str (Py.get_or "hostname" (PStr ("worker-" +:+ pretty rank)) d);
           wc_advertised_ip := str_or (Py.str (Py.get_or "advertised_ip" (PStr "") d)) addr;
           wc_peer_ip := addr;
           wc_gpu_count := gpu_count;
           wc_channel := ch |} ] /\
    sk_closed (the_sock ch w') = false /\
    sk_rx (the_sock ch w') = rx /\
    sk_sent (the_sock ch w')
    = sk_sent (the_sock ch w)
      ++ [PDict [ ("type", PStr "registered"); ("rank", PInt rank);
                  ("world_size", PInt cluster_size) ]].
Proof.
  intros Hopen Hfresh Hvalid Hflush Hrx Hregister Hgpus rank.
  apply String.eqb_eq in Hregister.
  assert (Hthirty : valid_timeout (seconds 30)) by (vm_compute; discriminate).
  unfold register_one, reply_get.
  rewrite (bind_run_ret _ _ _ _ _
             (recv_line ch (seconds 30) w (PDict d) rx Hopen Hfresh Hvalid Hthirty Hrx)).
  simpl Py.getattr_get. unfold lift.
  rewrite (bind_run_ret (mret _) _ _ _ _ eq_refl). rewrite Hregister.
  change (negb true) with false. cbn iota.
  rewrite (bind_run_ret (gets w_workers) _ _ _ _ eq_refl).
  rewrite !(bind_run_ret (mret _) _ _ _ _ eq_refl).
  change (w_workers (set_socks _ w)) with (w_workers w).
  fold rank. rewrite Hgpus.
  rewrite (bind_run_ret (mret _) _ _ _ _ eq_refl).
  rewrite (bind_run_ret (modify _) _ _ _ _ eq_refl).
  rewrite send_delivers.
  - eexists. split; [reflexivity|].
    rewrite !the_sock_put, !the_sock_set_workers, !the_sock_put. simpl. auto.
  - rewrite the_sock_set_workers, the_sock_put. exact Hopen.
  - rewrite the_sock_set_workers, the_sock_put. exact Hflush.
Qed.

End RegistrationExchange.

Lemma registration_round_trip_witness :
  exists w',
    @register_one plain_runtime 2 0%nat "10.0.0.2" registering_peer_world = (Ret tt, w') /\
    w_workers w'
    = [ {| wc_rank := 1; wc_hostname := "node-b"; wc_advertised_ip := "10.0.0.2";
           wc_peer_ip := "10.0.0.2"; wc_gpu_count := 1; wc_channel := 0%nat |} ] /\
    sk_closed (the_sock 0%nat w') = false /\
    sk_rx (the_sock 0%nat w') = [] /\
    sk_sent (the_sock 0%nat w')
    = [PDict [("type", PStr "registered"); ("rank", PInt 1); ("world_size", PInt 2)]].
Proof.
  exact (@registration_round_trip plain_runtime 2 0%nat "10.0.0.2" registering_peer_world
           [ ("type", PStr "register"); ("hostname", PStr "node-b");
             ("advertised_ip", PStr ""); ("gpu_count", PInt 1) ]
           [] 1 eq_refl eq_refl I I eq_refl eq_refl eq_refl).
Defined.

Section RejectionMore.
Context `{PyRuntime}.

(** One turn of the registration loop on an accepted connection. *)
Lemma registration_loop_step (cluster_size : Z) (peer : sock) (addr : string)
    (pending : list accept_event) (w : world) :
  Z.of_nat (length (w_workers w)) < cluster_size - 1 ->
  let ch := fresh (dom (w_socks w)) in
  registration_loop cluster_size (AcceptConn peer addr :: pending) w
  = (try_except (register_one cluster_size ch addr) (fun _ => JsonChannel.close ch) ;;
     registration_loop cluster_size pending)
      (set_socks (insert ch peer) (set_accept pending w)).
Proof.
  intros Hroom ch. apply Z.ltb_lt in Hroom.
  cbn [registration_loop].
  unfold open_channel, mbind, M_bind, gets, modify, mret, M_ret. simpl.
  rewrite Hroom. reflexivity.
Qed.

Lemma preserves_register_one {B} (f : world -> B) cluster_size ch addr :
  socket_blind f -> (forall l w, f (set_workers l w) = f w) ->
  preserves f (register_one cluster_size ch addr).
Proof.
  intros Hblind Hworkers. unfold register_one, reply_get. preserves.
Qed.

(** X4: while the host still waits for workers, a connection whose
    first message is not [register] is answered with the error and
    closed, takes no rank, and the host goes on to the next
    connection. *)
Theorem rejected_connection_takes_no_rank (cluster_size : Z) (peer : sock) (addr : string)
    (pending : list accept_event) (w : world) (d : pydict) (rx : list rx_event) :
  Z.of_nat (length (w_workers w)) < cluster_size - 1 ->
  sk_closed peer = false ->
  sk_timed_out peer = false ->
  valid_timeout (sk_timeout peer) ->
  flush_succeeds peer ->
  sk_rx peer = RxLine (Some (PDict d)) :: rx ->
  Py.str (Py.get_or "type" (PStr "") d) <> "register" ->
  let ch := fresh (dom (w_socks w)) in
  exists w',
    registration_loop cluster_size (AcceptConn peer addr :: pending) w
    = registration_loop cluster_size pending w' /\
    w_workers w' = w_workers w /\
    w_accept w' = pending /\
    sk_closed (the_sock ch w') = true /\
    sk_sent (the_sock ch w')
    = sk_sent peer
      ++ [PDict [("type", PStr "error"); ("error", PStr "first message must be register")]].
Proof.
  intros Hroom Hopen Hfresh Hvalid Hflush Hrx Hother ch.
  set (w1 := set_socks (insert ch peer) (set_accept pending w)).
  assert (Hsock : the_sock ch w1 = peer) by apply the_sock_put.
  destruct (register_one_rejects cluster_size ch addr w1 d rx)
    as (w' & Hrun & Hsame & Hclosed & Hsent); rewrite ?Hsock; auto.
  exists w'. split.
  - rewrite registration_loop_step by exact Hroom. fold ch w1.
    unfold mbind, M_bind, try_except. rewrite Hrun. reflexivity.
  - rewrite Hsock in Hsent. repeat split; auto.
    pose proof (preserves_register_one w_accept cluster_size ch addr
                  socket_blind_accept (fun _ _ => eq_refl) w1) as Hframe.
    unfold wp in Hframe. rewrite Hrun in Hframe. exact Hframe.
Qed.

End RejectionMore.

Lemma rejected_connection_takes_no_rank_witness :
  let ch := fresh (dom (w_socks idle_world)) in
  exists w',
    @registration_loop plain_runtime 2 [AcceptConn stranger "10.0.0.9"] idle_world
    = @registration_loop plain_runtime 2 [] w' /\
    w_workers w' = [] /\
    w_accept w' = [] /\
    sk_closed (the_sock ch w') = true /\
    sk_sent (the_sock ch w')
    = [PDict [("type", PStr "error"); ("error", PStr "first message must be register")]].
Proof.
  apply (@rejected_connection_takes_no_rank plain_runtime 2 stranger "10.0.0.9" [] idle_world
           [("type", PStr "hello")] []); try reflexivity; try exact I.
  vm_compute. intros Heq. discriminate Heq.
Defined.

(** ** The control channel *)

(** X5: what [recv] makes of the peer's next move on an open
    connection: a line of valid JSON is returned and consumed; silence
    for the length of the timeout becomes [TimeoutError("socket read
    timeout")], and without a timeout the call never returns; the end of
    the stream becomes [EOFError("peer closed connection")]; a line that
    is not JSON raises the decoder's error; any other error of the read
    is passed on unchanged. *)
Theorem recv_outcome_by_peer_event (ch : nat) (timeout : option Q) (w : world) :
  sk_closed (the_sock ch w) = false ->
  sk_timed_out (the_sock ch w) = false ->
  valid_timeout (sk_timeout (the_sock ch w)) ->
  valid_timeout timeout ->
  let run := JsonChannel.recv ch timeout w in
  match sk_rx (the_sock ch w) with
  | RxLine (Some v) :: rx => run.1 = Ret v /\ sk_rx (the_sock ch run.2) = rx
  | RxLine None :: rx =>
      run.1 = Raise (Exn JSONDecodeError "Expecting value") /\
      sk_rx (the_sock ch run.2) = rx
  | RxSilent :: rx =>
      match timeout with
      | Some _ => run.1 = Raise (Exn TimeoutError "socket read timeout")
      | None => run.1 = Hang
      end
  | RxError e :: rx =>
      run.1 = Raise (if decide (exn_cls e = TimeoutError)
                     then Exn TimeoutError "socket read timeout" else e)
  | RxClosed :: _ | [] =>
      run.1 = Raise (Exn EOFError "peer closed connection") /\
      sk_rx (the_sock ch run.2) = sk_rx (the_sock ch w)
  end.
Proof.
  intros Hopen Hfresh Hprev Htimeout run. subst run.
  apply valid_timeout_not_negative in Hprev, Htimeout.
  unfold JsonChannel.recv, JsonChannel.gettimeout, JsonChannel.settimeout,
    JsonChannel.readline, JsonChannel.sock_of, JsonChannel.put_sock,
    try_finally, try_except, mbind, M_bind, mret, M_ret, gets, modify, raise, hang.
  rewrite Htimeout, Hopen. simpl. rewrite !the_sock_put. simpl.
  rewrite Hopen, Hfresh.
  destruct (sk_rx (the_sock ch w)) as [|[[v|]| | |e] rx] eqn:E;
    simpl; rewrite ?the_sock_put; simpl; rewrite ?Hprev, ?Hopen; simpl;
    rewrite ?the_sock_put; simpl; auto.
  - destruct timeout as [q|]; simpl; rewrite ?the_sock_put; simpl;
      rewrite ?Hprev, ?Hopen; simpl; reflexivity.
  - destruct (decide (exn_cls e = TimeoutError)); simpl;
      rewrite ?the_sock_put; simpl; rewrite ?Hprev, ?Hopen; simpl; reflexivity.
Qed.

Lemma recv_outcome_by_peer_event_witness :
  (JsonChannel.recv 0 (seconds 5) silent_peer_world).1
  = Raise (Exn TimeoutError "socket read timeout").
Proof.
  exact (recv_outcome_by_peer_event 0 (seconds 5) silent_peer_world
           eq_refl eq_refl ltac:(vm_compute; discriminate) ltac:(vm_compute; discriminate)).
Defined.

(** ** The listener manager *)

Section ManagerMore.
Context `{PyRuntime}.

(** X6: on a free port, with a [Popen] that succeeds, [start] files the
    new process under the port, and the [wait] that follows reports how
    the process ended and frees the port again; the process is killed
    exactly when it outlived the wait, and the report then carries
    return code 124. *)
Theorem start_then_wait_round_trip (port timeout_seconds : Z) (c : comm_outcome)
    (script : list (exn + comm_outcome)) (w : world) :
  w_servers w !! port = None ->
  w_popen w = inr c :: script ->
  let p := Proc (length (w_spawned w)) port c in
  exists w1 w2,
    IperfServerManager.start port w = (Ret [("ok", PBool true)], w1) /\
    w_servers w1 = <[port := p]> (w_servers w) /\
    IperfServerManager.wait port timeout_seconds w1
    = (Ret match c with
           | CommExit rc out err =>
               [ ("ok", PBool (rc =? 0)); ("returncode", PInt rc);
                 ("stdout", PStr out); ("stderr", PStr err) ]
           | CommTimeout out err =>
               [ ("ok", PBool false); ("returncode", PInt 124);
                 ("stdout", PStr out); ("stderr", PStr (err +:+ " timeout")) ]
           end, w2) /\
    w_servers w2 = w_servers w /\
    w_spawned w2 = w_spawned w ++ [p] /\
    w_killed w2
    = w_killed w ++ match c with CommTimeout _ _ => [pr_pid p] | CommExit _ _ _ => [] end.
Proof.
  intros Hfree Hpopen p.
  unfold IperfServerManager.start, IperfServerManager.wait, popen_listener, kill,
    mbind, M_bind, gets, modify, mret, M_ret.
  rewrite Hfree, Hpopen. simpl. fold p.
  destruct c as [rc out err|out err];
    (do 2 eexists; split; [reflexivity|]; simpl; split; [reflexivity|];
     rewrite lookup_insert_eq; simpl; split; [reflexivity|]; simpl;
     rewrite delete_insert_id by exact Hfree; rewrite ?app_nil_r; auto).
Qed.

(** X7: [wait] on a port under which no listener is filed reports that
    it was not found, and changes nothing. *)
Theorem wait_without_listener (port timeout_seconds : Z) (w : world) :
  w_servers w !! port = None ->
  IperfServerManager.wait port timeout_seconds w
  = (Ret [ ("ok", PBool false);
           ("error", PStr ("iperf3 server not found on port " +:+ pretty port)) ], w).
Proof.
  intros Hfree.
  unfold IperfServerManager.wait, mbind, M_bind, gets, modify, mret, M_ret.
  rewrite Hfree. simpl. rewrite delete_id by exact Hfree.
  destruct w. reflexivity.
Qed.

Lemma for_each_kill_all (l : list (Z * proc)) (w : world) :
  for_each l (fun kv => kill kv.2) w
  = (Ret tt, set_killed (w_killed w ++ map (fun kv => pr_pid kv.2) l) w).
Proof.
  revert w. induction l as [|kv l IH]; intros w; simpl.
  - rewrite app_nil_r. destruct w. reflexivity.
  - unfold mbind, M_bind, kill at 1, modify. rewrite IH. simpl.
    rewrite <- app_assoc. reflexivity.
Qed.

(** X8: [shutdown_all] returns, kills every process the manager still
    tracks and no other, and leaves the manager empty. *)
Theorem shutdown_all_kills_tracked (w : world) :
  let run := IperfServerManager.shutdown_all w in
  run.1 = Ret tt /\
  w_servers run.2 = ∅ /\
  w_spawned run.2 = w_spawned w /\
  (forall pid,
     pid ∈ w_killed run.2 <->
     pid ∈ w_killed w \/ exists port p, w_servers w !! port = Some p /\ pr_pid p = pid).
Proof.
  unfold IperfServerManager.shutdown_all, mbind, M_bind, gets, modify.
  rewrite for_each_kill_all. simpl. repeat split; try reflexivity.
  - intros Hin. apply elem_of_app in Hin as [Hin|Hin]; [left; exact Hin|right].
    apply list_elem_of_fmap in Hin as ([port p] & -> & Hin).
    apply elem_of_map_to_list in Hin. eauto.
  - intros [Hin|(port & p & Hin & <-)]; apply elem_of_app; [left; exact Hin|right].
    apply list_elem_of_fmap. exists (port, p). split; [reflexivity|].
    apply elem_of_map_to_list. exact Hin.
Qed.

End ManagerMore.

Lemma start_then_wait_round_trip_witness :
  let p := Proc 0 5301 (CommTimeout "" "") in
  exists w1 w2,
    @IperfServerManager.start plain_runtime 5301 stuck_listener_world
    = (Ret [("ok", PBool true)], w1) /\
    w_servers w1 = <[5301 := p]> ∅ /\
    IperfServerManager.wait 5301 35 w1
    = (Ret [ ("ok", PBool false); ("returncode", PInt 124);
             ("stdout", PStr ""); ("stderr", PStr " timeout") ], w2) /\
    w_servers w2 = ∅ /\
    w_spawned w2 = [p] /\
    w_killed w2 = [0%nat].
Proof.
  exact (@start_then_wait_round_trip plain_runtime 5301 35 (CommTimeout "" "") []
           stuck_listener_world eq_refl eq_refl).
Defined.

Lemma wait_without_listener_witness :
  IperfServerManager.wait 5301 35 idle_world
  = (Ret [ ("ok", PBool false);
           ("error", PStr ("iperf3 server not found on port " +:+ pretty 5301)) ],
     idle_world).
Proof.
  exact (wait_without_listener 5301 35 idle_world eq_refl).
Defined.

(** ** Probes *)

Section PreservesProbes.
Context `{PyRuntime} {B : Type} (f : world -> B).
Context (Hsocks : socket_blind f) (Hrun : forall l w, f (set_run l w) = f w).

Lemma preserves_run_command cmd timeout : preserves f (_run_command cmd timeout).
Proof using Hrun. unfold _run_command. preserves. Qed.

Lemma preserves_check_iperf3 : preserves f _check_iperf3_available.
Proof using Hrun.
  pose proof preserves_run_command. unfold _check_iperf3_available. preserves.
Qed.


Lemma preserves_send_and_expect worker payload timeout :
  preserves f (_send_and_expect worker payload timeout).
Proof using Hsocks. unfold _send_and_expect. preserves. Qed.

Lemma preserves_node_check_iperf node : preserves f (_node_check_iperf node).
Proof using Hsocks Hrun.
  pose proof preserves_check_iperf3. pose proof preserves_send_and_expect.
  unfold _node_check_iperf, worker_of, reply_get. preserves.
Qed.


End PreservesProbes.

Section NeverHangsProbes.
Context `{PyRuntime}.

Lemma never_hangs_run_command cmd timeout : never_hangs (_run_command cmd timeout).
Proof. unfold _run_command. never_hangs. Qed.


Lemma never_hangs_run_iperf_client target_host port duration_seconds :
  never_hangs (_run_iperf_client target_host port duration_seconds).
Proof.
  pose proof never_hangs_run_command. unfold _run_iperf_client. never_hangs.
Qed.

Lemma never_hangs_send_and_expect worker payload timeout :
  never_hangs (_send_and_expect worker payload timeout).
Proof. unfold _send_and_expect, seconds. never_hangs. Qed.

Lemma never_hangs_start port : never_hangs (IperfServerManager.start port).
Proof. unfold IperfServerManager.start, popen_listener. never_hangs. Qed.

Lemma never_hangs_wait port timeout_seconds :
  never_hangs (IperfServerManager.wait port timeout_seconds).
Proof. unfold IperfServerManager.wait, kill. never_hangs. Qed.



Lemma never_hangs_node_start node port : never_hangs (_node_start_iperf_server node port).
Proof.
  pose proof never_hangs_start. pose proof never_hangs_send_and_expect.
  unfold _node_start_iperf_server, worker_of, reply_get. never_hangs.
Qed.

Lemma never_hangs_node_wait node port timeout_seconds :
  never_hangs (_node_wait_iperf_server node port timeout_seconds).
Proof.
  pose proof never_hangs_wait. pose proof never_hangs_send_and_expect.
  unfold _node_wait_iperf_server, worker_of, reply_get. never_hangs.
Qed.

Lemma never_hangs_node_run_iperf_client node target_host port duration_seconds :
  never_hangs (_node_run_iperf_client node target_host port duration_seconds).
Proof.
  pose proof never_hangs_run_iperf_client. pose proof never_hangs_send_and_expect.
  unfold _node_run_iperf_client, worker_of, reply_get. never_hangs.
Qed.

Lemma never_hangs_direction client_node server_node port duration_seconds :
  never_hangs (_run_iperf_direction client_node server_node port duration_seconds).
Proof.
  pose proof never_hangs_node_start. pose proof never_hangs_node_wait.
  pose proof never_hangs_node_run_iperf_client.
  unfold _run_iperf_direction. never_hangs.
Qed.

End NeverHangsProbes.

(** ** The throughput mesh *)

Section MeshMore.
Context `{PyRuntime}.

Lemma preserves_check_nodes {B} (f : world -> B) nodes rows all_ok :
  socket_blind f -> (forall l w, f (set_run l w) = f w) ->
  preserves f (check_nodes nodes rows all_ok).
Proof.
  intros Hsocks Hrun. revert rows all_ok.
  induction nodes as [|node nodes IH]; intros rows all_ok; simpl.
  - apply preserves_ret.
  - apply preserves_bind; [apply preserves_node_check_iperf; assumption|].
    intros res. apply IH.
Qed.


Lemma never_hangs_mesh_pairs pairs duration_seconds port_cursor rows :
  never_hangs (mesh_pairs pairs duration_seconds port_cursor rows).
Proof.
  revert port_cursor rows.
  induction pairs as [|[node_a node_b] pairs IH]; intros port_cursor rows; simpl.
  - apply never_hangs_ret.
  - pose proof never_hangs_direction. never_hangs.
Qed.


(** X10: when every node has iperf3, the host's listener manager is
    empty when the mesh phase ends, whether it returns or raises; when
    some node lacks iperf3 or the availability check raises, the phase
    spawns no process and leaves the listener table as it was. *)
Theorem mesh_leaves_no_listener (nodes : list NodeInfo) (duration_seconds : Z) (w : world) :
  let checks := check_nodes nodes [] true w in
  let run := _run_mesh_iperf_tests nodes duration_seconds w in
  match checks.1 with
  | Ret (_, true) => w_servers run.2 = ∅
  | _ => w_servers run.2 = w_servers w /\ w_spawned run.2 = w_spawned w /\
         w_popen run.2 = w_popen w
  end.
Proof.
  intros checks run.
  pose proof (preserves_check_nodes w_servers nodes [] true
                socket_blind_servers (fun _ _ => eq_refl) w) as Hservers.
  pose proof (preserves_check_nodes w_spawned nodes [] true
                socket_blind_spawned (fun _ _ => eq_refl) w) as Hspawned.
  pose proof (preserves_check_nodes w_popen nodes [] true
                socket_blind_popen (fun _ _ => eq_refl) w) as Hpopen.
  unfold wp in Hservers, Hspawned, Hpopen. subst run checks.
  unfold _run_mesh_iperf_tests.
  destruct (check_nodes nodes [] true w) as [[[rows [|]]|e|] w1] eqn:Hchecks;
    cbn [fst snd] in *;
    [ rewrite (bind_run_ret _ _ _ _ _ Hchecks)
    | rewrite (bind_run_ret _ _ _ _ _ Hchecks); simpl; auto
    | rewrite (bind_run_raise _ _ _ _ _ Hchecks); simpl; auto
    | rewrite (bind_run_hang _ _ _ _ Hchecks); simpl; auto ].
  match goal with
  | |- w_servers (?c ?w0).2 = _ => change (wp c (fun _ w' => w_servers w' = ∅) w0)
  end.
  unfold print_table, IperfServerManager.init. cbn [negb].
  wp_step. wp_step. wp_step. wp_step. apply wp_try_finally.
  match goal with
  | |- wp ?c _ _ =>
      assert (Hbody : never_hangs c)
        by (pose proof never_hangs_mesh_pairs; never_hangs)
  end.
  eapply wp_mono; [apply Hbody|].
  intros [[]|e|] w2 Hends; try congruence;
    (eapply wp_mono; [apply shutdown_all_empties|]; intros r w3 (-> & Hempty & _); exact Hempty).
Qed.

End MeshMore.

Section DirectionMore.
Context `{PyRuntime}.




(** X12: when the sink is the host and its listener cannot be spawned,
    the direction is reported as failed with the reason, and nothing
    else happens: no client is run and no message is sent. The same
    holds when the port is already taken. *)
Theorem direction_aborts_without_listener (client_node server_node : NodeInfo)
    (port duration_seconds : Z) (w : world) :
  ni_is_host server_node = true ->
  (forall e script,
     w_servers w !! port = None ->
     w_popen w = inl e :: script ->
     _run_iperf_direction client_node server_node port duration_seconds w
     = (Ret (failed_probe ("server start failed: " +:+ Py.exn_repr e)),
        set_popen script w)) /\
  (forall p,
     w_servers w !! port = Some p ->
     _run_iperf_direction client_node server_node port duration_seconds w
     = (Ret (failed_probe ("server start failed: iperf3 server already exists on port "
                           +:+ pretty port)), w)).
Proof.
  intros Hhost. split.
  - intros e script Hfree Hpopen.
    unfold _run_iperf_direction, _node_start_iperf_server, IperfServerManager.start,
      popen_listener, mbind, M_bind, gets, modify, mret, M_ret.
    rewrite Hhost, Hfree, Hpopen. reflexivity.
  - intros p Hfiled.
    unfold _run_iperf_direction, _node_start_iperf_server.
    rewrite Hhost. rewrite (bind_run_ret _ _ _ _ _ (start_on_occupied_port port p w Hfiled)).
    reflexivity.
Qed.

End DirectionMore.


(** The second way of raising happens: the worker reports a figure
    beyond the doubles, the host's listener is reaped, and [float(bps)]
    raises. *)
Lemma direction_raises_on_huge_figure :
  let run := @_run_iperf_direction plain_runtime worker1_node host_node 5301 5
               huge_figure_world in
  run.1 = Raise (Exn OverflowError "int too large to convert to float") /\
  w_servers run.2 = w_servers huge_figure_world /\
  w_spawned run.2 = [Proc 0 5301 (CommExit 0 "" "")].
Proof. vm_compute. auto. Qed.

Lemma direction_aborts_without_listener_witness :
  @_run_iperf_direction plain_runtime worker1_node host_node 5301 5 missing_iperf_world
  = (Ret (failed_probe
            ("server start failed: "
             +:+ @Py.exn_repr plain_runtime
                   (Exn FileNotFoundError "No such file or directory: 'iperf3'"))),
     set_popen [] missing_iperf_world).
Proof.
  exact (proj1 (@direction_aborts_without_listener plain_runtime worker1_node host_node 5301 5
                  missing_iperf_world eq_refl) _ _ eq_refl eq_refl).
Defined.

(** ** Teardown *)

Lemma close_closes ch w :
  wp (JsonChannel.close ch)
     (fun r w' => r = Ret tt /\ w_workers w' = w_workers w /\
                  sk_closed (the_sock ch w') = true /\
                  forall ch', stays_closed ch' w w') w.
Proof.
  pose proof (fun ch' => steady_closed_close ch' ch w) as Hothers.
  unfold wp in *. unfold JsonChannel.close, JsonChannel.sock_of, JsonChannel.put_sock,
    mbind, M_bind, gets, modify in *. simpl in *.
  rewrite the_sock_put. auto.
Qed.

Lemma teardown_one (worker : WorkerConnection) (w : world) :
  wp (swallow (JsonChannel.send (wc_channel worker) [("type", PStr "shutdown")] ;;
               JsonChannel.recv (wc_channel worker) (seconds 5) ;;
               mret tt) ;;
      JsonChannel.close (wc_channel worker))
     (fun r w' => r = Ret tt /\ w_workers w' = w_workers w /\
                  sk_closed (the_sock (wc_channel worker) w') = true /\
                  forall ch', stays_closed ch' w w') w.
Proof.
  set (exchange := JsonChannel.send (wc_channel worker) [("type", PStr "shutdown")] ;;
                   JsonChannel.recv (wc_channel worker) (seconds 5) ;; mret tt).
  assert (Hends : never_hangs exchange) by (unfold exchange, seconds; never_hangs).
  assert (Hworkers : preserves w_workers exchange) by (unfold exchange; preserves).
  assert (Hclosed : forall ch', steady (stays_closed ch') exchange)
    by (intros ch'; unfold exchange; steady).
  specialize (Hends w). specialize (Hworkers w).
  pose proof (fun ch' => Hclosed ch' w) as Hclosed'. clear Hclosed.
  apply wp_bind. unfold swallow. apply wp_try_except. unfold wp in Hends, Hworkers, Hclosed'.
  unfold wp at 1.
  destruct (exchange w) as [[[]|e|] w1]; cbn [fst snd] in *; try congruence;
    try apply wp_ret;
    (eapply wp_mono; [apply close_closes|];
     intros r w2 (-> & Hsame & Hshut & Hothers);
     repeat split; [congruence|exact Hshut|];
     intros ch'; etransitivity; [apply Hclosed'|apply Hothers]).
Qed.

(** What the teardown does to the connections. *)
Lemma teardown_closes (w : world) :
  (teardown w).1 = Ret tt /\
  w_workers (teardown w).2 = w_workers w /\
  (forall worker, worker ∈ w_workers w ->
                  sk_closed (the_sock (wc_channel worker) (teardown w).2) = true) /\
  (forall ch, sk_closed (the_sock ch w) = true ->
              sk_closed (the_sock ch (teardown w).2) = true).
Proof.
  unfold teardown.
  rewrite (bind_run_ret (gets w_workers) _ _ _ _ eq_refl).
  assert (Hloop : forall workers w0,
            wp (for_each workers (fun worker =>
                  swallow (JsonChannel.send (wc_channel worker) [("type", PStr "shutdown")] ;;
                           JsonChannel.recv (wc_channel worker) (seconds 5) ;;
                           mret tt) ;;
                  JsonChannel.close (wc_channel worker)))
               (fun r w' =>
                  r = Ret tt /\ w_workers w' = w_workers w0 /\
                  (forall worker, worker ∈ workers ->
                                  sk_closed (the_sock (wc_channel worker) w') = true) /\
                  (forall ch, stays_closed ch w0 w')) w0).
  { intros workers. induction workers as [|worker workers IH]; intros w0; simpl.
    - apply wp_ret. repeat split; try reflexivity.
      intros worker Hin. apply elem_of_nil in Hin. contradiction.
    - apply wp_bind. eapply wp_mono; [apply teardown_one|].
      intros r w1 (-> & Hsame & Hshut & Hothers).
      eapply wp_mono; [apply IH|].
      intros r w2 (-> & Hsame2 & Hall & Hothers2).
      repeat split; [congruence| |].
      + intros worker' Hin. apply elem_of_cons in Hin as [->|Hin]; [|auto].
        apply Hothers2. exact Hshut.
      + intros ch. etransitivity; [apply Hothers|apply Hothers2]. }
  specialize (Hloop (w_workers w) w). unfold wp in Hloop.
  destruct Hloop as (Hret & Hsame & Hall & Hothers). repeat split; auto.
Qed.


(** ** Connections of the host *)

#[export] Instance tracks_refl : Reflexive tracks.
Proof.
  intros w. split; [exists []; rewrite app_nil_r; reflexivity|].
  intros ch s Hs. right. right. eauto.
Qed.

#[export] Instance tracks_trans : Transitive tracks.
Proof.
  intros w1 w2 w3 [[l12 H12] T12] [[l23 H23] T23]. split.
  - exists (l12 ++ l23). rewrite H23, H12, app_assoc. reflexivity.
  - intros ch s3 Hs3.
    destruct (T23 ch s3 Hs3) as [Hc|[Hw|(s2 & Hs2 & Hc23)]]; [auto|auto|].
    destruct (T12 ch s2 Hs2) as [Hc|[Hw|(s1 & Hs1 & Hc12)]]; [auto| |].
    + right. left. unfold worker_channels in *. rewrite H23, map_app.
      apply elem_of_app. left. exact Hw.
    + right. right. exists s1. split; [exact Hs1|]. auto.
Qed.

Lemma tracks_blind (g : world -> world) (w : world) :
  w_socks (g w) = w_socks w -> w_workers (g w) = w_workers w -> tracks w (g w).
Proof.
  intros Hsocks Hworkers. split; [exists []; rewrite app_nil_r; exact Hworkers|].
  intros ch s Hs. rewrite Hsocks in Hs. right. right. eauto.
Qed.

#[export] Hint Extern 1 (tracks _ _) => apply tracks_blind; reflexivity : steady.

Lemma tracks_put ch s w :
  (sk_closed (the_sock ch w) = true -> sk_closed s = true) ->
  tracks w (set_socks (insert ch s) w).
Proof.
  intros Hs. split; [exists []; rewrite app_nil_r; reflexivity|].
  intros ch' s' Hs'. simpl in Hs'.
  destruct (decide (ch = ch')) as [<-|Hne].
  - rewrite lookup_insert_eq in Hs'. injection Hs' as <-.
    unfold the_sock in Hs. rewrite lookup_total_alt in Hs.
    destruct (w_socks w !! ch) as [s0|] eqn:Hs0; simpl in Hs.
    + right. right. eauto.
    + left. apply Hs. reflexivity.
  - rewrite lookup_insert_ne in Hs' by exact Hne. right. right. eauto.
Qed.

Lemma tracks_append worker w :
  tracks w (set_workers (w_workers w ++ [worker]) w).
Proof.
  split; [exists [worker]; reflexivity|].
  intros ch s Hs. right. right. eauto.
Qed.

Lemma steady_tracks_send ch payload : steady tracks (JsonChannel.send ch payload).
Proof.
  intros w. unfold JsonChannel.send, JsonChannel.sock_of, JsonChannel.put_sock.
  wp_steps; try reflexivity; apply tracks_put; simpl; auto.
Qed.

Lemma steady_tracks_close ch : steady tracks (JsonChannel.close ch).
Proof.
  intros w. unfold JsonChannel.close, JsonChannel.sock_of, JsonChannel.put_sock.
  wp_steps. apply tracks_put. reflexivity.
Qed.

Lemma steady_tracks_settimeout ch t : steady tracks (JsonChannel.settimeout ch t).
Proof.
  intros w. apply wp_settimeout.
  destruct (match t with Some q => Py.Qlt_bool q 0 | None => false end).
  - reflexivity.
  - apply tracks_put. simpl. auto.
Qed.

Lemma steady_tracks_readline ch : steady tracks (JsonChannel.readline ch).
Proof.
  intros w. unfold JsonChannel.readline, JsonChannel.sock_of, JsonChannel.put_sock.
  wp_steps; try reflexivity; apply tracks_put; simpl; auto.
Qed.

Lemma steady_tracks_recv ch timeout : steady tracks (JsonChannel.recv ch timeout).
Proof.
  pose proof (steady_tracks_settimeout ch). pose proof (steady_tracks_readline ch).
  unfold JsonChannel.recv, JsonChannel.gettimeout, JsonChannel.sock_of. steady.
Qed.

#[export] Hint Resolve steady_tracks_send steady_tracks_close steady_tracks_recv : steady.

Section TracksPrograms.
Context `{PyRuntime}.

Lemma steady_tracks_run_command cmd timeout : steady tracks (_run_command cmd timeout).
Proof. unfold _run_command. steady. Qed.

Lemma steady_tracks_check_iperf3 : steady tracks _check_iperf3_available.
Proof. pose proof steady_tracks_run_command. unfold _check_iperf3_available. steady. Qed.

Lemma steady_tracks_run_iperf_client target_host port duration_seconds :
  steady tracks (_run_iperf_client target_host port duration_seconds).
Proof. pose proof steady_tracks_run_command. unfold _run_iperf_client. steady. Qed.

Lemma steady_tracks_send_and_expect worker payload timeout :
  steady tracks (_send_and_expect worker payload timeout).
Proof. unfold _send_and_expect. steady. Qed.

Lemma steady_tracks_start port : steady tracks (IperfServerManager.start port).
Proof. unfold IperfServerManager.start, popen_listener. steady. Qed.

Lemma steady_tracks_wait port timeout_seconds :
  steady tracks (IperfServerManager.wait port timeout_seconds).
Proof. unfold IperfServerManager.wait, kill. steady. Qed.

Lemma steady_tracks_shutdown_all : steady tracks IperfServerManager.shutdown_all.
Proof. unfold IperfServerManager.shutdown_all, kill. steady. Qed.

Lemma steady_tracks_node_check_iperf node : steady tracks (_node_check_iperf node).
Proof.
  pose proof steady_tracks_check_iperf3. pose proof steady_tracks_send_and_expect.
  unfold _node_check_iperf, worker_of, reply_get. steady.
Qed.

Lemma steady_tracks_direction client_node server_node port duration_seconds :
  steady tracks (_run_iperf_direction client_node server_node port duration_seconds).
Proof.
  pose proof steady_tracks_start. pose proof steady_tracks_wait.
  pose proof steady_tracks_run_iperf_client. pose proof steady_tracks_send_and_expect.
  unfold _run_iperf_direction, _node_start_iperf_server, _node_run_iperf_client,
    _node_wait_iperf_server, worker_of, reply_get.
  steady.
Qed.

Lemma steady_tracks_check_nodes nodes rows all_ok :
  steady tracks (check_nodes nodes rows all_ok).
Proof.
  revert rows all_ok. induction nodes as [|node nodes IH]; intros rows all_ok; simpl.
  - steady.
  - pose proof steady_tracks_node_check_iperf. steady.
Qed.

Lemma steady_tracks_mesh_pairs pairs duration_seconds port_cursor rows :
  steady tracks (mesh_pairs pairs duration_seconds port_cursor rows).
Proof.
  revert port_cursor rows.
  induction pairs as [|[node_a node_b] pairs IH]; intros port_cursor rows; simpl.
  - steady.
  - pose proof steady_tracks_direction. steady.
Qed.

Lemma steady_tracks_mesh nodes duration_seconds :
  steady tracks (_run_mesh_iperf_tests nodes duration_seconds).
Proof.
  pose proof steady_tracks_check_nodes. pose proof steady_tracks_mesh_pairs.
  pose proof steady_tracks_shutdown_all.
  unfold _run_mesh_iperf_tests, print_table, IperfServerManager.init. steady.
Qed.

Lemma steady_tracks_prompt_loop lines : steady tracks (prompt_loop lines).
Proof. induction lines as [|line lines IH]; simpl; steady. Qed.

Lemma steady_tracks_collect_results cluster_size nccl_timeout_seconds workers :
  steady tracks (collect_results cluster_size nccl_timeout_seconds workers).
Proof.
  induction workers as [|worker workers IH]; simpl; unfold collect_one; steady.
Qed.

Lemma wp_conj {A} (c : M A) (P Q : res A -> world -> Prop) w :
  wp c P w -> wp c Q w -> wp c (fun r w' => P r w' /\ Q r w') w.
Proof. unfold wp. auto. Qed.

(** One registration exchange on the fresh channel [ch]: it ends, and
    afterwards the channel is closed or is the channel of a worker. *)
Lemma register_one_settles cluster_size ch addr w :
  wp (try_except (register_one cluster_size ch addr) (fun _ => JsonChannel.close ch))
     (fun r w' =>
        r <> Hang /\ tracks w w' /\
        (sk_closed (the_sock ch w') = true \/ ch ∈ worker_channels w')) w.
Proof.
  set (Q := fun (r : res unit) w' =>
              r <> Hang /\ tracks w w' /\
              (sk_closed (the_sock ch w') = true \/ ch ∈ worker_channels w')).
  assert (Hclose : forall w1, tracks w w1 ->
            wp (JsonChannel.close ch) (fun r w' => r = Ret tt /\ Q r w') w1).
  { intros w1 H01.
    eapply wp_mono; [apply (wp_conj _ _ _ _ (close_closes ch w1) (steady_tracks_close ch w1))|].
    intros r w2 [(-> & _ & Hshut & _) H12].
    split; [reflexivity|]. split; [discriminate|split; [etransitivity; eassumption|auto]]. }
  assert (Hhandler : forall w1, tracks w w1 -> wp (JsonChannel.close ch) Q w1).
  { intros w1 H01. eapply wp_mono; [apply Hclose; exact H01|]. intros r w2 [_ HQ]. exact HQ. }
  apply wp_try_except. unfold register_one, reply_get.
  apply wp_bind.
  eapply wp_mono;
    [apply (wp_conj _ _ _ _ (steady_tracks_recv ch (seconds 30) w)
                            (never_hangs_recv ch (inject_Z 30) w))|].
  intros [register|e|] w1 [H01 Hends]; cbn beta iota;
    [|apply Hhandler; exact H01|congruence].
  apply wp_bind. apply wp_lift.
  destruct (Py.getattr_get register "type" (PStr "")) as [e|ty]; cbn beta iota;
    [apply Hhandler; exact H01|].
  destruct (negb (Py.str ty =? "register")%string).
  - apply wp_bind.
    eapply wp_mono;
      [apply (wp_conj _ _ _ _ (steady_tracks_send ch _ w1) (never_hangs_send ch _ w1))|].
    intros [[]|e|] w2 [H12 Hends2]; cbn beta iota; [| |congruence].
    + eapply wp_mono; [apply Hclose; etransitivity; eassumption|].
      intros r w3 [-> HQ]. exact HQ.
    + apply Hhandler. etransitivity; eassumption.
  - apply wp_bind. apply wp_gets. apply wp_bind. apply wp_lift.
    destruct (Py.getattr_get register "hostname" _) as [e|hostname]; cbn beta iota;
      [apply Hhandler; exact H01|].
    apply wp_bind. apply wp_lift.
    destruct (Py.getattr_get register "advertised_ip" _) as [e|advertised]; cbn beta iota;
      [apply Hhandler; exact H01|].
    apply wp_bind. apply wp_lift.
    destruct (Py.getattr_get register "gpu_count" _) as [e|gpus]; cbn beta iota;
      [apply Hhandler; exact H01|].
    apply wp_bind. apply wp_lift.
    destruct (Py.int gpus) as [e|gpu_count]; cbn beta iota; [apply Hhandler; exact H01|].
    apply wp_bind. apply wp_modify.
    match goal with
    | |- wp _ _ (set_workers (_ ++ [?x]) _) => set (worker := x)
    end.
    set (w2 := set_workers (w_workers w1 ++ [worker]) w1).
    assert (H02 : tracks w w2) by (etransitivity; [exact H01|apply tracks_append]).
    eapply wp_mono;
      [apply (wp_conj _ _ _ _
                (wp_conj _ _ _ _ (steady_tracks_send ch _ w2) (never_hangs_send ch _ w2))
                (preserves_send w_workers socket_blind_workers ch _ w2))|].
    intros [[]|e|] w3 [[H23 Hends3] Hsame]; cbn beta iota; [| |congruence].
    + split; [discriminate|split; [etransitivity; eassumption|right]].
      unfold worker_channels. rewrite Hsame. simpl. rewrite map_app.
      apply elem_of_app. right. simpl. apply list_elem_of_here.
    + apply Hhandler. etransitivity; eassumption.
Qed.

Lemma steady_tracks_registration_loop cluster_size pending :
  steady tracks (registration_loop cluster_size pending).
Proof.
  induction pending as [|ev pending IH]; intros w; cbn [registration_loop].
  - apply wp_bind. apply wp_gets.
    destruct (negb _); [apply wp_ret|apply wp_hang]; reflexivity.
  - apply wp_bind. apply wp_gets.
    destruct (negb _); [apply wp_ret; reflexivity|].
    apply wp_bind. apply wp_modify.
    set (w0 := set_accept pending w).
    assert (H0 : tracks w w0) by (apply tracks_blind; reflexivity).
    destruct ev as [peer addr|e]; [|apply wp_raise; exact H0].
    apply wp_bind. unfold open_channel.
    apply wp_bind. apply wp_gets. apply wp_bind. apply wp_modify. apply wp_ret.
    set (ch := fresh (dom (w_socks w0))).
    set (w1 := set_socks (insert ch peer) w0).
    assert (Hfresh : w_socks w0 !! ch = None).
    { apply not_elem_of_dom. apply is_fresh. }
    assert (Hblock :
              forall (r : res unit) w2,
                r <> Hang /\ tracks w1 w2 /\
                (sk_closed (the_sock ch w2) = true \/ ch ∈ worker_channels w2) ->
                tracks w w2).
    { intros r w2 (_ & [[l Hl] H12] & Hsettled).
      etransitivity; [exact H0|]. split; [exists l; exact Hl|].
      intros ch' s2 Hs2.
      destruct (H12 ch' s2 Hs2) as [Hc|[Hw|(s1 & Hs1 & Hc)]]; [auto|auto|].
      destruct (decide (ch = ch')) as [<-|Hne].
      - unfold the_sock in Hsettled. rewrite (lookup_total_correct _ _ _ Hs2) in Hsettled.
        destruct Hsettled; auto.
      - simpl in Hs1. rewrite lookup_insert_ne in Hs1 by exact Hne.
        right. right. eauto. }
    apply wp_bind.
    eapply wp_mono; [apply register_one_settles|].
    intros [[]|e|] w2 Hpost; [|exact (Hblock _ _ Hpost)|destruct Hpost; congruence].
    eapply wp_mono; [apply IH|].
    intros r w3 H23. etransitivity; [exact (Hblock _ _ Hpost)|exact H23].
Qed.

End TracksPrograms.

Section HostConnections.
Context `{PyRuntime}.

Lemma steady_tracks_teardown : steady tracks teardown.
Proof. unfold teardown, swallow. steady. Qed.

Lemma steady_tracks_host_session cluster_size master_addr master_port
    nccl_timeout_seconds iperf_duration_seconds :
  steady tracks (host_session cluster_size master_addr master_port nccl_timeout_seconds
                              iperf_duration_seconds).
Proof.
  pose proof steady_tracks_registration_loop. pose proof steady_tracks_prompt_loop.
  pose proof steady_tracks_collect_results. pose proof steady_tracks_mesh.
  unfold host_session, register_workers, wait_for_start, run_nccl, print_table. steady.
Qed.

(** X14: when the host mode ends, by returning or by raising, every
    connection it accepted is closed: the ones it turned away, the ones
    whose registration failed, and those of the registered workers. *)
Theorem host_closes_accepted_connections (cluster_size : Z) (master_addr : string)
    (master_port control_port nccl_timeout_seconds iperf_duration_seconds : Z) (w : world) :
  let run := run_host_mode cluster_size master_addr master_port control_port
               nccl_timeout_seconds iperf_duration_seconds w in
  run.1 <> Hang ->
  forall ch s',
    w_socks run.2 !! ch = Some s' -> w_socks w !! ch = None -> sk_closed s' = true.
Proof.
  intros run Hends ch s' Hs' Hnew. subst run. unfold run_host_mode in *.
  destruct (cluster_size <? 2); [simpl in Hs'; congruence|].
  destruct (open_listener_cases cluster_size control_port w)
    as [(failure & Hopen & _)|(Hopen & _)];
    rewrite (bind_run_ret _ _ _ _ _ Hopen) in *; [simpl in Hs'; congruence|].
  rewrite (bind_run_ret (modify _) _ _ _ _ eq_refl) in *.
  set (w0 := set_workers [] w) in *.
  pose proof (steady_tracks_host_session cluster_size master_addr master_port
                nccl_timeout_seconds iperf_duration_seconds w0) as Hsession.
  unfold wp in Hsession. unfold try_finally in *.
  destruct (host_session cluster_size master_addr master_port nccl_timeout_seconds
              iperf_duration_seconds w0) as [r w1].
  pose proof (teardown_closes w1) as (Hret & Hsame & Hshut & _).
  pose proof (steady_tracks_teardown w1) as Hteardown. unfold wp in Hteardown.
  destruct (teardown w1) as [r2 w2]. simpl in Hret, Hsame, Hshut, Hteardown, Hsession.
  subst r2.
  assert (Hs2 : w_socks w2 !! ch = Some s')
    by (destruct r; simpl in *; [exact Hs'|exact Hs'|congruence]).
  assert (H02 : tracks w0 w2) by (etransitivity; eassumption).
  destruct H02 as [_ H02].
  destruct (H02 ch s' Hs2) as [Hc|[Hw|(s & Hs & _)]]; [exact Hc| |simpl in Hs; congruence].
  unfold worker_channels in Hw. rewrite Hsame in Hw.
  apply list_elem_of_fmap in Hw as (worker & -> & Hin).
  specialize (Hshut worker Hin). unfold the_sock in Hshut.
  rewrite (lookup_total_correct _ _ _ Hs2) in Hshut. exact Hshut.
Qed.

End HostConnections.

Lemma host_closes_accepted_connections_witness :
  let run := @run_host_mode plain_runtime 2 "10.0.0.1" 29500 29610 180 5
               worker_lost_before_mesh_world in
  run.1 <> Hang /\
  forall ch s',
    w_socks run.2 !! ch = Some s' ->
    w_socks worker_lost_before_mesh_world !! ch = None -> sk_closed s' = true.
Proof.
  assert (Hends : (@run_host_mode plain_runtime 2 "10.0.0.1" 29500 29610 180 5
                     worker_lost_before_mesh_world).1 <> Hang)
    by (vm_compute; discriminate).
  exact (conj Hends
           (@host_closes_accepted_connections plain_runtime 2 "10.0.0.1" 29500 29610 180 5
              worker_lost_before_mesh_world Hends)).
Defined.

(** ** The pairs of the mesh *)

Lemma elem_of_all_pairs_cons {A} (x : A) (l : list A) (a b : A) :
  (a, b) ∈ all_pairs (x :: l) <-> (a = x /\ b ∈ l) \/ (a, b) ∈ all_pairs l.
Proof.
  simpl. rewrite elem_of_app. split.
  - intros [Hin|Hin]; [left|right; exact Hin].
    apply list_elem_of_fmap in Hin as (b' & Heq & Hin). injection Heq as -> ->. auto.
  - intros [[-> Hin]|Hin]; [left|right; exact Hin].
    apply list_elem_of_fmap. eauto.
Qed.

Lemma elem_of_all_pairs {A} (l : list A) (a b : A) :
  (a, b) ∈ all_pairs l -> a ∈ l /\ b ∈ l.
Proof.
  induction l as [|x l IH]; [intros Hin; apply elem_of_nil in Hin; contradiction|].
  rewrite elem_of_all_pairs_cons, !elem_of_cons. intros [[-> Hin]|Hin]; [auto|].
  destruct (IH Hin). auto.
Qed.

(** X15: the pairs the mesh probes. A mesh of [n] nodes has
    [n * (n - 1) / 2] pairs; when the nodes are distinct, every two of
    them are probed as a pair exactly once, in one order only, and no
    node is paired with itself. *)
Theorem all_pairs_each_pair_once {A} (l : list A) :
  NoDup l ->
  (2 * length (all_pairs l) = length l * (length l - 1))%nat /\
  NoDup (all_pairs l) /\
  (forall a b, (a, b) ∈ all_pairs l -> a ∈ l /\ b ∈ l /\ a <> b /\ (b, a) ∉ all_pairs l) /\
  (forall a b, a ∈ l -> b ∈ l -> a <> b -> (a, b) ∈ all_pairs l \/ (b, a) ∈ all_pairs l).
Proof.
  induction l as [|x l IH]; intros Hnodup.
  - simpl. split; [reflexivity|]. split; [constructor|].
    split; intros a b Hin; apply elem_of_nil in Hin; contradiction.
  - apply NoDup_cons in Hnodup as [Hx Hnodup].
    destruct (IH Hnodup) as (Hlen & Hnd & Hsound & Hcomplete). clear IH.
    split_and!.
    + cbn [all_pairs length]. rewrite length_app, length_map.
      destruct (length l) as [|n]; simpl in *; nia.
    + cbn [all_pairs]. apply NoDup_app. split; [|split; [|exact Hnd]].
      * apply (NoDup_fmap_2 (pair x)); try exact Hnodup;
          try (intros b b' Heq; congruence).
      * intros [a b] Hin Hin'.
        apply list_elem_of_fmap in Hin as (b' & Heq & Hin). injection Heq as -> ->.
        apply elem_of_all_pairs in Hin' as [Hin' _]. contradiction.
    + intros a b Hin. apply elem_of_all_pairs_cons in Hin as [[-> Hin]|Hin].
      * repeat split; [apply list_elem_of_here|apply list_elem_of_further; exact Hin| |].
        -- intros ->. contradiction.
        -- intros Hrev. apply elem_of_all_pairs_cons in Hrev as [[-> _]|Hrev];
             [contradiction|].
           apply elem_of_all_pairs in Hrev as [_ Hrev]. contradiction.
      * destruct (Hsound a b Hin) as (Ha & Hb & Hne & Hrev).
        repeat split; [apply list_elem_of_further; exact Ha
                      |apply list_elem_of_further; exact Hb|exact Hne|].
        intros Hrev'. apply elem_of_all_pairs_cons in Hrev' as [[-> _]|Hrev'];
          [contradiction|contradiction].
    + intros a b Ha Hb Hne. apply elem_of_cons in Ha, Hb.
      destruct Ha as [->|Ha], Hb as [->|Hb].
      * contradiction.
      * left. apply elem_of_all_pairs_cons. auto.
      * right. apply elem_of_all_pairs_cons. auto.
      * destruct (Hcomplete a b Ha Hb Hne) as [Hin|Hin]; [left|right];
          apply elem_of_all_pairs_cons; auto.
Qed.

Lemma all_pairs_each_pair_once_witness :
  (2 * length (all_pairs [0; 1; 2]) = length [0; 1; 2] * (length [0; 1; 2] - 1))%nat /\
  NoDup (all_pairs [0; 1; 2]) /\
  (forall a b, (a, b) ∈ all_pairs [0; 1; 2] ->
               a ∈ [0; 1; 2] /\ b ∈ [0; 1; 2] /\ a <> b /\ (b, a) ∉ all_pairs [0; 1; 2]) /\
  (forall a b, a ∈ [0; 1; 2] -> b ∈ [0; 1; 2] -> a <> b ->
               (a, b) ∈ all_pairs [0; 1; 2] \/ (b, a) ∈ all_pairs [0; 1; 2]).
Proof.
  apply (all_pairs_each_pair_once [0; 1; 2]).
  repeat (apply NoDup_cons_2; [rewrite ?elem_of_cons, elem_of_nil; lia|]).
  apply NoDup_nil_2.
Defined.

(** ** The order of the result table *)

Lemma insert_by_sorted {A} (key : A -> Z) (x : A) (l : list A) :
  StronglySorted Z.le (map key l) -> StronglySorted Z.le (map key (insert_by key x l)).
Proof.
  induction l as [|y l IH]; simpl; intros Hsorted.
  - repeat constructor.
  - apply StronglySorted_inv in Hsorted as [Hsorted Hall].
    destruct (key x <=? key y) eqn:Hle.
    + apply Z.leb_le in Hle. simpl. constructor; [constructor; assumption|].
      constructor; [exact Hle|].
      eapply Forall_impl; [exact Hall|]. intros z Hz. simpl in Hz. lia.
    + apply Z.leb_gt in Hle. simpl. constructor; [apply IH; exact Hsorted|].
      rewrite Forall_forall in Hall |- *. intros z Hz.
      assert (Hperm : map key (insert_by key x l) ≡ₚ key x :: map key l).
      { change (key x :: map key l) with (map key (x :: l)).
        apply Permutation_map. apply insert_by_perm. }
      rewrite Hperm in Hz. apply elem_of_cons in Hz as [->|Hz]; [lia|].
      apply Hall. exact Hz.
Qed.

Lemma sort_by_sorted {A} (key : A -> Z) (l : list A) :
  StronglySorted Z.le (map key (sort_by key l)).
Proof.
  induction l as [|x l IH]; simpl; [constructor|]. apply insert_by_sorted. exact IH.
Qed.

Lemma map_partial_of_pairs {A B} (f : A -> exn + B) (pairs : list (B * A)) :
  Forall (fun p => f p.2 = inr p.1) pairs ->
  map_partial f (map snd pairs) = inr (map fst pairs).
Proof.
  induction 1 as [|p pairs Hp Hall IH]; simpl; [reflexivity|].
  rewrite Hp, IH. reflexivity.
Qed.

Section SortMore.
Context `{PyRuntime}.

(** X16: when every result has a rank that [int] accepts, the table of
    results lists the same results as were collected, in ascending
    order of rank. *)
Theorem results_sorted_by_rank (all_results sorted : list pydict) :
  sort_results all_results = inr sorted ->
  sorted ≡ₚ all_results /\
  exists keys,
    map_partial rank_key sorted = inr keys /\ StronglySorted Z.le keys.
Proof.
  unfold sort_results.
  destruct (map_partial rank_key all_results) as [e|keys] eqn:Hkeys; [discriminate|].
  intros [= <-]. apply map_partial_inr in Hkeys as [Hall Hsnd].
  set (pairs := combine keys all_results) in *.
  assert (Hperm : sort_by fst pairs ≡ₚ pairs) by apply sort_by_perm.
  split.
  - transitivity (map snd pairs); [apply Permutation_map; exact Hperm|].
    rewrite Hsnd. reflexivity.
  - exists (map fst (sort_by fst pairs)). split.
    + apply map_partial_of_pairs. rewrite Hperm. exact Hall.
    + apply sort_by_sorted.
Qed.

End SortMore.

Lemma results_sorted_by_rank_witness :
  exists sorted,
    @sort_results plain_runtime
      [ [("rank", PInt 2); ("ok", PBool true)]; [("rank", PInt 0)]; [("rank", PInt 1)] ]
    = inr sorted /\
    map (Py.get "rank") sorted = [PInt 0; PInt 1; PInt 2] /\
    exists keys,
      @map_partial _ _ (@rank_key plain_runtime) sorted = inr keys /\
      StronglySorted Z.le keys.
Proof.
  eexists. split; [vm_compute; reflexivity|]. split; [reflexivity|].
  exact (proj2 (@results_sorted_by_rank plain_runtime
                  [ [("rank", PInt 2); ("ok", PBool true)]; [("rank", PInt 0)];
                    [("rank", PInt 1)] ] _ eq_refl)).
Defined.

(** ** Rows and reports of the probes *)

Lemma str_or_not_empty (a b : string) : b <> "" -> str_or a b <> "".
Proof.
  intros Hb. unfold str_or. destruct (String.eqb a "") eqn:Ha; [exact Hb|].
  apply String.eqb_neq. exact Ha.
Qed.

Section ProbeReports.
Context `{PyRuntime}.

(** X17: the report row of a pair is always defined on the results of
    two direction probes: it has the eight cells of the table's eight
    columns, and its status is [PASS] exactly when both probes passed,
    [FAIL] otherwise. *)
Theorem pair_row_defined_on_probes (node_a node_b : NodeInfo)
    (client_a server_a client_b server_b : NodeInfo)
    (port_a port_b duration_a duration_b : Z)
    (w_a w_a' w_b w_b' : world) (a_to_b b_to_a : pydict) :
  _run_iperf_direction client_a server_a port_a duration_a w_a = (Ret a_to_b, w_a') ->
  _run_iperf_direction client_b server_b port_b duration_b w_b = (Ret b_to_a, w_b') ->
  exists row,
    pair_row node_a node_b a_to_b b_to_a = inr row /\
    length row = 8%nat /\
    row !! 6%nat
    = Some (PStr (if Py.truthy (Py.get "ok" a_to_b) && Py.truthy (Py.get "ok" b_to_a)
                  then "PASS" else "FAIL")).
Proof.
  intros Ha Hb.
  apply run_iperf_direction_shape in Ha as [[bps_a ->]|[error_a ->]];
    apply run_iperf_direction_shape in Hb as [[bps_b ->]|[error_b ->]];
    unfold pair_row, gbps_of, passing_probe, failed_probe; simpl;
    repeat match goal with
           | |- context [negb (Qeq_bool ?q 0)] => destruct (negb (Qeq_bool q 0))
           end;
    simpl; eexists; split; try reflexivity; split; reflexivity.
Qed.

(** X18: a run of the iperf3 client always ends. A result it returns
    is either a pass with a numeric throughput and an empty error, or a
    failure with no throughput and an error text that is not empty; the
    only exceptions it lets through are the [AttributeError] of a report
    whose top level or ["end"] entry is not an object, and the
    [OverflowError] of [float(bps)] for a figure that is an integer
    beyond the doubles. *)
Theorem client_run_result_shape (target_host : string) (port duration_seconds : Z)
    (w : world) :
  match (_run_iperf_client target_host port duration_seconds w).1 with
  | Ret r =>
      (exists bps, r = [("ok", PBool true); ("bps", PFloat bps); ("error", PStr "")]) \/
      (exists error, error <> "" /\
                     r = [("ok", PBool false); ("error", PStr error); ("bps", PNone)])
  | Raise e =>
      e = Exn AttributeError "object has no attribute 'get'" \/
      e = Exn OverflowError "int too large to convert to float"
  | Hang => False
  end.
Proof.
  assert (Hexit : forall code : Z, "exit=" +:+ pretty code <> "") by discriminate.
  match goal with
  | |- match (?c ?w0).1 with _ => _ end =>
      change (wp c (fun r _ =>
                      match r with
                      | Ret r =>
                          (exists bps, r = [("ok", PBool true); ("bps", PFloat bps);
                                            ("error", PStr "")]) \/
                          (exists error, error <> "" /\
                                         r = [("ok", PBool false); ("error", PStr error);
                                              ("bps", PNone)])
                      | Raise e =>
                          e = Exn AttributeError "object has no attribute 'get'" \/
                          e = Exn OverflowError "int too large to convert to float"
                      | Hang => False
                      end) w0)
  end.
  assert (Hextract : forall out e,
             _extract_iperf_bps out = inl e ->
             e = Exn AttributeError "object has no attribute 'get'" \/
             e = Exn OverflowError "int too large to convert to float").
  { intros out e. unfold _extract_iperf_bps.
    destruct (json_loads out) as [data|]; [|discriminate].
    destruct data; simpl; try (intros [= <-]; left; reflexivity).
    destruct (Py.get_or "end" (PDict []) d) as [| | | | | |e_nd]; simpl;
      try (intros [= <-]; left; reflexivity).
    destruct (append_both _ _) as [e'|aggregates] eqn:Hagg.
    { intros [= <-]. right.
      apply append_both_inl in Hagg as [E|E]; exact (append_bps_raises _ _ E). }
    destruct aggregates; [|discriminate].
    destruct (Py.get "streams" e_nd) as [| | | | |streams|]; try discriminate.
    destruct (append_streams streams) as [e'|candidates] eqn:Hstreams; [|discriminate].
    intros [= <-]. right. exact (append_streams_raises _ _ Hstreams). }
  unfold _run_iperf_client, _run_command.
  wp_steps;
    try match goal with
        | |- match _extract_iperf_bps ?o with _ => _ end =>
            destruct (_extract_iperf_bps o) as [ex|[bx|]] eqn:Hx; [|apply wp_ret ..]
        end;
    try (right; eexists; split; [|reflexivity];
         first [discriminate | apply str_or_not_empty, str_or_not_empty, Hexit]);
    try (left; eexists; reflexivity);
    try (eapply Hextract; eassumption).
Qed.

(** X19: the availability check of iperf3 always returns; its result
    carries a detail text that is not empty, and it reports [ok]
    exactly when [iperf3 --version] ran and exited with status 0. *)
Theorem check_iperf3_always_answers (w : world) :
  exists ok detail w',
    _check_iperf3_available w
    = (Ret [("ok", PBool ok); ("detail", PStr detail)], w') /\
    detail <> "" /\
    (ok = true <-> exists out err script, w_run w = RunExit 0 out err :: script).
Proof.
  assert (Hexit : forall code : Z, "exit=" +:+ pretty code <> "") by discriminate.
  unfold _check_iperf3_available, _run_command, mbind, M_bind, gets, modify, mret, M_ret.
  destruct (w_run w) as [|[rc out err|e|out err|e] script] eqn:Hrun; simpl.
  - exists false. do 2 eexists. split; [reflexivity|]. split; [discriminate|].
    split; [discriminate|]. intros (? & ? & ? & ?). discriminate.
  - destruct (rc =? 0) eqn:Hrc; simpl.
    + apply Z.eqb_eq in Hrc as ->. exists true. do 2 eexists. split; [reflexivity|].
      split; [apply str_or_not_empty; discriminate|]. split; eauto.
    + apply Z.eqb_neq in Hrc. exists false. do 2 eexists. split; [reflexivity|].
      split; [apply str_or_not_empty, str_or_not_empty, Hexit|].
      split; [discriminate|]. intros (? & ? & ? & [= -> _ _ _]). contradiction.
  - exists false. do 2 eexists. split; [reflexivity|].
    split; [apply str_or_not_empty, str_or_not_empty, Hexit|].
    split; [discriminate|]. intros (? & ? & ? & ?). discriminate.
  - exists false. do 2 eexists. split; [reflexivity|].
    split; [apply str_or_not_empty, str_or_not_empty, Hexit|].
    split; [discriminate|]. intros (? & ? & ? & ?). discriminate.
  - exists false. do 2 eexists. split; [reflexivity|].
    split; [apply str_or_not_empty, str_or_not_empty, Hexit|].
    split; [discriminate|]. intros (? & ? & ? & ?). discriminate.
Qed.

End ProbeReports.

Lemma pair_row_defined_on_probes_witness :
  let probe := [("ok", PBool true); ("bps", PFloat 9400000000); ("error", PStr "")] in
  exists row,
    @pair_row plain_runtime host_node worker1_node probe probe = inr row /\
    length row = 8%nat /\
    row !! 6%nat = Some (PStr "PASS").
Proof.
  exact (@pair_row_defined_on_probes plain_runtime host_node worker1_node
           worker1_node host_node worker1_node host_node 5301 5301 5 5
           worker_to_host_world _ worker_to_host_world _ _ _ eq_refl eq_refl).
Defined.

(** ** Text tables *)

Lemma string_length_app (a b : string) :
  String.length (a +:+ b) = (String.length a + String.length b)%nat.
Proof. induction a as [|c a IH]; simpl; [reflexivity|]. rewrite IH. reflexivity. Qed.

Lemma length_repeat_char (c : Ascii.ascii) (n : nat) : String.length (repeat_char c n) = n.
Proof. induction n as [|n IH]; simpl; [reflexivity|]. rewrite IH. reflexivity. Qed.

Lemma length_ljust (s : string) (width : nat) :
  String.length (ljust s width) = Nat.max (String.length s) width.
Proof. unfold ljust. rewrite string_length_app, length_repeat_char. lia. Qed.

Lemma length_join (sep : string) (parts : list string) :
  String.length (join sep parts)
  = (sum_list (map String.length parts) + String.length sep * (length parts - 1))%nat.
Proof.
  induction parts as [|p [|q parts] IH]; [simpl; lia|simpl; lia|].
  change (join sep (p :: q :: parts)) with (p +:+ sep +:+ join sep (q :: parts)).
  rewrite !string_length_app, IH. simpl. lia.
Qed.

(** The widths after one row: as many as before, none smaller, and wide
    enough for each of the row's cells. *)
Lemma widen_row_some (widths : list nat) (idx : nat) (cells : list string) :
  (idx + length cells <= length widths)%nat ->
  exists widths',
    widen_row widths idx cells = Some widths' /\
    length widths' = length widths /\
    (forall i width, widths !! i = Some width ->
                     exists width', widths' !! i = Some width' /\ (width <= width')%nat) /\
    (forall j cell, cells !! j = Some cell ->
                    exists width', widths' !! (idx + j)%nat = Some width' /\
                                   (String.length cell <= width')%nat).
Proof.
  revert widths idx. induction cells as [|cell cells IH]; intros widths idx Hfits; simpl in *.
  - exists widths. repeat split; [eauto|]. intros j c Hj. discriminate.
  - destruct (widths !! idx) as [width|] eqn:Hidx;
      [|apply lookup_ge_None in Hidx; lia].
    set (widths1 := <[idx := Nat.max width (String.length cell)]> widths).
    assert (Hlen1 : length widths1 = length widths) by apply length_insert.
    destruct (IH widths1 (S idx)) as (widths' & Hrun & Hlen & Hmono & Hcells); [lia|].
    exists widths'. split; [exact Hrun|]. split; [congruence|]. split.
    + intros i wi Hi. destruct (decide (i = idx)) as [->|Hne].
      * destruct (Hmono idx (Nat.max width (String.length cell))) as (w' & Hw' & Hle).
        { apply list_lookup_insert_eq. apply lookup_lt_is_Some. eauto. }
        exists w'. split; [exact Hw'|]. rewrite Hidx in Hi. injection Hi as <-. lia.
      * apply Hmono. unfold widths1. rewrite list_lookup_insert_ne by congruence. exact Hi.
    + intros [|j] c Hj; simpl in Hj.
      * injection Hj as <-. rewrite Nat.add_0_r.
        destruct (Hmono idx (Nat.max width (String.length cell))) as (w' & Hw' & Hle).
        { apply list_lookup_insert_eq. apply lookup_lt_is_Some. eauto. }
        exists w'. split; [exact Hw'|lia].
      * replace (idx + S j)%nat with (S idx + j)%nat by lia. apply Hcells. exact Hj.
Qed.

Lemma widen_row_length (widths widths' : list nat) (idx : nat) (cells : list string) :
  widen_row widths idx cells = Some widths' -> length widths' = length widths.
Proof.
  revert widths idx. induction cells as [|cell cells IH]; intros widths idx; simpl.
  - intros [= <-]. reflexivity.
  - destruct (widths !! idx); [|discriminate]. intros Hrun.
    rewrite (IH _ _ Hrun). apply length_insert.
Qed.

Lemma widen_row_none (widths : list nat) (idx : nat) (cells : list string) :
  (length widths < idx + length cells)%nat -> (idx <= length widths)%nat ->
  widen_row widths idx cells = None.
Proof.
  revert widths idx. induction cells as [|cell cells IH]; intros widths idx Hlong Hidx;
    simpl in *; [lia|].
  destruct (widths !! idx) as [width|] eqn:Hw; [|reflexivity].
  apply IH; rewrite length_insert; [lia|].
  assert (idx < length widths)%nat by (apply lookup_lt_is_Some; eauto). lia.
Qed.

Lemma widen_rows_some (widths : list nat) (rows : list (list string)) :
  Forall (fun row => (length row <= length widths)%nat) rows ->
  exists widths',
    widen_rows widths rows = Some widths' /\
    length widths' = length widths /\
    (forall i width, widths !! i = Some width ->
                     exists width', widths' !! i = Some width' /\ (width <= width')%nat) /\
    (forall row j cell, row ∈ rows -> row !! j = Some cell ->
                        exists width', widths' !! j = Some width' /\
                                       (String.length cell <= width')%nat).
Proof.
  revert widths. induction rows as [|row rows IH]; intros widths Hfit; simpl.
  - exists widths. repeat split; [eauto|]. intros row j c Hin. apply elem_of_nil in Hin.
    contradiction.
  - apply Forall_cons in Hfit as [Hrow Hfit].
    destruct (widen_row_some widths 0 row) as (widths1 & Hrun1 & Hlen1 & Hmono1 & Hcells1);
      [simpl; lia|].
    rewrite Hrun1.
    destruct (IH widths1) as (widths' & Hrun & Hlen & Hmono & Hcells).
    { eapply Forall_impl; [exact Hfit|]. intros r Hr. simpl in Hr. lia. }
    exists widths'. split; [exact Hrun|]. split; [congruence|]. split.
    + intros i wi Hi. destruct (Hmono1 i wi Hi) as (w1 & Hw1 & Hle1).
      destruct (Hmono i w1 Hw1) as (w' & Hw' & Hle). exists w'. split; [exact Hw'|lia].
    + intros r j c Hin Hj. apply elem_of_cons in Hin as [->|Hin]; [|eauto].
      destruct (Hcells1 j c Hj) as (w1 & Hw1 & Hle1). simpl in Hw1.
      destruct (Hmono j w1 Hw1) as (w' & Hw' & Hle). exists w'. split; [exact Hw'|lia].
Qed.

Lemma widen_rows_none (widths : list nat) (rows : list (list string)) :
  Exists (fun row => (length widths < length row)%nat) rows ->
  widen_rows widths rows = None.
Proof.
  revert widths. induction rows as [|row rows IH]; intros widths Hlong; simpl.
  - apply Exists_nil in Hlong. contradiction.
  - destruct (widen_row widths 0 row) as [widths1|] eqn:Hrow; [|reflexivity].
    apply Exists_cons in Hlong as [Hlong|Hlong].
    + rewrite widen_row_none in Hrow by (simpl; lia). discriminate.
    + apply IH. rewrite (widen_row_length _ _ _ _ Hrow). exact Hlong.
Qed.

Lemma pad_cells_some (widths : list nat) (idx : nat) (cells : list string) :
  (forall j cell, cells !! j = Some cell ->
                  exists width, widths !! (idx + j)%nat = Some width /\
                                (String.length cell <= width)%nat) ->
  exists padded,
    pad_cells widths idx cells = Some padded /\
    map String.length padded = take (length cells) (drop idx widths).
Proof.
  revert idx. induction cells as [|cell cells IH]; intros idx Hfits; simpl.
  - exists []. split; reflexivity.
  - destruct (Hfits 0%nat cell eq_refl) as (width & Hw & Hle). rewrite Nat.add_0_r in Hw.
    rewrite Hw.
    destruct (IH (S idx)) as (padded & Hrun & Hlens).
    { intros j c Hj. replace (S idx + j)%nat with (idx + S j)%nat by lia.
      apply Hfits. exact Hj. }
    rewrite Hrun. eexists. split; [reflexivity|]. simpl.
    rewrite length_ljust, Hlens.
    rewrite (drop_S _ _ _ Hw). simpl. f_equal. lia.
Qed.

(** A row with one cell for each column, in widths that fit its cells,
    is as long as the border. *)
Lemma fmt_row_length (widths : list nat) (row : list string) :
  length row = length widths ->
  (forall j cell, row !! j = Some cell ->
                  exists width, widths !! j = Some width /\
                                (String.length cell <= width)%nat) ->
  exists line,
    _fmt_row widths row = Some line /\
    String.length line
    = String.length ("+-" +:+ join "-+-" (map (repeat_char "-"%char) widths) +:+ "-+").
Proof.
  intros Hlen Hfits.
  destruct (pad_cells_some widths 0 row Hfits) as (padded & Hrun & Hlens).
  unfold _fmt_row. rewrite Hrun. eexists. split; [reflexivity|].
  rewrite Hlen, drop_0, firstn_all in Hlens.
  rewrite !string_length_app, !length_join, Hlens, !length_map.
  assert (Hdashes : map String.length (map (repeat_char "-"%char) widths) = widths).
  { clear. induction widths as [|wd widths IH]; simpl; [reflexivity|].
    rewrite length_repeat_char, IH. reflexivity. }
  rewrite Hdashes.
  assert (Hpadded : length padded = length widths).
  { rewrite <- (length_map String.length padded), Hlens. reflexivity. }
  rewrite Hpadded. reflexivity.
Qed.

Section TablesMore.
Context `{PyRuntime}.

(** X20: a table whose rows all have one cell for each header is
    rendered without error as the border, the header, the border, one
    line for each row and the border again, and all these lines have
    the same length: every column is as wide as its widest text. *)
Theorem format_table_rectangular (headers : list string) (rows : list (list pyval)) :
  Forall (fun row => length row = length headers) rows ->
  exists lines width,
    table_lines headers (map (map Py.str) rows) = Some lines /\
    _format_table headers rows = Some (join newline lines) /\
    length lines = (length rows + 4)%nat /\
    Forall (fun line => String.length line = width) lines.
Proof.
  intros Hexact.
  set (cells := map (map Py.str) rows).
  assert (Hcells : Forall (fun row => length row = length (map String.length headers)) cells).
  { unfold cells. rewrite Forall_fmap. eapply Forall_impl; [exact Hexact|].
    intros row Hrow. simpl. rewrite !length_map. exact Hrow. }
  destruct (widen_rows_some (map String.length headers) cells)
    as (widths & Hwiden & Hlen & Hmono & Hfit).
  { eapply Forall_impl; [exact Hcells|]. intros row Hrow. simpl in Hrow. lia. }
  set (border := "+-" +:+ join "-+-" (map (repeat_char "-"%char) widths) +:+ "-+").
  destruct (fmt_row_length widths headers) as (header_line & Hheader & Hheader_len).
  { rewrite Hlen, length_map. reflexivity. }
  { intros j h Hj.
    destruct (Hmono j (String.length h)) as (w' & Hw' & Hle); [|eauto].
    rewrite list_lookup_fmap, Hj. reflexivity. }
  assert (Hbody : exists body,
             fmt_rows widths cells = Some body /\ length body = length cells /\
             Forall (fun line => String.length line = String.length border) body).
  { assert (Hrows : forall row, row ∈ cells ->
               length row = length widths /\
               forall j cell, row !! j = Some cell ->
                 exists width, widths !! j = Some width /\
                               (String.length cell <= width)%nat).
    { intros row Hin. split; [|eauto].
      rewrite Forall_forall in Hcells. rewrite (Hcells row Hin). congruence. }
    clear Hcells Hwiden Hfit. induction cells as [|row cells' IH]; simpl.
    - exists []. repeat split. constructor.
    - destruct (Hrows row) as [Hrow_len Hrow_fit]; [apply list_elem_of_here|].
      destruct (fmt_row_length widths row Hrow_len Hrow_fit) as (line & Hline & Hline_len).
      destruct IH as (body & Hbody & Hbody_len & Hbody_all).
      { intros r Hr. apply Hrows. apply list_elem_of_further. exact Hr. }
      rewrite Hline, Hbody. eexists. split; [reflexivity|]. split; [simpl; congruence|].
      constructor; [exact Hline_len|exact Hbody_all]. }
  destruct Hbody as (body & Hbody & Hbody_len & Hbody_all).
  exists ([border; header_line; border] ++ body ++ [border]), (String.length border).
  assert (Hlines : table_lines headers cells
                   = Some ([border; header_line; border] ++ body ++ [border])).
  { unfold table_lines. rewrite Hwiden, Hheader, Hbody. reflexivity. }
  split; [exact Hlines|]. split; [unfold _format_table; fold cells; rewrite Hlines; reflexivity|].
  split.
  - simpl. rewrite length_app, Hbody_len. unfold cells. rewrite length_map. simpl. lia.
  - repeat (constructor; [first [reflexivity | exact Hheader_len]|]).
    apply Forall_app. split; [exact Hbody_all|]. repeat constructor.
Qed.

(** X21: [_format_table] fails, with the [IndexError] of the width
    computation, exactly when some row has more cells than there are
    headers. *)
Theorem format_table_index_error (headers : list string) (rows : list (list pyval)) :
  _format_table headers rows = None <->
  Exists (fun row => (length headers < length row)%nat) rows.
Proof.
  set (cells := map (map Py.str) rows).
  split.
  - intros Hnone.
    destruct (decide (Exists (fun row => (length headers < length row)%nat) rows))
      as [Hlong|Hshort]; [exact Hlong|exfalso].
    apply not_Exists_Forall in Hshort; [|intros row; apply _].
    assert (Hfit : Forall (fun row => (length row <= length (map String.length headers))%nat)
                          cells).
    { unfold cells. rewrite Forall_fmap. eapply Forall_impl; [exact Hshort|].
      intros row Hrow. simpl in *. rewrite !length_map. lia. }
    destruct (widen_rows_some _ _ Hfit) as (widths & Hwiden & Hlen & Hmono & Hcover).
    rewrite length_map in Hlen.
    assert (Hrow : forall row, (length row <= length widths)%nat ->
                     (forall j cell, row !! j = Some cell ->
                        exists width, widths !! j = Some width /\
                                      (String.length cell <= width)%nat) ->
                     exists line, _fmt_row widths row = Some line).
    { intros row Hrow_len Hrow_fit.
      destruct (pad_cells_some widths 0 row Hrow_fit) as (padded & Hpad & _).
      unfold _fmt_row. rewrite Hpad. eauto. }
    destruct (Hrow headers) as (header_line & Hheader); [lia| |].
    { intros j h Hj. destruct (Hmono j (String.length h)) as (w' & Hw' & Hle); [|eauto].
      rewrite list_lookup_fmap, Hj. reflexivity. }
    assert (Hbody : exists body, fmt_rows widths cells = Some body).
    { assert (Hrows : forall row, row ∈ cells ->
                 exists line, _fmt_row widths row = Some line).
      { intros row Hin. apply Hrow; [|eauto].
        rewrite Forall_forall in Hfit. specialize (Hfit row Hin). simpl in Hfit.
        rewrite length_map in Hfit. lia. }
      clear Hfit Hwiden Hcover. induction cells as [|row cells' IH]; simpl; [eauto|].
      destruct (Hrows row) as (line & ->); [apply list_elem_of_here|].
      destruct IH as (body & ->); [|eauto].
      intros r Hr. apply Hrows. apply list_elem_of_further. exact Hr. }
    destruct Hbody as (body & Hbody).
    unfold _format_table, table_lines in Hnone. fold cells in Hnone.
    rewrite Hwiden, Hheader, Hbody in Hnone. discriminate.
  - intros Hlong. unfold _format_table, table_lines. fold cells.
    rewrite widen_rows_none; [reflexivity|].
    unfold cells. rewrite Exists_fmap. eapply Exists_impl; [exact Hlong|].
    intros row Hrow. simpl. rewrite !length_map. exact Hrow.
Qed.

End TablesMore.

Lemma format_table_rectangular_witness :
  table_lines ["Rank"; "Node"] [["0"; "node-a"]; ["10"; "b"]]
  = Some [ "+------+--------+";
           "| Rank | Node   |";
           "+------+--------+";
           "| 0    | node-a |";
           "| 10   | b      |";
           "+------+--------+" ] /\
  exists lines width,
    table_lines ["Rank"; "Node"]
      (map (map (@Py.str plain_runtime)) [[PInt 0; PStr "node-a"]; [PInt 10; PStr "b"]])
    = Some lines /\
    @_format_table plain_runtime ["Rank"; "Node"]
      [[PInt 0; PStr "node-a"]; [PInt 10; PStr "b"]]
    = Some (join newline lines) /\
    length lines = (2 + 4)%nat /\
    Forall (fun line => String.length line = width) lines.
Proof.
  split; [vm_compute; reflexivity|].
  apply (@format_table_rectangular plain_runtime). repeat constructor.
Defined.

(** ** Prompts *)

Section PromptsMore.
Context `{PyRuntime}.

Lemma prompt_int_loop_spec (default : Z) (min_value : option Z) (lines : list string)
    (w : world) :
  w_stdin w = lines ->
  wp (prompt_int_loop default min_value lines)
     (fun r w' =>
        match r with
        | Ret value =>
            exists before line,
              lines = before ++ line :: w_stdin w' /\
              acceptable default min_value line value /\
              Forall (fun l => forall v, ~ acceptable default min_value l v) before
        | Raise e =>
            e = Exn EOFError "EOF when reading a line" /\ w_stdin w' = [] /\
            Forall (fun l => forall v, ~ acceptable default min_value l v) lines
        | Hang => False
        end) w.
Proof.
  revert w. induction lines as [|line lines IH]; intros w Hstdin.
  - unfold prompt_int_loop, _prompt_text, input_line.
    apply wp_bind. apply wp_bind. apply wp_bind. apply wp_gets. rewrite Hstdin.
    apply wp_raise. repeat split; [exact Hstdin|constructor].
  - assert (Hrejected :
              (forall v, ~ acceptable default min_value line v) ->
              wp (prompt_int_loop default min_value lines)
                 (fun r w' =>
                    match r with
                    | Ret value =>
                        exists before line',
                          line :: lines = before ++ line' :: w_stdin w' /\
                          acceptable default min_value line' value /\
                          Forall (fun l => forall v, ~ acceptable default min_value l v) before
                    | Raise e =>
                        e = Exn EOFError "EOF when reading a line" /\ w_stdin w' = [] /\
                        Forall (fun l => forall v, ~ acceptable default min_value l v)
                               (line :: lines)
                    | Hang => False
                    end) (set_stdin lines w)).
    { intros Hno. eapply wp_mono; [apply IH; reflexivity|].
      intros [value|e|] w' Hpost; [| |exact Hpost].
      - destruct Hpost as (before & line' & -> & Hok & Hbefore).
        exists (line :: before), line'. split; [reflexivity|]. split; [exact Hok|].
        constructor; [exact Hno|exact Hbefore].
      - destruct Hpost as (-> & Hempty & Hall). repeat split; [exact Hempty|].
        constructor; [exact Hno|exact Hall]. }
    cbn [prompt_int_loop]. unfold _prompt_text, input_line.
    apply wp_bind. apply wp_bind. apply wp_bind. apply wp_gets. rewrite Hstdin.
    apply wp_bind. apply wp_modify. apply wp_ret.
    assert (Hraw : wp (if String.eqb (py_strip line) "" then mret (pretty default)
                       else mret (py_strip line))
                      (fun r w' => r = Ret (typed_or_default default line) /\
                                   w' = set_stdin lines w) (set_stdin lines w)).
    { unfold typed_or_default. destruct (String.eqb (py_strip line) ""); apply wp_ret; auto. }
    eapply wp_mono; [exact Hraw|]. intros r w1 [-> ->].
    destruct (Py.int (PStr (typed_or_default default line))) as [e|value] eqn:Hint.
    + apply Hrejected. intros v [Hv _]. congruence.
    + destruct min_value as [m|].
      * destruct (value <? m) eqn:Hlow.
        -- apply Z.ltb_lt in Hlow. apply Hrejected. intros v [Hv Hm].
           assert (v = value) by congruence. subst v. simpl in Hm. lia.
        -- apply Z.ltb_ge in Hlow. apply wp_ret.
           exists [], line. repeat split; [exact Hint|exact Hlow|constructor].
      * apply wp_ret. exists [], line. repeat split; [exact Hint|constructor].
Qed.

(** X22: an integer prompt always ends. It returns the value of the
    first line typed that reads as an integer not below the lower
    bound, a blank line standing for the default, and it consumes the
    lines up to that one; when no such line comes before the end of the
    input, it raises the [EOFError] of [input]. *)
Theorem prompt_int_first_acceptable (default : Z) (min_value : option Z) (w : world) :
  let run := _prompt_int default min_value w in
  match run.1 with
  | Ret value =>
      exists before line,
        w_stdin w = before ++ line :: w_stdin run.2 /\
        acceptable default min_value line value /\
        Forall (fun l => forall v, ~ acceptable default min_value l v) before
  | Raise e =>
      e = Exn EOFError "EOF when reading a line" /\ w_stdin run.2 = [] /\
      Forall (fun l => forall v, ~ acceptable default min_value l v) (w_stdin w)
  | Hang => False
  end.
Proof.
  intros run. subst run. unfold _prompt_int.
  rewrite (bind_run_ret (gets w_stdin) _ _ _ _ eq_refl).
  apply (prompt_int_loop_spec default min_value (w_stdin w) w eq_refl).
Qed.

End PromptsMore.

(** ** The worker mode *)

Lemma wp_send_appends (ch : nat) (payload : pydict) (w : world) :
  wp (JsonChannel.send ch payload)
     (fun r w' => r = Ret tt ->
                  sk_sent (the_sock ch w') = sk_sent (the_sock ch w) ++ [PDict payload]) w.
Proof.
  unfold JsonChannel.send, JsonChannel.sock_of, JsonChannel.put_sock.
  wp_steps; try discriminate; intros _; rewrite the_sock_put; reflexivity.
Qed.

Lemma recv_keeps_sent (ch : nat) (timeout : option Q) (w : world) :
  wp (JsonChannel.recv ch timeout)
     (fun _ w' => sk_sent (the_sock ch w') = sk_sent (the_sock ch w)) w.
Proof.
  unfold JsonChannel.recv, JsonChannel.gettimeout, JsonChannel.settimeout,
    JsonChannel.readline, JsonChannel.sock_of, JsonChannel.put_sock.
  wp_steps; rewrite ?the_sock_put; simpl; rewrite ?the_sock_put; simpl;
    rewrite ?the_sock_put; reflexivity.
Qed.

Lemma close_keeps_sent (ch : nat) (w : world) :
  JsonChannel.close ch w
  = (Ret tt, set_socks (insert ch (JsonChannel.with_closed (the_sock ch w))) w).
Proof. reflexivity. Qed.

Section WorkerModeMore.
Context `{PyRuntime}.

Lemma worker_command_loop_returns (ch : nat) (w w' : world) (z : Z) :
  _worker_command_loop ch w = (Ret z, w') ->
  z = 0 /\ last (sk_sent (the_sock ch w')) = Some (PDict shutdown_ack).
Proof.
  unfold _worker_command_loop. intros Hrun.
  apply bind_ret_inv in Hrun as ([] & w1 & _ & Hrun).
  apply try_finally_ret_inv in Hrun as (w2 & Hloop & Hdown).
  unfold command_loop_from in Hloop.
  destruct (command_loop (S (rx_pending ch w1)) ch w1) as [[r w3]|] eqn:Hfuel;
    simpl in Hloop; [|discriminate].
  injection Hloop as -> ->.
  destruct (command_loop_returns_on_shutdown _ _ _ _ _ Hfuel) as [-> Hlast].
  split; [reflexivity|].
  pose proof (shutdown_all_empties w2) as Hsocks. unfold wp in Hsocks.
  rewrite Hdown in Hsocks. simpl in Hsocks. destruct Hsocks as (_ & _ & Hsocks).
  unfold the_sock in *. rewrite Hsocks. exact Hlast.
Qed.

Lemma worker_session_returns (ch : nat) (local_ip : string) (w : world) :
  wp (worker_session ch local_ip)
     (fun r w' =>
        forall z, r = Ret z ->
          (z = 0 /\ last (sk_sent (the_sock ch w')) = Some (PDict shutdown_ack)) \/
          (z = 1 /\
           sk_sent (the_sock ch w')
           = sk_sent (the_sock ch w)
             ++ [PDict (register_payload (te_hostname (w_torch w)) local_ip
                          (match te_import (w_torch w) with
                           | None => te_device_count (w_torch w)
                           | Some _ => -1
                           end))])) w.
Proof.
  unfold worker_session, reply_get.
  apply wp_bind. apply wp_gets. apply wp_bind.
  eapply wp_mono; [apply wp_send_appends|].
  intros [[]|e|] w1 Hsent; [|discriminate..]. specialize (Hsent eq_refl).
  apply wp_bind. eapply wp_mono; [apply recv_keeps_sent|].
  intros [reg|e|] w2 Hkept; [|discriminate..].
  apply wp_bind. apply wp_lift.
  destruct (Py.getattr_get reg "type" (PStr "")) as [e|ty]; [discriminate|].
  destruct (negb (Py.str ty =? "registered")%string).
  - apply wp_ret. intros z [= <-]. right. split; [reflexivity|]. congruence.
  - apply wp_bind. apply wp_lift.
    destruct (Py.getattr_get reg "world_size" PNone) as [e|world_size]; [discriminate|].
    apply wp_bind. apply wp_lift.
    destruct (Py.int world_size) as [e|n]; [discriminate|].
    apply wp_intro. intros r w3 Hloop z ->. left.
    exact (worker_command_loop_returns _ _ _ _ Hloop).
Qed.

(** X23: the worker mode. A connection that cannot be made gives exit
    status 1. Once connected, the mode closes its channel whenever it
    ends, by returning or by raising; it returns 0 only after a
    [shutdown] command, and the acknowledgement is then the last
    message it sent; it returns 1 only when the reply to its
    registration was not [registered], and the registration is then
    the only message it sent. *)
Theorem worker_mode_exit_status (s : sock) (local_ip : string) (e : exn) (w : world) :
  let ch := fresh (dom (w_socks w)) in
  let run := run_worker_mode (Connected s local_ip) w in
  run_worker_mode (ConnectFailed e) w = (Ret 1, w) /\
  (run.1 <> Hang -> sk_closed (the_sock ch run.2) = true) /\
  (forall z,
     run.1 = Ret z ->
     (z = 0 /\ last (sk_sent (the_sock ch run.2)) = Some (PDict shutdown_ack)) \/
     (z = 1 /\
      sk_sent (the_sock ch run.2)
      = sk_sent s
        ++ [PDict (register_payload (te_hostname (w_torch w)) local_ip
                     (match te_import (w_torch w) with
                      | None => te_device_count (w_torch w)
                      | Some _ => -1
                      end))])).
Proof.
  intros ch run. split; [reflexivity|].
  subst run. unfold run_worker_mode, open_channel.
  set (w1 := set_socks (insert ch (JsonChannel.with_timeout (seconds 30) s)) w).
  assert (Hopen : forall k : nat -> M Z,
            ((socks ← gets w_socks;
              let ch := fresh (dom socks) in
              modify (set_socks (insert ch (JsonChannel.with_timeout (seconds 30) s))) ;;
              mret ch) ≫= k) w = k ch w1) by reflexivity.
  rewrite Hopen. clear Hopen.
  pose proof (worker_session_returns ch local_ip w1) as Hsession. unfold wp in Hsession.
  unfold try_finally.
  destruct (worker_session ch local_ip w1) as [[z|e'|] w2]; simpl in Hsession;
    rewrite ?close_keeps_sent; simpl.
  - split; [intros _; rewrite the_sock_put; reflexivity|].
    intros z' [= <-]. rewrite the_sock_put. simpl.
    destruct (Hsession z eq_refl) as [Hzero|[-> Hone]]; [left; exact Hzero|right].
    split; [reflexivity|]. rewrite Hone. unfold w1. rewrite the_sock_put. reflexivity.
  - split; [intros _; rewrite the_sock_put; reflexivity|]. intros z' Hz. discriminate.
  - split; [intros Habs; congruence|]. intros z' Hz. discriminate.
Qed.

End WorkerModeMore.

Lemma worker_mode_exit_status_witness :
  let ch := fresh (dom (w_socks idle_world)) in
  let run := @run_worker_mode plain_runtime (Connected polite_host "10.0.0.2") idle_world in
  run.1 = Ret 0 /\
  sk_closed (the_sock ch run.2) = true /\
  sk_sent (the_sock ch run.2)
  = [ PDict (register_payload "node-b" "10.0.0.2" 1); PDict shutdown_ack ].
Proof.
  intros ch run.
  assert (Hret : run.1 = Ret 0) by (vm_compute; reflexivity).
  split; [exact Hret|]. split; [|vm_compute; reflexivity].
  apply (proj1 (proj2 (@worker_mode_exit_status plain_runtime polite_host "10.0.0.2"
                         (Exn OSError "") idle_world))).
  fold run. rewrite Hret. discriminate.
Defined.

(** ** The command line *)

Section CommandLineMore.
Context `{PyRuntime}.

Lemma runner_error_flag (env : torch_env) (rank world_size : Z) (master_addr : string)
    (master_port timeout_seconds : Z) (result : pydict) :
  _run_nccl_distributed env rank world_size master_addr master_port timeout_seconds
  = inr result ->
  Py.get "world_size" result = PInt world_size /\
  Py.truthy (Py.get "error" result) = negb (Py.truthy (Py.get "ok" result)).
Proof.
  unfold _run_nccl_distributed.
  destruct (expected_sum_float world_size) as [e|expected]; [discriminate|].
  destruct (te_import env) as [e|]; [intros [= <-]; split; reflexivity|].
  destruct (nccl_try_body env rank) as [e|reduced].
  - intros [= <-]. cbn. split; [reflexivity|].
    unfold Py.exn_repr. destruct (exn_cls e); reflexivity.
  - destruct (Py.Qlt_bool (Qabs (reduced - expected)) tolerance);
      intros [= <-]; split; reflexivity.
Qed.

Lemma never_hangs_run_optional_output cmd timeout :
  never_hangs (_run_optional_output cmd timeout).
Proof. pose proof never_hangs_run_command. unfold _run_optional_output. never_hangs. Qed.

(** [run_check_env] returns, and touches nothing but the script of
    subprocess outcomes. *)
Lemma run_check_env_returns (env : cli_env) (w : world) :
  exists runs, run_check_env env w = (Ret tt, set_run runs w).
Proof.
  assert (Hcommand : forall cmd timeout w0,
            exists r runs, _run_command cmd timeout w0 = (Ret r, set_run runs w0)).
  { intros cmd timeout w0. destruct w0 as [socks accept bound stdin runs0 popen spawned
                                              killed servers torch out workers].
    unfold _run_command, mbind, M_bind, gets, modify, mret, M_ret, set_run. simpl.
    destruct runs0 as [|[rc out' err|e|out' err|e] script]; simpl;
      do 2 eexists; reflexivity. }
  assert (Hoptional : forall cmd timeout w0,
            exists r runs, _run_optional_output cmd timeout w0 = (Ret r, set_run runs w0)).
  { intros cmd timeout w0. unfold _run_optional_output.
    destruct (Hcommand cmd timeout w0) as ([[code out] err] & runs & Hrun).
    rewrite (bind_run_ret _ _ _ _ _ Hrun).
    destruct (code =? 0); do 2 eexists; reflexivity. }
  unfold run_check_env.
  destruct (Hoptional ["nvidia-smi"; "-L"] 20 w) as (r1 & runs1 & H1).
  rewrite (bind_run_ret _ _ _ _ _ H1).
  destruct (Hcommand ["nvidia-smi"; "--query-gpu=driver_version"; "--format=csv,noheader"]
              20 (set_run runs1 w)) as (r2 & runs2 & H2).
  rewrite (bind_run_ret _ _ _ _ _ H2).
  assert (H3 : exists r runs,
             (if ce_windows env then _run_optional_output ["ipconfig"] 20
              else _run_optional_output ["ip"; "-br"; "a"] 20) (set_run runs2 (set_run runs1 w))
             = (Ret r, set_run runs (set_run runs2 (set_run runs1 w)))).
  { destruct (ce_windows env); apply Hoptional. }
  destruct H3 as (r3 & runs3 & H3). rewrite (bind_run_ret _ _ _ _ _ H3).
  exists runs3. reflexivity.
Qed.

(** The report of a collective test result: one status line, and the
    error line exactly when the test did not pass. *)
Lemma print_runner_result (env : torch_env) (rank world_size : Z) (master_addr : string)
    (master_port timeout_seconds : Z) (label : string) (w : world) (result : pydict) :
  _run_nccl_distributed env rank world_size master_addr master_port timeout_seconds
  = inr result ->
  exists status_line,
    _print_nccl_result result label w
    = (Ret tt,
       set_out (w_out w ++ OutLine status_line ::
                  (if Py.truthy (Py.get "ok" result) then []
                   else [OutLine (label +:+ " error=" +:+ Py.str (Py.get "error" result))]))
               w).
Proof.
  intros Hresult.
  destruct (runner_error_flag env rank world_size master_addr master_port
              timeout_seconds result Hresult) as [Hsize Hflag].
  unfold _print_nccl_result. rewrite Hsize. simpl minus_one. unfold lift.
  unfold print_line, mbind, M_bind, modify, mret, M_ret. cbv beta iota. rewrite Hflag.
  destruct (Py.truthy (Py.get "ok" result)); cbn [negb]; cbv beta iota; eexists.
  - reflexivity.
  - unfold set_out. simpl. rewrite <- app_assoc. reflexivity.
Qed.

Lemma local_test_report (rank world_size : Z) (master_addr : string)
    (master_port timeout_seconds : Z) (label : string) (w : world) (result : pydict) :
  _run_nccl_distributed (w_torch w) rank world_size master_addr master_port timeout_seconds
  = inr result ->
  exists status_line,
    (result ← run_nccl rank world_size master_addr master_port timeout_seconds;
     _print_nccl_result result label ;; mret (status_of result)) w
    = (Ret (status_of result),
       set_out (w_out w ++ OutLine status_line ::
                  (if Py.truthy (Py.get "ok" result) then []
                   else [OutLine (label +:+ " error=" +:+ Py.str (Py.get "error" result))]))
               w).
Proof.
  intros Hresult.
  assert (Hrun : run_nccl rank world_size master_addr master_port timeout_seconds w
                 = (Ret result, w)).
  { unfold run_nccl, mbind, M_bind, gets, lift. rewrite Hresult. reflexivity. }
  rewrite (bind_run_ret _ _ _ _ _ Hrun).
  destruct (print_runner_result (w_torch w) rank world_size master_addr master_port
              timeout_seconds label w result Hresult) as (status_line & Hprint).
  rewrite (bind_run_ret _ _ _ _ _ Hprint).
  exists status_line. reflexivity.
Qed.

(** The single-node test, a group of one, always has a result. *)
Lemma single_test_returns (env : torch_env) (rank : Z) (master_addr : string)
    (master_port timeout_seconds : Z) :
  exists result,
    _run_nccl_distributed env rank 1 master_addr master_port timeout_seconds = inr result.
Proof.
  apply runner_returns. apply small_world_size. reflexivity.
Qed.

(** X24: in the single mode, [main] always returns. When the test
    passes it prints one status line and the exit status is 0; when it
    does not, it prints the status line and then the error, and the
    exit status is 2. Nothing else of the world changes. *)
Theorem main_single_reports (env : cli_env) (args : Namespace) (w : world) :
  a_mode args = "single" ->
  exists result status_line,
    _run_nccl_distributed (w_torch w) 0 1 "127.0.0.1" (DEFAULT_MASTER_PORT + 1) 60
    = inr result /\
    main env args w
    = (Ret (if Py.truthy (Py.get "ok" result) then 0 else 2),
       set_out (w_out w ++ OutLine status_line ::
                  (if Py.truthy (Py.get "ok" result) then []
                   else [OutLine ("[single] error=" +:+ Py.str (Py.get "error" result))]))
               w).
Proof.
  intros Hmode.
  destruct (single_test_returns (w_torch w) 0 "127.0.0.1" (DEFAULT_MASTER_PORT + 1) 60)
    as [result Hresult].
  destruct (local_test_report 0 1 "127.0.0.1" (DEFAULT_MASTER_PORT + 1) 60 "[single]" w
              result Hresult) as [status_line Hreport].
  exists result, status_line. split; [exact Hresult|].
  unfold main. rewrite Hmode. simpl. exact Hreport.
Qed.

(** X25: in the host mode, [main] is [run_host_mode] on the cluster
    size, the master address, the two ports, the timeout and the probe
    duration of the command line, an argument that is not positive
    being replaced by its default (2 nodes, ports 29500 and 29610, 180
    and 5 seconds) and an empty master address by the detected one. All
    of them are positive and the address is not empty; the cluster size
    is below 2 only when the argument was 1. The control port is the
    one the listener is bound to: when it is above 65535, or when the
    system refuses that port, the exit status is 1 and nothing has been
    done. *)
Theorem main_host_arguments (env : cli_env) (args : Namespace) (w : world) :
  a_mode args = "host" ->
  let cluster_size := if 0 <? a_cluster_size args then a_cluster_size args else 2 in
  let control_port := if 0 <? a_control_port args then a_control_port args else 29610 in
  let master_port := if 0 <? a_master_port args then a_master_port args else 29500 in
  let master_addr :=
    if String.eqb (a_master_addr args) "" then _detect_host_ip_guess env
    else a_master_addr args in
  let timeout_seconds :=
    if 0 <? a_nccl_timeout_seconds args then a_nccl_timeout_seconds args else 180 in
  let iperf_duration :=
    if 0 <? a_iperf_duration_seconds args then a_iperf_duration_seconds args else 5 in
  main env args w
  = run_host_mode cluster_size master_addr master_port control_port timeout_seconds
                  iperf_duration w /\
  0 < cluster_size /\
  (a_cluster_size args <> 1 -> 2 <= cluster_size) /\
  master_addr <> "" /\
  0 < master_port /\ 0 < control_port /\ 0 < timeout_seconds /\ 0 < iperf_duration /\
  (65535 < control_port \/ w_bind w control_port <> None -> main env args w = (Ret 1, w)).
Proof.
  intros Hmode cluster_size control_port master_port master_addr timeout_seconds
         iperf_duration.
  assert (Hmain : main env args w
                  = run_host_mode cluster_size master_addr master_port control_port
                                  timeout_seconds iperf_duration w).
  { unfold main. rewrite Hmode. reflexivity. }
  assert (Hpositive : forall x dflt, 0 < dflt -> 0 < (if 0 <? x then x else dflt)).
  { intros x dflt Hd. destruct (0 <? x) eqn:Hx; [|exact Hd].
    apply Z.ltb_lt. exact Hx. }
  split; [exact Hmain|].
  split; [apply Hpositive; reflexivity|]. split.
  { intros Hone. subst cluster_size. destruct (0 <? a_cluster_size args) eqn:Hx; [|lia].
    apply Z.ltb_lt in Hx. lia. }
  split.
  { apply (str_or_not_empty (a_master_addr args)). unfold _detect_host_ip_guess.
    destruct (ce_route_ip env) as [e|ip], (ce_resolved_ip env) as [e'|ip'];
      repeat match goal with
             | |- context [String.eqb ?a ?b] =>
                 let E := fresh "E" in destruct (String.eqb a b) eqn:E
             end; simpl; try discriminate;
      try (apply String.eqb_neq; assumption). }
  split; [apply Hpositive; reflexivity|]. split; [apply Hpositive; reflexivity|].
  split; [apply Hpositive; reflexivity|]. split; [apply Hpositive; reflexivity|].
  intros Hrefused. rewrite Hmain. apply run_host_mode_no_listener. tauto.
Qed.

(** X26: the full mode, up to its first question. It runs the
    environment check and the single-node test and prints the result
    whatever they find; without a line of input to read, it then raises
    the [EOFError] of [input]; with an answer other than [y], [yes],
    [1] or [true], it returns the exit status of the single-node test,
    having read that one line and opened no connection. *)
Theorem full_mode_after_single_test (env : cli_env) (args : Namespace) (w : world) :
  exists result,
  _run_nccl_distributed (w_torch w) 0 1 "127.0.0.1" (DEFAULT_MASTER_PORT + 1) 60
  = inr result /\
  let run := run_full_interactive env args w in
  (w_stdin w = [] -> run.1 = Raise (Exn EOFError "EOF when reading a line")) /\
  (forall line rest,
     w_stdin w = line :: rest ->
     py_lower (py_strip line) ∉ ["y"; "yes"; "1"; "true"] ->
     run.1 = Ret (if Py.truthy (Py.get "ok" result) then 0 else 2) /\
     w_stdin run.2 = rest /\
     w_socks run.2 = w_socks w /\
     w_workers run.2 = w_workers w).
Proof.
  destruct (single_test_returns (w_torch w) 0 "127.0.0.1" (DEFAULT_MASTER_PORT + 1) 60)
    as [result Hresult].
  exists result. split; [exact Hresult|].
  intros run. subst run. unfold run_full_interactive.
  destruct (run_check_env_returns env w) as (runs & Hcheck).
  rewrite (bind_run_ret _ _ _ _ _ Hcheck).
  set (w1 := set_run runs w).
  assert (Hsingle : run_nccl_single w1 = (Ret result, w1)).
  { unfold run_nccl_single, run_nccl, mbind, M_bind, gets, lift.
    change (w_torch w1) with (w_torch w). rewrite Hresult. reflexivity. }
  rewrite (bind_run_ret _ _ _ _ _ Hsingle).
  destruct (print_runner_result (w_torch w) 0 1 "127.0.0.1" (DEFAULT_MASTER_PORT + 1) 60
              "[single]" w1 result Hresult) as (status_line & Hprint).
  rewrite (bind_run_ret _ _ _ _ _ Hprint).
  match goal with
  | |- context [set_out ?lines w1] => set (w2 := set_out lines w1)
  end.
  split.
  - intros Hempty. unfold _prompt_yes_no, input_line, mbind, M_bind, gets.
    change (w_stdin w2) with (w_stdin w). rewrite Hempty. reflexivity.
  - intros line rest Hline Hdeclines.
    unfold _prompt_yes_no, input_line, mbind, M_bind, gets, modify, mret, M_ret.
    change (w_stdin w2) with (w_stdin w). rewrite Hline. cbv beta iota.
    destruct (String.eqb (py_lower (py_strip line)) ""); cbv beta iota; cbn [negb].
    + repeat split; reflexivity.
    + rewrite bool_decide_eq_false_2 by exact Hdeclines. cbn [negb].
      repeat split; reflexivity.
Qed.

End CommandLineMore.

Lemma main_single_reports_witness :
  exists status_line,
    @main plain_runtime lone_machine (arguments "single") idle_world
    = (Ret 2,
       set_out [ OutLine status_line;
                 OutLine ("[single] error="
                          +:+ "all_reduce sum mismatch: got=<float>, expected=<float>") ]
               idle_world).
Proof.
  destruct (@main_single_reports plain_runtime lone_machine (arguments "single") idle_world
              eq_refl) as (result & status_line & Hresult & Hmain).
  exists status_line. vm_compute in Hresult. inversion Hresult; subst result.
  exact Hmain.
Defined.

Lemma main_host_arguments_witness :
  @main plain_runtime lone_machine (arguments "host") idle_world
  = @run_host_mode plain_runtime 2 (@_detect_host_ip_guess lone_machine) 29500 29610 180 5
      idle_world.
Proof.
  exact (proj1 (@main_host_arguments plain_runtime lone_machine (arguments "host") idle_world
                  eq_refl)).
Defined.

Lemma prompt_int_first_acceptable_witness :
  let run := @_prompt_int digits_runtime 2 (Some 2) typing_world in
  run.1 = Ret 3 /\
  w_stdin run.2 = ["start"] /\
  match run.1 with
  | Ret value =>
      exists before line,
        w_stdin typing_world = before ++ line :: w_stdin run.2 /\
        @acceptable digits_runtime 2 (Some 2) line value /\
        Forall (fun l => forall v, ~ @acceptable digits_runtime 2 (Some 2) l v) before
  | Raise e =>
      e = Exn EOFError "EOF when reading a line" /\ w_stdin run.2 = [] /\
      Forall (fun l => forall v, ~ @acceptable digits_runtime 2 (Some 2) l v)
             (w_stdin typing_world)
  | Hang => False
  end.
Proof.
  split; [vm_compute; reflexivity|]. split; [vm_compute; reflexivity|].
  exact (@prompt_int_first_acceptable digits_runtime 2 (Some 2) typing_world).
Defined.

(** ** The worker's reply to the host's command *)

Section ProtocolMore.
Context `{PyRuntime}.

(** X27: the host's [start_nccl] command and the worker's reply fit
    each other. On a healthy channel the worker reads every field of
    the command the host builds, runs the test with the rank, the world
    size, the address, the port and the timeout the host chose, and
    sends back one message: the test result under the type
    [nccl_result]. The host takes such a reply as the worker's entry as
    it stands, and sorts it under the worker's rank. *)
Theorem worker_answers_start_nccl (ch : nat) (w : world) (worker : WorkerConnection)
    (cluster_size : Z) (master_addr : string) (master_port nccl_timeout_seconds : Z)
    (rx : list rx_event) :
  Z.abs cluster_size <= 2 ^ 511 ->
  sk_closed (the_sock ch w) = false ->
  sk_timed_out (the_sock ch w) = false ->
  valid_timeout (sk_timeout (the_sock ch w)) ->
  flush_succeeds (the_sock ch w) ->
  sk_rx (the_sock ch w)
  = RxLine (Some (PDict (start_nccl_command worker cluster_size master_addr master_port
                                            nccl_timeout_seconds))) :: rx ->
  exists result,
    _run_nccl_distributed (w_torch w) (wc_rank worker) cluster_size master_addr
                          master_port nccl_timeout_seconds = inr result /\
    let answer := ("type", PStr "nccl_result") :: result in
    worker_step ch w = (Ret None, answered ch rx answer w) /\
    entry_for cluster_size worker (Ret (PDict answer)) answer /\
    rank_key answer = inr (wc_rank worker) /\
    Forall (fun k => Py.dict_get k answer = Py.dict_get k result) result_fields.
Proof.
  intros Hsize Hopen Hfresh Hvalid Hflush Hrx.
  destruct (runner_returns (w_torch w) (wc_rank worker) cluster_size master_addr
              master_port nccl_timeout_seconds Hsize) as [result Hresult].
  exists result. split; [exact Hresult|]. intros answer.
  destruct (runner_result_cases _ _ _ _ _ _ _ Hresult)
    as (expected & ok & sum & error & _ & Hshape & _).
  assert (Hrun : run_nccl (wc_rank worker) cluster_size master_addr master_port
                   nccl_timeout_seconds
                   (set_socks (insert ch (JsonChannel.with_rx rx false (the_sock ch w))) w)
                 = (Ret result, set_socks (insert ch (JsonChannel.with_rx rx false
                                                        (the_sock ch w))) w)).
  { unfold run_nccl, mbind, M_bind, gets, lift.
    change (w_torch (set_socks _ w)) with (w_torch w). rewrite Hresult. reflexivity. }
  assert (Hmerge : Py.dict_merge [("type", PStr "nccl_result")] result = answer).
  { subst answer. rewrite Hshape. reflexivity. }
  clearbody answer. split; [|split; [|split]].
  - unfold worker_step.
    rewrite (bind_run_ret _ _ _ _ _
               (recv_line ch None w _ rx Hopen Hfresh Hvalid I Hrx)).
    unfold start_nccl_command, msg_int, msg_int_or, msg_str.
    cbn [Py.str Py.get_or Py.dict_get Py.getitem Py.getattr_get Py.int String.eqb
         Ascii.eqb Bool.eqb default lift mbind M_bind mret M_ret fst snd].
    unfold mbind, M_bind, mret, M_ret, id, lift.
    cbn [Py.str Py.int String.eqb Ascii.eqb Bool.eqb]. cbv beta iota.
    unfold mret, M_ret. cbv beta iota zeta.
    rewrite Hrun. cbv beta iota zeta.
    unfold reply. rewrite Hmerge.
    rewrite send_delivers; rewrite ?the_sock_put; simpl; auto.
    unfold answered, JsonChannel.with_tx, JsonChannel.with_rx.
    rewrite put_sock_twice. simpl. rewrite Hopen. reflexivity.
  - subst answer. rewrite Hshape. simpl. reflexivity.
  - subst answer. rewrite Hshape. reflexivity.
  - subst answer. rewrite Hshape. repeat constructor.
Qed.

End ProtocolMore.

Lemma worker_answers_start_nccl_witness :
  let result :=
    match @_run_nccl_distributed plain_runtime healthy_rank1_of_3 1 2 "10.0.0.1"
            29500 180 with
    | inr result => result
    | inl _ => []
    end in
  let reply := ("type", PStr "nccl_result") :: result in
  @worker_step plain_runtime 0%nat commanded_worker_world
  = (Ret None, answered 0%nat [] reply commanded_worker_world) /\
  @entry_for plain_runtime 2 worker1 (Ret (PDict reply)) reply /\
  @rank_key plain_runtime reply = inr 1 /\
  Forall (fun k => Py.dict_get k reply = Py.dict_get k result) (@result_fields).
Proof.
  destruct (@worker_answers_start_nccl plain_runtime 0%nat commanded_worker_world worker1 2
              "10.0.0.1" 29500 180 []) as (result & Hresult & Hanswer);
    try reflexivity; try exact I.
  - apply small_world_size. reflexivity.
  - vm_compute in Hresult. inversion Hresult; subst result. exact Hanswer.
Defined.
